(** * nvidia-vaapi-driver: the decode pipeline of [vabackend.c]

    A shallow embedding of the VA-API entry points of [src/vabackend.c]
    (object registry, appendable buffer, Config/Context/Surface/Buffer
    life cycle, Begin/Render/End picture and the resolve worker) together
    with the properties the specification states about them.

    Conventions of the embedding.
    - C integers are [Z]; every arithmetic result is wrapped to the width of
      its C type ([uint32], [uint64], [int32], [int16]).
    - Heap cells allocated by [calloc] live in a store [gmap addr Payload];
      a C pointer is an [option addr], [None] being [NULL].
    - An entry point is a computation in the monad [M]: it threads the
      driver, the store and the trace of calls made to the outside world,
      and finishes normally, by an early [return], by a memory fault, or
      blocked on a condition variable.
    - The results of vendor calls and of the allocator are inputs ([Env]).
    - A call (and an iteration of the resolve worker) runs atomically;
      mutex lock/unlock pairs are therefore not represented, condition
      variable signals are. *)

From stdpp Require Import base numbers list gmap strings.
From Stdlib.Strings Require Import Byte.
Local Open Scope Z_scope.

(* ================================================================== *)
(** ** C scalar types *)

Definition uint32 (x : Z) : Z := x mod 2 ^ 32.
Definition uint64 (x : Z) : Z := x mod 2 ^ 64.
Definition int32 (x : Z) : Z := (x + 2 ^ 31) mod 2 ^ 32 - 2 ^ 31.
Definition int16 (x : Z) : Z := (x + 2 ^ 15) mod 2 ^ 16 - 2 ^ 15.

Definition len {A} (l : list A) : Z := Z.of_nat (length l).

(** A block of raw memory: a byte is [None] while it is indeterminate
    (fresh from [memalign]). *)
Definition block := list (option byte).

(** [memalign(16, n)]: [ok] is the allocator's answer; a failed
    allocation is [NULL]. *)
Definition memalign (ok : bool) (n : Z) : option block :=
  if ok then Some (replicate (Z.to_nat n) None) else None.

(** [memcpy(dst + off, src, |src|)]; [None] is a write outside [dst]. *)
Definition memcpy (dst : block) (off : Z) (src : block) : option block :=
  if bool_decide (0 <= off /\ off + len src <= len dst)
  then Some (take (Z.to_nat off) dst ++ src ++ drop (Z.to_nat (off + len src)) dst)
  else None.

(* ================================================================== *)
(** ** Appendable buffer ([appendBuffer], vabackend.c:251) *)

Module AppendableBuffer.
Record t := mk {
  buf : option block;
  size : Z;        (* uint64_t *)
  allocated : Z    (* uint64_t *)
}.
(** The zero-initialised struct. *)
Definition empty : t := mk None 0 0.
End AppendableBuffer.
Abbreviation AppendableBuffer := AppendableBuffer.t.

Inductive AppendResult :=
| Appended (ab : AppendableBuffer)
| Spins      (* the growth loop does not exit *)
| Faults.    (* write through NULL or outside the block *)

(** [while (ab->size + size > ab->allocated) ab->allocated += ab->allocated >> 1;]
    [need] is [ab->size + size].  [None]: the loop is still running when
    the fuel is spent. *)
Fixpoint grow (fuel : nat) (need allocated : Z) : option Z :=
  if need >? allocated then
    match fuel with
    | O => None
    | S fuel' => grow fuel' need (uint64 (allocated + Z.shiftr allocated 1))
    end
  else Some allocated.

Definition appendBuffer (fuel : nat) (mem_ok : bool)
    (ab : AppendableBuffer) (bytes : list byte) : AppendResult :=
  let size := len bytes in
  let src : block := Some <$> bytes in
  match AppendableBuffer.buf ab with
  | None =>
      let allocated := uint64 (size * 2) in
      match memalign mem_ok allocated with
      | None => Faults
      | Some b =>
          match memcpy b 0 src with
          | None => Faults
          | Some b' => Appended (AppendableBuffer.mk (Some b') (uint64 (0 + size)) allocated)
          end
      end
  | Some old =>
      let need := uint64 (AppendableBuffer.size ab + size) in
      if need >? AppendableBuffer.allocated ab then
        match grow fuel need (AppendableBuffer.allocated ab) with
        | None => Spins
        | Some allocated =>
            match memalign mem_ok allocated with
            | None => Faults
            | Some nb =>
                if bool_decide (AppendableBuffer.size ab <= len old) then
                  match memcpy nb 0 (take (Z.to_nat (AppendableBuffer.size ab)) old) with
                  | None => Faults
                  | Some nb' =>
                      match memcpy nb' (AppendableBuffer.size ab) src with
                      | None => Faults
                      | Some nb'' =>
                          Appended (AppendableBuffer.mk (Some nb'') need allocated)
                      end
                  end
                else Faults
            end
        end
      else
        match memcpy old (AppendableBuffer.size ab) src with
        | None => Faults
        | Some b' =>
            Appended (AppendableBuffer.mk (Some b') need (AppendableBuffer.allocated ab))
        end
  end.

(** [freeBuffer] (vabackend.c:269). *)
Definition freeBuffer (ab : AppendableBuffer) : AppendableBuffer :=
  match AppendableBuffer.buf ab with
  | Some _ => AppendableBuffer.mk None 0 0
  | None => ab
  end.

(** A sequence of appends, every allocation succeeding. *)
Fixpoint appendAll (fuel : nat) (ab : AppendableBuffer) (bs : list (list byte))
    : AppendResult :=
  match bs with
  | [] => Appended ab
  | b :: bs' =>
      match appendBuffer fuel true ab b with
      | Appended ab' => appendAll fuel ab' bs'
      | r => r
      end
  end.


(* ================================================================== *)
(** ** Constants and enumerations of the external headers
       ([va.h], [va_drmcommon.h], [cuviddec.h]) *)

Inductive VAStatus :=
| VA_STATUS_SUCCESS
| VA_STATUS_ERROR_OPERATION_FAILED
| VA_STATUS_ERROR_ALLOCATION_FAILED
| VA_STATUS_ERROR_INVALID_CONFIG
| VA_STATUS_ERROR_INVALID_CONTEXT
| VA_STATUS_ERROR_INVALID_SURFACE
| VA_STATUS_ERROR_INVALID_BUFFER
| VA_STATUS_ERROR_MAX_NUM_EXCEEDED
| VA_STATUS_ERROR_UNSUPPORTED_PROFILE
| VA_STATUS_ERROR_UNSUPPORTED_ENTRYPOINT
| VA_STATUS_ERROR_UNSUPPORTED_RT_FORMAT
| VA_STATUS_ERROR_INVALID_PARAMETER
| VA_STATUS_ERROR_DECODING_ERROR
| VA_STATUS_ERROR_UNIMPLEMENTED
| VA_STATUS_ERROR_UNSUPPORTED_MEMORY_TYPE.

#[global] Instance VAStatus_eq_dec : EqDecision VAStatus.
Proof. solve_decision. Defined.

Inductive VAProfile :=
| VAProfileMPEG2Simple | VAProfileMPEG2Main
| VAProfileMPEG4Simple | VAProfileMPEG4AdvancedSimple | VAProfileMPEG4Main
| VAProfileH264Main | VAProfileH264High
| VAProfileVC1Simple | VAProfileVC1Main | VAProfileVC1Advanced
| VAProfileJPEGBaseline | VAProfileH264ConstrainedBaseline
| VAProfileVP8Version0_3
| VAProfileH264MultiviewHigh | VAProfileH264StereoHigh
| VAProfileHEVCMain | VAProfileHEVCMain10
| VAProfileVP9Profile0 | VAProfileVP9Profile1
| VAProfileVP9Profile2 | VAProfileVP9Profile3
| VAProfileHEVCMain12
| VAProfileHEVCMain444 | VAProfileHEVCMain444_10 | VAProfileHEVCMain444_12
| VAProfileAV1Profile0 | VAProfileAV1Profile1
| VAProfile_other (v : Z).   (* any enumerator vabackend.c does not name *)

#[global] Instance VAProfile_eq_dec : EqDecision VAProfile.
Proof. solve_decision. Defined.

Inductive VAEntrypoint :=
| VAEntrypointVLD
| VAEntrypoint_other (v : Z).

#[global] Instance VAEntrypoint_eq_dec : EqDecision VAEntrypoint.
Proof. solve_decision. Defined.

Inductive VAConfigAttribType :=
| VAConfigAttribRTFormat
| VAConfigAttribMaxPictureWidth
| VAConfigAttribMaxPictureHeight
| VAConfigAttrib_other (v : Z).

#[global] Instance VAConfigAttribType_eq_dec : EqDecision VAConfigAttribType.
Proof. solve_decision. Defined.

Module VAConfigAttrib.
Record t := mk { type : VAConfigAttribType; value : Z (* uint32_t *) }.
End VAConfigAttrib.
Abbreviation VAConfigAttrib := VAConfigAttrib.t.

Definition VA_RT_FORMAT_YUV420    : Z := 0x00000001.
Definition VA_RT_FORMAT_YUV444    : Z := 0x00000004.
Definition VA_RT_FORMAT_YUV420_10 : Z := 0x00000100.
Definition VA_RT_FORMAT_YUV444_10 : Z := 0x00000400.
Definition VA_RT_FORMAT_YUV420_12 : Z := 0x00001000.
Definition VA_RT_FORMAT_YUV444_12 : Z := 0x00004000.

Definition VA_SURFACE_ATTRIB_MEM_TYPE_DRM_PRIME   : Z := 0x20000000.
Definition VA_SURFACE_ATTRIB_MEM_TYPE_DRM_PRIME_2 : Z := 0x40000000.
Definition VA_EXPORT_SURFACE_SEPARATE_LAYERS      : Z := 0x0004.

Definition VABufferType := Z.
Definition VAPictureParameterBufferType : VABufferType := 0.
Definition VASliceDataBufferType : VABufferType := 5.

Definition VAGenericID := Z.   (* unsigned int *)

Definition CUresult := Z.
Definition CUDA_SUCCESS : CUresult := 0.

Inductive cudaVideoCodec :=
| cudaVideoCodec_MPEG1     (* = 0 *)
| cudaVideoCodec_MPEG2 | cudaVideoCodec_MPEG4 | cudaVideoCodec_VC1
| cudaVideoCodec_H264 | cudaVideoCodec_JPEG
| cudaVideoCodec_H264_SVC | cudaVideoCodec_H264_MVC
| cudaVideoCodec_HEVC | cudaVideoCodec_VP8 | cudaVideoCodec_VP9
| cudaVideoCodec_AV1
| cudaVideoCodec_NONE.

#[global] Instance cudaVideoCodec_eq_dec : EqDecision cudaVideoCodec.
Proof. solve_decision. Defined.

Inductive cudaVideoChromaFormat :=
| cudaVideoChromaFormat_Monochrome   (* = 0 *)
| cudaVideoChromaFormat_420
| cudaVideoChromaFormat_422
| cudaVideoChromaFormat_444.

#[global] Instance cudaVideoChromaFormat_eq_dec : EqDecision cudaVideoChromaFormat.
Proof. solve_decision. Defined.

Inductive cudaVideoSurfaceFormat :=
| cudaVideoSurfaceFormat_NV12        (* = 0 *)
| cudaVideoSurfaceFormat_P016
| cudaVideoSurfaceFormat_YUV444
| cudaVideoSurfaceFormat_YUV444_16Bit.

#[global] Instance cudaVideoSurfaceFormat_eq_dec : EqDecision cudaVideoSurfaceFormat.
Proof. solve_decision. Defined.

(** What [vabackend.h] defines and the sources do not contain. *)
Class Headers := {
  SURFACE_QUEUE_SIZE : Z;    (* capacity of the resolve ring *)
  VA_INVALID_ID : VAGenericID
}.

(** Modelled from the spec: the macro [ROUND_UP] of [vabackend.h] is not
    part of the sources; section 4.6 says it rounds a dimension up to the
    chroma-subsampling multiple.  The division is C's, which truncates
    towards zero. *)
Definition ROUND_UP (n s : Z) : Z := ((n + s - 1) ÷ s) * s.

(* ================================================================== *)
(** ** Structures of [vabackend.h], as [vabackend.c] uses them *)

(** An address of the store; C pointers are [option addr]. *)
Definition addr := positive.

Inductive ObjectType :=
| OBJECT_TYPE_CONFIG
| OBJECT_TYPE_CONTEXT
| OBJECT_TYPE_SURFACE
| OBJECT_TYPE_BUFFER
| OBJECT_TYPE_IMAGE.

#[global] Instance ObjectType_eq_dec : EqDecision ObjectType.
Proof. solve_decision. Defined.

Module Object_t.
Record t := mk {
  type : ObjectType;
  id : VAGenericID;
  obj : option addr     (* void *obj *)
}.
End Object_t.
Abbreviation Object := Object_t.t.

Module NVConfig.
Record t := mk {
  profile : VAProfile;
  entrypoint : VAEntrypoint;
  cudaCodec : cudaVideoCodec;
  chromaFormat : cudaVideoChromaFormat;
  surfaceFormat : cudaVideoSurfaceFormat;
  bitDepth : Z
}.
Definition zero : t :=
  mk VAProfileMPEG2Simple (VAEntrypoint_other 0) cudaVideoCodec_MPEG1
     cudaVideoChromaFormat_Monochrome cudaVideoSurfaceFormat_NV12 0.
Definition set_surface (f : cudaVideoSurfaceFormat) (c : cudaVideoChromaFormat)
    (d : Z) (x : t) : t :=
  mk (profile x) (entrypoint x) (cudaCodec x) c f d.
End NVConfig.
Abbreviation NVConfig := NVConfig.t.

Module NVSurface.
Record t := mk {
  width : Z;             (* uint32_t *)
  height : Z;            (* uint32_t *)
  format : cudaVideoSurfaceFormat;
  chromaFormat : cudaVideoChromaFormat;
  bitDepth : Z;          (* int *)
  pictureIdx : Z;        (* int *)
  context : option addr; (* NVContext* *)
  progressiveFrame : bool;
  topFieldFirst : bool;
  secondField : Z;
  backingImage : option Z;  (* opaque handle owned by the export backend *)
  resolving : Z;         (* int, guarded by the surface mutex *)
  decodeFailed : bool
}.
Definition zero : t :=
  mk 0 0 cudaVideoSurfaceFormat_NV12 cudaVideoChromaFormat_Monochrome 0 0 None
     false false 0 None 0 false.
Definition set_pictureIdx (v : Z) (s : t) : t :=
  mk (width s) (height s) (format s) (chromaFormat s) (bitDepth s) v (context s)
     (progressiveFrame s) (topFieldFirst s) (secondField s) (backingImage s)
     (resolving s) (decodeFailed s).
Definition set_context (v : option addr) (s : t) : t :=
  mk (width s) (height s) (format s) (chromaFormat s) (bitDepth s) (pictureIdx s) v
     (progressiveFrame s) (topFieldFirst s) (secondField s) (backingImage s)
     (resolving s) (decodeFailed s).
Definition set_progressiveFrame (v : bool) (s : t) : t :=
  mk (width s) (height s) (format s) (chromaFormat s) (bitDepth s) (pictureIdx s)
     (context s) v (topFieldFirst s) (secondField s) (backingImage s)
     (resolving s) (decodeFailed s).
Definition set_topFieldFirst (v : bool) (s : t) : t :=
  mk (width s) (height s) (format s) (chromaFormat s) (bitDepth s) (pictureIdx s)
     (context s) (progressiveFrame s) v (secondField s) (backingImage s)
     (resolving s) (decodeFailed s).
Definition set_secondField (v : Z) (s : t) : t :=
  mk (width s) (height s) (format s) (chromaFormat s) (bitDepth s) (pictureIdx s)
     (context s) (progressiveFrame s) (topFieldFirst s) v (backingImage s)
     (resolving s) (decodeFailed s).
Definition set_backingImage (v : option Z) (s : t) : t :=
  mk (width s) (height s) (format s) (chromaFormat s) (bitDepth s) (pictureIdx s)
     (context s) (progressiveFrame s) (topFieldFirst s) (secondField s) v
     (resolving s) (decodeFailed s).
Definition set_resolving (v : Z) (s : t) : t :=
  mk (width s) (height s) (format s) (chromaFormat s) (bitDepth s) (pictureIdx s)
     (context s) (progressiveFrame s) (topFieldFirst s) (secondField s)
     (backingImage s) v (decodeFailed s).
Definition set_decodeFailed (v : bool) (s : t) : t :=
  mk (width s) (height s) (format s) (chromaFormat s) (bitDepth s) (pictureIdx s)
     (context s) (progressiveFrame s) (topFieldFirst s) (secondField s)
     (backingImage s) (resolving s) v.
End NVSurface.
Abbreviation NVSurface := NVSurface.t.

Module NVBuffer.
Record t := mk {
  bufferType : VABufferType;
  elements : Z;          (* unsigned int *)
  size : Z;
  ptr : option block;    (* void *ptr *)
  offset : Z             (* int *)
}.
Definition zero : t := mk 0 0 0 None 0.
End NVBuffer.
Abbreviation NVBuffer := NVBuffer.t.

(** The fields of the vendor's [CUVIDPICPARAMS] that [vabackend.c] touches. *)
Module CUVIDPICPARAMS.
Record t := mk {
  CurrPicIdx : Z;
  bottom_field_flag : Z;
  second_field : Z;
  pBitstreamData : option block;
  pSliceDataOffsets : option block
}.
Definition zero : t := mk 0 0 0 None None.
End CUVIDPICPARAMS.
Abbreviation CUVIDPICPARAMS := CUVIDPICPARAMS.t.

Module NVContext.
Record t := mk {
  decoder : option Z;           (* CUvideodecoder *)
  profile : VAProfile;
  entrypoint : VAEntrypoint;
  width : Z;                    (* uint32_t *)
  height : Z;                   (* uint32_t *)
  codec : option nat;           (* const NVCodec*: a slot of the codec table *)
  surfaceCount : Z;             (* int *)
  currentPictureId : Z;         (* int *)
  renderTarget : option addr;   (* NVSurface* *)
  pPicParams : CUVIDPICPARAMS;
  bitstreamBuffer : AppendableBuffer;
  sliceOffsets : AppendableBuffer;
  surfaceQueue : list (option addr);   (* NVSurface *surfaceQueue[SURFACE_QUEUE_SIZE] *)
  surfaceQueueReadIdx : Z;
  surfaceQueueWriteIdx : Z;
  exiting : bool
}.
Definition zero {hdr : Headers} : t :=
  mk None VAProfileMPEG2Simple (VAEntrypoint_other 0) 0 0 None 0 0 None
     CUVIDPICPARAMS.zero AppendableBuffer.empty AppendableBuffer.empty
     (replicate (Z.to_nat SURFACE_QUEUE_SIZE) None) 0 0 false.
Definition set_currentPictureId (v : Z) (c : t) : t :=
  mk (decoder c) (profile c) (entrypoint c) (width c) (height c) (codec c)
     (surfaceCount c) v (renderTarget c) (pPicParams c) (bitstreamBuffer c)
     (sliceOffsets c) (surfaceQueue c) (surfaceQueueReadIdx c)
     (surfaceQueueWriteIdx c) (exiting c).
Definition set_renderTarget (v : option addr) (c : t) : t :=
  mk (decoder c) (profile c) (entrypoint c) (width c) (height c) (codec c)
     (surfaceCount c) (currentPictureId c) v (pPicParams c) (bitstreamBuffer c)
     (sliceOffsets c) (surfaceQueue c) (surfaceQueueReadIdx c)
     (surfaceQueueWriteIdx c) (exiting c).
Definition set_pPicParams (v : CUVIDPICPARAMS) (c : t) : t :=
  mk (decoder c) (profile c) (entrypoint c) (width c) (height c) (codec c)
     (surfaceCount c) (currentPictureId c) (renderTarget c) v (bitstreamBuffer c)
     (sliceOffsets c) (surfaceQueue c) (surfaceQueueReadIdx c)
     (surfaceQueueWriteIdx c) (exiting c).
Definition set_buffers (bs so : AppendableBuffer) (c : t) : t :=
  mk (decoder c) (profile c) (entrypoint c) (width c) (height c) (codec c)
     (surfaceCount c) (currentPictureId c) (renderTarget c) (pPicParams c) bs
     so (surfaceQueue c) (surfaceQueueReadIdx c)
     (surfaceQueueWriteIdx c) (exiting c).
Definition set_queue (q : list (option addr)) (r w : Z) (c : t) : t :=
  mk (decoder c) (profile c) (entrypoint c) (width c) (height c) (codec c)
     (surfaceCount c) (currentPictureId c) (renderTarget c) (pPicParams c)
     (bitstreamBuffer c) (sliceOffsets c) q r w (exiting c).
Definition set_exiting (v : bool) (c : t) : t :=
  mk (decoder c) (profile c) (entrypoint c) (width c) (height c) (codec c)
     (surfaceCount c) (currentPictureId c) (renderTarget c) (pPicParams c)
     (bitstreamBuffer c) (sliceOffsets c) (surfaceQueue c) (surfaceQueueReadIdx c)
     (surfaceQueueWriteIdx c) v.
End NVContext.
Abbreviation NVContext := NVContext.t.

(** A codec module of the linker section [nvd_codecs].  A handler receives
    the context and the buffer and fills the scratch picture parameters or
    appends to the scratch buffers of the context. *)
Definition HandlerFunc := NVContext -> NVBuffer -> NVContext.

Module NVCodec.
Record t := mk {
  computeCudaCodec : VAProfile -> cudaVideoCodec;
  handlers : list (option HandlerFunc);   (* indexed by VABufferType *)
  supportedProfiles : list VAProfile      (* supportedProfileCount entries *)
}.
End NVCodec.
Abbreviation NVCodec := NVCodec.t.

(** The codec table [__start_nvd_codecs .. __stop_nvd_codecs]; the codec
    modules are not part of the sources. *)
Class Codecs := { nvd_codecs : list NVCodec }.

(** What a cell of the store holds. *)
Inductive Payload :=
| PConfig (c : NVConfig)
| PContext (c : NVContext)
| PSurface (s : NVSurface)
| PBuffer (b : NVBuffer).

Module NVDriver.
Record t := mk {
  objects : list Object;        (* the registry array, in insertion order *)
  nextObjId : VAGenericID;
  surfaceCount : Z;             (* int *)
  supports16BitSurface : bool;
  supports444Surface : bool
}.
Definition set_objects (os : list Object) (d : t) : t :=
  mk os (nextObjId d) (surfaceCount d) (supports16BitSurface d) (supports444Surface d).
Definition set_nextObjId (v : VAGenericID) (d : t) : t :=
  mk (objects d) v (surfaceCount d) (supports16BitSurface d) (supports444Surface d).
Definition set_surfaceCount (v : Z) (d : t) : t :=
  mk (objects d) (nextObjId d) v (supports16BitSurface d) (supports444Surface d).
End NVDriver.
Abbreviation NVDriver := NVDriver.t.

(* ================================================================== *)
(** ** Trace, environment and the monad of entry points *)

Inductive Cond :=
| resolveCondition (nvCtx : addr)   (* &nvCtx->resolveCondition *)
| surfaceCond (surface : addr).     (* &surface->cond *)

Module CUVIDDECODECREATEINFO.
Record t := mk {
  ulWidth : Z;                  (* unsigned long *)
  ulHeight : Z;                 (* unsigned long *)
  CodecType : cudaVideoCodec;
  display_area_right : Z;       (* short *)
  display_area_bottom : Z;      (* short *)
  ChromaFormat : cudaVideoChromaFormat;
  OutputFormat : cudaVideoSurfaceFormat;
  bitDepthMinus8 : Z;
  ulNumOutputSurfaces : Z;
  ulNumDecodeSurfaces : Z
}.
End CUVIDDECODECREATEINFO.
Abbreviation CUVIDDECODECREATEINFO := CUVIDDECODECREATEINFO.t.

(** Calls into the export backend ([drv->backend->...]); the surface
    argument is the pointer the call receives. *)
Inductive BackendCall :=
| detachBackingImageFromSurface (surface : addr)
| realiseSurface (surface : addr)
| fillExportDescriptor (surface : addr)
| exportCudaPtr (surface : addr) (pitch : Z).

(** Calls into the CUDA / NVDEC libraries and libpthread. *)
Inductive VendorCall :=
| cuCtxPushCurrent
| cuCtxPopCurrent
| cuvidCtxLockCreate
| cuvidCreateDecoder (vdci : CUVIDDECODECREATEINFO)
| cuvidDecodePicture (pic : CUVIDPICPARAMS)
| cuvidMapVideoFrame (pictureIdx : Z)
| cuvidUnmapVideoFrame
| pthread_create (nvCtx : addr).

(** [Log fmt args]: [args] are the integer arguments of the call;
    arguments of pointer or enumeration type are left out. *)
Inductive Event :=
| Log (fmt : string) (args : list Z)        (* LOG(fmt, args...) *)
| Vendor (c : VendorCall)
| Backend (c : BackendCall)
| CondSignal (c : Cond)                      (* pthread_cond_signal *)
| Out (v : Z)                                (* store through an out-parameter *)
| Enqueued (nvCtx : addr) (surface : option addr).
    (* ghost: nvCtx->surfaceQueue[writeIdx] = surface was executed *)

(** The answers of the outside world during one call. *)
Module Env.
Record t := mk {
  r_cuCtxPushCurrent : CUresult;
  r_cuCtxPopCurrent : CUresult;
  r_cuvidCtxLockCreate : CUresult;
  r_cuvidCreateDecoder : CUresult;
  decoder_handle : Z;
  r_cuvidDecodePicture : CUresult;
  r_cuvidMapVideoFrame : CUresult;
  mapped_pitch : Z;
  r_cuvidUnmapVideoFrame : CUresult;
  r_pthread_create : Z;
  r_memalign : bool;           (* does memalign return non-NULL *)
  r_realiseSurface : bool;
  backing_handle : Z
}.
(** Every call succeeds. *)
Definition ok : t := mk 0 0 0 0 1 0 0 0 0 0 true true 1.
End Env.
Abbreviation Env := Env.t.

Module World.
Record t := mk {
  drv : NVDriver;
  heap : gmap addr Payload;
  trace : list Event
}.
Definition set_drv (d : NVDriver) (w : t) : t := mk d (heap w) (trace w).
(** [*a = v] *)
Definition upd (a : addr) (v : Payload) (w : t) : t :=
  mk (drv w) (<[a := v]> (heap w)) (trace w).
Definition dealloc (a : addr) (w : t) : t :=
  mk (drv w) (delete a (heap w)) (trace w).
Definition log (e : Event) (w : t) : t :=
  mk (drv w) (heap w) (trace w ++ [e]).
End World.
Abbreviation World := World.t.

Inductive Fault :=
| NullDeref        (* access through NULL *)
| UseAfterFree     (* access through a pointer to a freed cell *)
| TypeConfusion    (* a cell accessed at the wrong struct type *)
| OutOfBounds.     (* array index outside the array *)

(** How a piece of a function body ends: it falls through with a value,
    executes [return r], faults, or suspends in [pthread_cond_wait]. *)
Inductive Outcome (R A : Type) :=
| Val (a : A)
| Return (r : R)
| Crash (f : Fault)
| Blocked (c : Cond).
Arguments Val {R A} a.
Arguments Return {R A} r.
Arguments Crash {R A} f.
Arguments Blocked {R A} c.

Definition M (R A : Type) : Type := World -> Outcome R A * World.

#[global] Instance M_ret {R} : MRet (M R) := fun A a w => (Val a, w).
#[global] Instance M_bind {R} : MBind (M R) := fun A B f m w =>
  match m w with
  | (Val a, w') => f a w'
  | (Return r, w') => (Return r, w')
  | (Crash e, w') => (Crash e, w')
  | (Blocked c, w') => (Blocked c, w')
  end.

Definition return_ {R A} (r : R) : M R A := fun w => (Return r, w).
Definition crash {R A} (f : Fault) : M R A := fun w => (Crash f, w).
Definition block_on {R A} (c : Cond) : M R A := fun w => (Blocked c, w).
Definition skip {R} : M R unit := mret ().

Definition emit {R} (e : Event) : M R unit := fun w => (Val (), World.log e w).
Definition LOG {R} (fmt : string) (args : list Z) : M R unit := emit (Log fmt args).

Definition get_drv {R} : M R NVDriver := fun w => (Val (World.drv w), w).
Definition put_drv {R} (d : NVDriver) : M R unit := fun w => (Val (), World.set_drv d w).

(** The status a call hands back to the client, if it comes back. *)
Definition status {A} (o : Outcome A A) : option A :=
  match o with
  | Val s | Return s => Some s
  | _ => None
  end.

(** *** Store access *)

Definition load {R} (p : option addr) : M R Payload := fun w =>
  match p with
  | None => (Crash NullDeref, w)
  | Some a =>
      match World.heap w !! a with
      | Some v => (Val v, w)
      | None => (Crash UseAfterFree, w)
      end
  end.

Definition store {R} (p : option addr) (v : Payload) : M R unit := fun w =>
  match p with
  | None => (Crash NullDeref, w)
  | Some a =>
      match World.heap w !! a with
      | Some _ => (Val (), World.upd a v w)
      | None => (Crash UseAfterFree, w)
      end
  end.

Definition loadConfig {R} (p : option addr) : M R NVConfig :=
  v ← load p; match v with PConfig c => mret c | _ => crash TypeConfusion end.
Definition loadContext {R} (p : option addr) : M R NVContext :=
  v ← load p; match v with PContext c => mret c | _ => crash TypeConfusion end.
Definition loadSurface {R} (p : option addr) : M R NVSurface :=
  v ← load p; match v with PSurface s => mret s | _ => crash TypeConfusion end.
Definition loadBuffer {R} (p : option addr) : M R NVBuffer :=
  v ← load p; match v with PBuffer b => mret b | _ => crash TypeConfusion end.

(** [p->field = v] *)
Definition modifyConfig {R} (p : option addr) (f : NVConfig -> NVConfig) : M R unit :=
  c ← loadConfig p; store p (PConfig (f c)).
Definition modifyContext {R} (p : option addr) (f : NVContext -> NVContext) : M R unit :=
  c ← loadContext p; store p (PContext (f c)).
Definition modifySurface {R} (p : option addr) (f : NVSurface -> NVSurface) : M R unit :=
  s ← loadSurface p; store p (PSurface (f s)).
Definition modifyBuffer {R} (p : option addr) (f : NVBuffer -> NVBuffer) : M R unit :=
  b ← loadBuffer p; store p (PBuffer (f b)).

(** [calloc(1, sizeof ...)]: a cell the store does not use yet. *)
Definition calloc {R} (zero : Payload) : M R addr := fun w =>
  let a := fresh (dom (World.heap w)) in (Val a, World.upd a zero w).

(** [free(p)]; [free(NULL)] does nothing. *)
Definition free {R} (p : option addr) : M R unit := fun w =>
  match p with
  | None => (Val (), w)
  | Some a => (Val (), World.dealloc a w)
  end.

(** *** Vendor calls and the checking macros *)

(** [checkCudaErrors] (vabackend.c:241): logs and answers [true] on an error. *)
Definition checkCudaErrors {R} (err : CUresult) : M R bool :=
  if bool_decide (err = CUDA_SUCCESS) then mret false
  else LOG "CUDA ERROR '%s' (%d)" [err];; mret true.

(** [CHECK_CUDA_RESULT_RETURN(call, ret)]: perform the call, and leave the
    function with [ret] when it reports an error. *)
Definition CHECK_CUDA_RESULT_RETURN {R} (c : VendorCall) (err : CUresult) (r : R)
    : M R unit :=
  emit (Vendor c);;
  failed ← checkCudaErrors err;
  if failed : bool then return_ r else skip.

(** [CHECK_CUDA_RESULT(call)]: perform the call and tell whether it failed. *)
Definition CHECK_CUDA_RESULT {R} (c : VendorCall) (err : CUresult) : M R bool :=
  emit (Vendor c);; checkCudaErrors err.

(** *** The export backend ([drv->backend->...])

    The two export backends are not part of the sources.  Each call is
    recorded in the trace with the pointer it receives; of the state they
    own only the surface's [backingImage] handle is represented, and of
    what they do to a Surface only the end of its resolve. *)

(** Modelled from the spec: the backend function
    [detachBackingImageFromSurface] is missing; section 4.5: it releases the
    backing image, the Surface becomes re-realisable. *)
Definition backend_detachBackingImageFromSurface {R} (surface : option addr) : M R unit :=
  match surface with
  | None => crash NullDeref
  | Some s =>
      emit (Backend (detachBackingImageFromSurface s));;
      modifySurface surface (NVSurface.set_backingImage None)
  end.

(** Modelled from the spec: the backend function [realiseSurface] is
    missing; section 4.5: it ensures a backing image exists for the Surface
    and is idempotent; its answer is an input ([Env.r_realiseSurface]). *)
Definition backend_realiseSurface {R} (e : Env) (surface : addr) : M R bool := fun w =>
  let w' := World.log (Backend (realiseSurface surface)) w in
  if Env.r_realiseSurface e then
    match World.heap w !! surface with
    | Some (PSurface s) =>
        match NVSurface.backingImage s with
        | Some _ => (Val true, w')
        | None =>
            (Val true,
             World.upd surface
               (PSurface (NVSurface.set_backingImage (Some (Env.backing_handle e)) s)) w')
        end
    | _ => (Val true, w')
    end
  else (Val false, w').

(** Modelled from the spec: the backend function [fillExportDescriptor] is
    missing; section 4.5: it populates the DMA-PRIME descriptor. *)
Definition backend_fillExportDescriptor {R} (surface : addr) : M R unit :=
  emit (Backend (fillExportDescriptor surface)).

(** Modelled from the spec: the backend function [exportCudaPtr] is
    missing; section 4.5: it copies one decoded picture out of the decoder
    into the Surface's backing image; section 4.6, S5 steps 5 and 7, and
    section 8: when a picture has been resolved, [resolving] is cleared and
    the Surface's condition is signalled.  The worker of [vabackend.c] does
    neither after the call (vabackend.c:469), so both are the backend's. *)
Definition backend_exportCudaPtr {R} (surface : addr) (pitch : Z) : M R unit :=
  emit (Backend (exportCudaPtr surface pitch));;
  modifySurface (Some surface) (NVSurface.set_resolving 0);;
  emit (CondSignal (surfaceCond surface)).

(* ================================================================== *)
(** ** The driver: object registry and entry points *)

(** Client memory behind a [void *data] argument: the address the client
    passes and the bytes of its address space. *)
Module ClientPtr.
Record t := mk { address : Z; read : Z -> byte }.
End ClientPtr.
Abbreviation ClientPtr := ClientPtr.t.

(** [for (i = 0; i < n; i++) body(i)] *)
Fixpoint for_each {R A} (l : list A) (body : A -> M R unit) : M R unit :=
  match l with
  | [] => skip
  | x :: l' => body x;; for_each l' body
  end.

Section Driver.
Context {hdr : Headers} {cds : Codecs}.

(** *** Object registry (vabackend.c:278-345) *)

Definition has_id (id : VAGenericID) (o : Object) : Prop := Object_t.id o = id.

#[global] Instance has_id_dec id o : Decision (has_id id o).
Proof. unfold has_id. apply _. Defined.

Definition allocateObject {R} (type : ObjectType) (zero : Payload) : M R Object :=
  d ← get_drv;
  let newId := uint32 (NVDriver.nextObjId d + 1) in       (* ++drv->nextObjId *)
  p ← calloc zero;
  let newObj := Object_t.mk type newId (Some p) in
  put_drv (NVDriver.set_objects (NVDriver.objects d ++ [newObj])
             (NVDriver.set_nextObjId newId d));;
  mret newObj.

Definition getObject (d : NVDriver) (id : VAGenericID) : option Object :=
  if bool_decide (id <> VA_INVALID_ID)
  then snd <$> list_find (has_id id) (NVDriver.objects d)
  else None.

Definition getObjectPtr (d : NVDriver) (id : VAGenericID) : option addr :=
  if bool_decide (id <> VA_INVALID_ID) then
    match getObject d id with
    | Some o => Object_t.obj o
    | None => None
    end
  else None.

Definition deleteObject {R} (id : VAGenericID) : M R unit :=
  if bool_decide (id = VA_INVALID_ID) then skip
  else
    d ← get_drv;
    match list_find (has_id id) (NVDriver.objects d) with
    | Some (o_idx, o) =>
        put_drv (NVDriver.set_objects (delete o_idx (NVDriver.objects d)) d);;
        free (Object_t.obj o)
    | None => skip
    end.

(** *** [vaToCuCodec] (vabackend.c:402) *)

Fixpoint vaToCuCodec_from (cs : list NVCodec) (profile : VAProfile) : cudaVideoCodec :=
  match cs with
  | [] => cudaVideoCodec_NONE
  | c :: cs' =>
      let cvc := NVCodec.computeCudaCodec c profile in
      if bool_decide (cvc <> cudaVideoCodec_NONE) then cvc
      else vaToCuCodec_from cs' profile
  end.

Definition vaToCuCodec (profile : VAProfile) : cudaVideoCodec :=
  vaToCuCodec_from nvd_codecs profile.

(** *** [nvCreateConfig] (vabackend.c:642) *)

(** [num_attribs > 0 && attrib_list[0].type == VAConfigAttribRTFormat],
    with the value of that attribute. *)
Definition firstRTFormat (attrib_list : list VAConfigAttrib) : option Z :=
  match attrib_list with
  | a :: _ =>
      if bool_decide (VAConfigAttrib.type a = VAConfigAttribRTFormat)
      then Some (VAConfigAttrib.value a) else None
  | [] => None
  end.

Definition set_format_depth (f : cudaVideoSurfaceFormat) (d : Z) (cfg : NVConfig) : NVConfig :=
  NVConfig.set_surface f (NVConfig.chromaFormat cfg) d cfg.

(** The switch under [if (drv->supports16BitSurface)]. *)
Definition switch_16bit {R} (attrib_list : list VAConfigAttrib) (cfg : NVConfig)
    : M R NVConfig :=
  match NVConfig.profile cfg with
  | VAProfileHEVCMain10 => mret (set_format_depth cudaVideoSurfaceFormat_P016 10 cfg)
  | VAProfileHEVCMain12 => mret (set_format_depth cudaVideoSurfaceFormat_P016 12 cfg)
  | VAProfileVP9Profile2 | VAProfileAV1Profile0 =>
      match firstRTFormat attrib_list with
      | Some v =>
          if bool_decide (v = VA_RT_FORMAT_YUV420_12)
          then mret (set_format_depth cudaVideoSurfaceFormat_P016 12 cfg)
          else if bool_decide (v = VA_RT_FORMAT_YUV420_10)
          then mret (set_format_depth cudaVideoSurfaceFormat_P016 10 cfg)
          else mret cfg
      | None =>
          if bool_decide (NVConfig.profile cfg = VAProfileVP9Profile2)
          then mret (set_format_depth cudaVideoSurfaceFormat_P016 10 cfg)
          else
            LOG "Unable to determine surface type for VP9/AV1 codec due to no RTFormat specified." [];;
            mret cfg
      end
  | _ => mret cfg
  end.

(** The switch under [if (drv->supports444Surface)]. *)
Definition switch_444 (cfg : NVConfig) : NVConfig :=
  match NVConfig.profile cfg with
  | VAProfileHEVCMain444 | VAProfileVP9Profile1 | VAProfileAV1Profile1 =>
      NVConfig.set_surface cudaVideoSurfaceFormat_YUV444 cudaVideoChromaFormat_444 8 cfg
  | _ => cfg
  end.

(** The switch under [if (drv->supports444Surface && drv->supports16BitSurface)]. *)
Definition switch_444_16bit (attrib_list : list VAConfigAttrib) (cfg : NVConfig) : NVConfig :=
  match NVConfig.profile cfg with
  | VAProfileHEVCMain444_10 =>
      NVConfig.set_surface cudaVideoSurfaceFormat_YUV444_16Bit cudaVideoChromaFormat_444 10 cfg
  | VAProfileHEVCMain444_12 =>
      NVConfig.set_surface cudaVideoSurfaceFormat_YUV444_16Bit cudaVideoChromaFormat_444 12 cfg
  | VAProfileVP9Profile3 | VAProfileAV1Profile1 =>
      match firstRTFormat attrib_list with
      | Some v =>
          if bool_decide (v = VA_RT_FORMAT_YUV444_12) then
            NVConfig.set_surface cudaVideoSurfaceFormat_YUV444_16Bit cudaVideoChromaFormat_444 12 cfg
          else if bool_decide (v = VA_RT_FORMAT_YUV444_10) then
            NVConfig.set_surface cudaVideoSurfaceFormat_YUV444_16Bit cudaVideoChromaFormat_444 10 cfg
          else if bool_decide (v = VA_RT_FORMAT_YUV444) then
            NVConfig.set_surface cudaVideoSurfaceFormat_YUV444 cudaVideoChromaFormat_444 8 cfg
          else cfg
      | None =>
          if bool_decide (NVConfig.profile cfg = VAProfileVP9Profile3) then
            NVConfig.set_surface cudaVideoSurfaceFormat_YUV444_16Bit cudaVideoChromaFormat_444 10 cfg
          else cfg
      end
  | _ => cfg
  end.

(** The fields of [*cfg] are accumulated in a local record and stored into
    the freshly allocated cell once; no other code runs in between. *)
Definition nvCreateConfig (profile : VAProfile) (entrypoint : VAEntrypoint)
    (attrib_list : list VAConfigAttrib) : M VAStatus VAStatus :=
  drv ← get_drv;
  LOG "got profile: %d with %d attributes" [len attrib_list];;
  let cudaCodec := vaToCuCodec profile in
  if bool_decide (cudaCodec = cudaVideoCodec_NONE) then
    LOG "Profile not supported: %d" [];;
    return_ VA_STATUS_ERROR_UNSUPPORTED_PROFILE
  else if bool_decide (entrypoint <> VAEntrypointVLD) then
    LOG "Entrypoint not supported: %d" [];;
    return_ VA_STATUS_ERROR_UNSUPPORTED_ENTRYPOINT
  else
    obj ← allocateObject OBJECT_TYPE_CONFIG (PConfig NVConfig.zero);
    for_each attrib_list (fun a =>
      LOG "got config attrib: %d %d %d" [VAConfigAttrib.value a]);;
    let cfg := NVConfig.mk profile entrypoint cudaCodec
                 cudaVideoChromaFormat_420 cudaVideoSurfaceFormat_NV12 8 in
    cfg ← (if NVDriver.supports16BitSurface drv
           then switch_16bit attrib_list cfg else mret cfg);
    let cfg := if NVDriver.supports444Surface drv then switch_444 cfg else cfg in
    let cfg := if NVDriver.supports444Surface drv && NVDriver.supports16BitSurface drv
               then switch_444_16bit attrib_list cfg else cfg in
    store (Object_t.obj obj) (PConfig cfg);;
    emit (Out (Object_t.id obj));;                 (* *config_id = obj->id *)
    mret VA_STATUS_SUCCESS.

(** *** [nvCreateSurfaces2] (vabackend.c:833), [nvDestroySurfaces] (928) *)

Definition surfaceFormatOf (format : Z)
    : option (cudaVideoSurfaceFormat * cudaVideoChromaFormat * Z) :=
  if bool_decide (format = VA_RT_FORMAT_YUV420) then
    Some (cudaVideoSurfaceFormat_NV12, cudaVideoChromaFormat_420, 8)
  else if bool_decide (format = VA_RT_FORMAT_YUV420_10) then
    Some (cudaVideoSurfaceFormat_P016, cudaVideoChromaFormat_420, 10)
  else if bool_decide (format = VA_RT_FORMAT_YUV420_12) then
    Some (cudaVideoSurfaceFormat_P016, cudaVideoChromaFormat_420, 12)
  else if bool_decide (format = VA_RT_FORMAT_YUV444) then
    Some (cudaVideoSurfaceFormat_YUV444, cudaVideoChromaFormat_444, 8)
  else if bool_decide (format = VA_RT_FORMAT_YUV444_10) then
    Some (cudaVideoSurfaceFormat_YUV444_16Bit, cudaVideoChromaFormat_444, 10)
  else if bool_decide (format = VA_RT_FORMAT_YUV444_12) then
    Some (cudaVideoSurfaceFormat_YUV444_16Bit, cudaVideoChromaFormat_444, 12)
  else None.

(** The rounding of a picture size to the chroma subsampling; [wrap] is
    the width of the C type of the dimensions. *)
Definition round_dims (wrap : Z -> Z) (chromaFormat : cudaVideoChromaFormat)
    (width height : Z) : Z * Z :=
  match chromaFormat with
  | cudaVideoChromaFormat_422 => (wrap (ROUND_UP width 2), height)
  | cudaVideoChromaFormat_420 => (wrap (ROUND_UP width 2), wrap (ROUND_UP height 2))
  | _ => (width, height)
  end.

Definition nvCreateSurfaces2 (e : Env) (format width height num_surfaces : Z)
    : M VAStatus VAStatus :=
  match surfaceFormatOf format with
  | None =>
      LOG "Unknown format: %X" [format];;
      return_ VA_STATUS_ERROR_UNSUPPORTED_RT_FORMAT
  | Some (nvFormat, chromaFormat, bitdepth) =>
      let '(width, height) := round_dims uint32 chromaFormat width height in
      CHECK_CUDA_RESULT_RETURN cuCtxPushCurrent (Env.r_cuCtxPushCurrent e)
        VA_STATUS_ERROR_OPERATION_FAILED;;
      for_each (seq 0 (Z.to_nat num_surfaces)) (fun _ =>
        surfaceObject ← allocateObject OBJECT_TYPE_SURFACE (PSurface NVSurface.zero);
        emit (Out (Object_t.id surfaceObject));;    (* surfaces[i] = surfaceObject->id *)
        store (Object_t.obj surfaceObject)
          (PSurface (NVSurface.mk width height nvFormat chromaFormat bitdepth (-1) None
                       false false 0 None 0 false));;
        LOG "Creating surface %dx%d, format %X (%p)" [width; height; format]);;
      d ← get_drv;
      put_drv (NVDriver.set_surfaceCount
                 (int32 (NVDriver.surfaceCount d + num_surfaces)) d);;
      CHECK_CUDA_RESULT_RETURN cuCtxPopCurrent (Env.r_cuCtxPopCurrent e)
        VA_STATUS_ERROR_OPERATION_FAILED;;
      mret VA_STATUS_SUCCESS
  end.

Definition nvDestroySurfaces (surface_list : list VAGenericID) : M VAStatus VAStatus :=
  for_each surface_list (fun id =>
    d ← get_drv;
    let surface := getObjectPtr d id in
    s ← loadSurface surface;
    LOG "Destroying surface %d (%p)" [NVSurface.pictureIdx s];;
    backend_detachBackingImageFromSurface surface;;
    deleteObject id);;
  d ← get_drv;
  put_drv (NVDriver.set_surfaceCount
             (Z.max (int32 (NVDriver.surfaceCount d - len surface_list)) 0) d);;
  mret VA_STATUS_SUCCESS.

(** *** [nvCreateContext] (vabackend.c:945) *)

(** The codec scan: the inner loop stops at the first supported profile of
    a codec, the outer loop goes on, so the last supporting codec is kept. *)
Fixpoint selectCodec_from (i : nat) (cs : list NVCodec) (profile : VAProfile)
    (selectedCodec : option nat) : option nat :=
  match cs with
  | [] => selectedCodec
  | c :: cs' =>
      selectCodec_from (S i) cs' profile
        (if bool_decide (profile ∈ NVCodec.supportedProfiles c)
         then Some i else selectedCodec)
  end.

Definition nvCreateContext (e : Env) (config_id : VAGenericID)
    (picture_width picture_height flag : Z) (render_targets : list VAGenericID)
    : M VAStatus VAStatus :=
  let num_render_targets := len render_targets in
  drv ← get_drv;
  let cfg := getObjectPtr drv config_id in
  match cfg with
  | None => return_ VA_STATUS_ERROR_INVALID_CONFIG
  | Some _ =>
  c ← loadConfig cfg;
  LOG "creating context with %d render targets, %d surfaces, at %dx%d"
      [num_render_targets; NVDriver.surfaceCount drv; picture_width; picture_height];;
  match selectCodec_from 0 nvd_codecs (NVConfig.profile c) None with
  | None =>
      LOG "Unable to find codec for profile: %d" [];;
      return_ VA_STATUS_ERROR_UNSUPPORTED_PROFILE
  | Some selectedCodec =>
  (match render_targets with
   | [] => skip
   | rt0 :: _ =>
       let surface := getObjectPtr drv rt0 in
       match surface with
       | None => return_ VA_STATUS_ERROR_INVALID_PARAMETER
       | Some _ =>
           s ← loadSurface surface;
           modifyConfig cfg (NVConfig.set_surface (NVSurface.format s)
                               (NVSurface.chromaFormat s) (NVSurface.bitDepth s))
       end
   end);;
  let surfaceCount := if bool_decide (num_render_targets > 0) then num_render_targets else 32 in
  surfaceCount ← (if bool_decide (surfaceCount > 32) then
                    LOG "Application requested %d surface(s), limiting to 32. This may cause issues."
                        [surfaceCount];;
                    mret 32
                  else mret surfaceCount);
  c ← loadConfig cfg;
  let '(display_area_width, display_area_height) :=
    round_dims int32 (NVConfig.chromaFormat c) picture_width picture_height in
  let vdci := CUVIDDECODECREATEINFO.mk (uint64 picture_width) (uint64 picture_height)
                (NVConfig.cudaCodec c)
                (int16 display_area_width) (int16 display_area_height)
                (NVConfig.chromaFormat c) (NVConfig.surfaceFormat c)
                (NVConfig.bitDepth c - 8) 1 surfaceCount in
  d ← get_drv;
  put_drv (NVDriver.set_surfaceCount 0 d);;          (* drv->surfaceCount = 0 *)
  CHECK_CUDA_RESULT_RETURN cuvidCtxLockCreate (Env.r_cuvidCtxLockCreate e)
    VA_STATUS_ERROR_OPERATION_FAILED;;
  CHECK_CUDA_RESULT_RETURN (cuvidCreateDecoder vdci) (Env.r_cuvidCreateDecoder e)
    VA_STATUS_ERROR_ALLOCATION_FAILED;;
  contextObj ← allocateObject OBJECT_TYPE_CONTEXT (PContext NVContext.zero);
  let nvCtx := Object_t.obj contextObj in
  store nvCtx
    (PContext (NVContext.mk (Some (Env.decoder_handle e)) (NVConfig.profile c)
                 (NVConfig.entrypoint c) (uint32 picture_width) (uint32 picture_height)
                 (Some selectedCodec) surfaceCount 0 None CUVIDPICPARAMS.zero
                 AppendableBuffer.empty AppendableBuffer.empty
                 (NVContext.surfaceQueue NVContext.zero) 0 0 false));;
  match nvCtx with
  | None => crash NullDeref
  | Some a =>
      emit (Vendor (pthread_create a));;
      if bool_decide (Env.r_pthread_create e <> 0) then
        LOG "Unable to create resolve thread: %d" [Env.r_pthread_create e];;
        deleteObject (Object_t.id contextObj);;
        return_ VA_STATUS_ERROR_OPERATION_FAILED
      else
        emit (Out (Object_t.id contextObj));;        (* *context = contextObj->id *)
        mret VA_STATUS_SUCCESS
  end
  end
  end.

(** *** [nvCreateBuffer] (vabackend.c:1065) *)

Definition nvCreateBuffer (e : Env) (context : VAGenericID) (type : VABufferType)
    (size num_elements : Z) (data : option ClientPtr) : M VAStatus VAStatus :=
  drv ← get_drv;
  let nvCtx := getObjectPtr drv context in
  match nvCtx with
  | None => return_ VA_STATUS_ERROR_INVALID_CONTEXT
  | Some _ =>
  c ← loadContext nvCtx;
  let address := from_option ClientPtr.address 0 data in
  let vp8_slice := bool_decide (NVContext.profile c = VAProfileVP8Version0_3
                                /\ type = VASliceDataBufferType) in
  let offset := if vp8_slice then Z.land address 0xf else 0 in
  let address := if vp8_slice then address - offset else address in
  let size := if vp8_slice then uint32 (size + offset) else size in
  bufferObject ← allocateObject OBJECT_TYPE_BUFFER (PBuffer NVBuffer.zero);
  emit (Out (Object_t.id bufferObject));;            (* *buf_id = bufferObject->id *)
  let buf := Object_t.obj bufferObject in
  let buf_size := uint32 (num_elements * size) in
  let ptr := memalign (Env.r_memalign e) buf_size in
  store buf (PBuffer (NVBuffer.mk type num_elements buf_size ptr offset));;
  match ptr with
  | None =>
      LOG "Unable to allocate buffer of %d bytes" [buf_size];;
      return_ VA_STATUS_ERROR_ALLOCATION_FAILED
  | Some _ =>
      (* if (data != NULL): the pointer after the adjustment *)
      (match data with
       | Some d =>
           if bool_decide (address <> 0) then
             modifyBuffer buf (fun b =>
               NVBuffer.mk (NVBuffer.bufferType b) (NVBuffer.elements b) (NVBuffer.size b)
                 (Some ((fun i => Some (ClientPtr.read d (address + i))) <$> seqZ 0 buf_size))
                 (NVBuffer.offset b))
           else skip
       | None => skip
       end);;
      mret VA_STATUS_SUCCESS
  end
  end.

(** *** [nvBeginPicture] (vabackend.c:1153) *)

Definition nvBeginPicture (context render_target : VAGenericID) : M VAStatus VAStatus :=
  drv ← get_drv;
  let nvCtx := getObjectPtr drv context in
  let surface := getObjectPtr drv render_target in
  match surface with
  | None => return_ VA_STATUS_ERROR_INVALID_SURFACE
  | Some _ =>
  s ← loadSurface surface;
  (if bool_decide (NVSurface.context s <> None /\ NVSurface.context s <> nvCtx) then
     (if bool_decide (NVSurface.backingImage s <> None)
      then backend_detachBackingImageFromSurface surface else skip);;
     modifySurface surface (NVSurface.set_pictureIdx (-1))
   else skip);;
  s ← loadSurface surface;
  (if bool_decide (NVSurface.pictureIdx s = -1) then
     c ← loadContext nvCtx;
     if bool_decide (NVContext.currentPictureId c = NVContext.surfaceCount c) then
       return_ VA_STATUS_ERROR_MAX_NUM_EXCEEDED
     else
       modifySurface surface (NVSurface.set_pictureIdx (NVContext.currentPictureId c));;
       modifyContext nvCtx
         (NVContext.set_currentPictureId (int32 (NVContext.currentPictureId c + 1)))
   else skip);;
  modifySurface surface (NVSurface.set_resolving 1);;
  modifyContext nvCtx (NVContext.set_pPicParams CUVIDPICPARAMS.zero);;
  modifyContext nvCtx (NVContext.set_renderTarget surface);;
  modifySurface surface (NVSurface.set_progressiveFrame true);;
  s ← loadSurface surface;
  modifyContext nvCtx (fun c =>
    NVContext.set_pPicParams
      (CUVIDPICPARAMS.mk (NVSurface.pictureIdx s) 0 0 None None) c);;
  mret VA_STATUS_SUCCESS
  end.

(** *** [nvRenderPicture] (vabackend.c:1187) *)

Definition nvRenderPicture (context : VAGenericID) (buffers : list VAGenericID)
    : M VAStatus VAStatus :=
  drv ← get_drv;
  let nvCtx := getObjectPtr drv context in
  match nvCtx with
  | None => return_ VA_STATUS_ERROR_INVALID_CONTEXT
  | Some _ =>
  for_each buffers (fun id =>
    d ← get_drv;
    match getObject d id with
    | None => crash NullDeref             (* getObject(drv, buffers[i])->obj *)
    | Some o =>
        let buf := Object_t.obj o in
        match buf with
        | None => LOG "Invalid buffer detected, skipping: %d" [id]
        | Some _ =>
            b ← loadBuffer buf;
            if bool_decide (NVBuffer.ptr b = None) then
              LOG "Invalid buffer detected, skipping: %d" [id]
            else
              c ← loadContext nvCtx;
              match NVContext.codec c with
              | None => crash NullDeref
              | Some slot =>
                  match nvd_codecs !! slot with
                  | None => crash OutOfBounds
                  | Some codec =>
                      if bool_decide (0 <= NVBuffer.bufferType b) then
                        match NVCodec.handlers codec !! Z.to_nat (NVBuffer.bufferType b) with
                        | None => crash OutOfBounds
                        | Some (Some func) => modifyContext nvCtx (fun c => func c b)
                        | Some None => LOG "Unhandled buffer type: %d" [NVBuffer.bufferType b]
                        end
                      else crash OutOfBounds
                  end
              end
        end
    end);;
  mret VA_STATUS_SUCCESS
  end.

(** *** [nvEndPicture] (vabackend.c:1216) *)

Definition next_index (i : Z) : Z :=
  if bool_decide (i + 1 >= SURFACE_QUEUE_SIZE) then 0 else i + 1.

Definition nvEndPicture (e : Env) (context : VAGenericID) : M VAStatus VAStatus :=
  drv ← get_drv;
  match getObject drv context with
  | None => crash NullDeref               (* getObject(drv, context)->obj *)
  | Some o =>
  let nvCtx := Object_t.obj o in
  match nvCtx with
  | None => return_ VA_STATUS_ERROR_INVALID_CONTEXT
  | Some ctx_addr =>
  c ← loadContext nvCtx;
  let picParams :=
    CUVIDPICPARAMS.mk (CUVIDPICPARAMS.CurrPicIdx (NVContext.pPicParams c))
      (CUVIDPICPARAMS.bottom_field_flag (NVContext.pPicParams c))
      (CUVIDPICPARAMS.second_field (NVContext.pPicParams c))
      (AppendableBuffer.buf (NVContext.bitstreamBuffer c))
      (AppendableBuffer.buf (NVContext.sliceOffsets c)) in
  let reset ab := AppendableBuffer.mk (AppendableBuffer.buf ab) 0 (AppendableBuffer.allocated ab) in
  modifyContext nvCtx (fun c =>
    NVContext.set_buffers (reset (NVContext.bitstreamBuffer c)) (reset (NVContext.sliceOffsets c))
      (NVContext.set_pPicParams picParams c));;
  CHECK_CUDA_RESULT_RETURN cuCtxPushCurrent (Env.r_cuCtxPushCurrent e)
    VA_STATUS_ERROR_OPERATION_FAILED;;
  emit (Vendor (cuvidDecodePicture picParams));;
  let result := Env.r_cuvidDecodePicture e in
  CHECK_CUDA_RESULT_RETURN cuCtxPopCurrent (Env.r_cuCtxPopCurrent e)
    VA_STATUS_ERROR_OPERATION_FAILED;;
  let status := if bool_decide (result <> CUDA_SUCCESS)
                then VA_STATUS_ERROR_DECODING_ERROR else VA_STATUS_SUCCESS in
  (if bool_decide (result <> CUDA_SUCCESS)
   then LOG "cuvidDecodePicture failed: %d" [result] else skip);;
  c ← loadContext nvCtx;
  let surface := NVContext.renderTarget c in
  modifySurface surface (fun s =>
    NVSurface.set_decodeFailed (bool_decide (status <> VA_STATUS_SUCCESS))
      (NVSurface.set_secondField (CUVIDPICPARAMS.second_field picParams)
         (NVSurface.set_topFieldFirst
            (bool_decide (CUVIDPICPARAMS.bottom_field_flag picParams = 0))
            (NVSurface.set_context nvCtx s))));;
  c ← loadContext nvCtx;
  let writeIdx := NVContext.surfaceQueueWriteIdx c in
  (if bool_decide (0 <= writeIdx < len (NVContext.surfaceQueue c)) then
     modifyContext nvCtx
       (NVContext.set_queue
          (<[Z.to_nat writeIdx := NVContext.renderTarget c]> (NVContext.surfaceQueue c))
          (NVContext.surfaceQueueReadIdx c) (next_index writeIdx));;
     emit (Enqueued ctx_addr (NVContext.renderTarget c))
   else crash OutOfBounds);;
  emit (CondSignal (resolveCondition ctx_addr));;
  mret status
  end
  end.

(** *** The resolve worker [resolveSurfaces] (vabackend.c:429) *)

(** The start of the thread function. *)
Definition resolveSurfaces_start (e : Env) (ctx : addr) : M unit unit :=
  CHECK_CUDA_RESULT_RETURN cuCtxPushCurrent (Env.r_cuCtxPushCurrent e) ();;
  LOG "[RT] Resolve thread for %p started" [].

(** One iteration of [while (!ctx->exiting)].  [Return] is the jump to
    [out]; [Blocked] is the worker suspended in [pthread_cond_wait], from
    which it re-enters the iteration when it is woken. *)
Definition resolveSurfaces_iteration (e : Env) (ctx : addr) : M unit unit :=
  c ← loadContext (Some ctx);
  if NVContext.exiting c then
    LOG "[RT] Resolve thread for %p exiting" [];;
    return_ ()
  else if bool_decide (NVContext.surfaceQueueReadIdx c = NVContext.surfaceQueueWriteIdx c) then
    block_on (resolveCondition ctx)
  else
    let readIdx := NVContext.surfaceQueueReadIdx c in
    if bool_decide (0 <= readIdx) then
      match NVContext.surfaceQueue c !! Z.to_nat readIdx with
      | None => crash OutOfBounds
      | Some surface =>
          modifyContext (Some ctx)
            (NVContext.set_queue (NVContext.surfaceQueue c) (next_index readIdx)
               (NVContext.surfaceQueueWriteIdx c));;
          s ← loadSurface surface;
          match surface with
          | None => crash NullDeref
          | Some surface_addr =>
              if NVSurface.decodeFailed s then
                modifySurface surface (NVSurface.set_resolving 0);;
                emit (CondSignal (surfaceCond surface_addr))
              else
                failed ← CHECK_CUDA_RESULT (cuvidMapVideoFrame (NVSurface.pictureIdx s))
                           (Env.r_cuvidMapVideoFrame e);
                if failed : bool then
                  modifySurface surface (NVSurface.set_resolving 0);;
                  emit (CondSignal (surfaceCond surface_addr))
                else
                  backend_exportCudaPtr surface_addr (Env.mapped_pitch e);;
                  _ ← CHECK_CUDA_RESULT cuvidUnmapVideoFrame (Env.r_cuvidUnmapVideoFrame e);
                  skip
          end
      end
    else crash OutOfBounds.

(** *** [nvSyncSurface] (vabackend.c:1254) *)

Definition nvSyncSurface (render_target : VAGenericID) : M VAStatus VAStatus :=
  drv ← get_drv;
  let surface := getObjectPtr drv render_target in
  match surface with
  | None => return_ VA_STATUS_ERROR_INVALID_SURFACE
  | Some surface_addr =>
      s ← loadSurface surface;
      if bool_decide (NVSurface.resolving s <> 0)
      then block_on (surfaceCond surface_addr)
      else mret VA_STATUS_SUCCESS
  end.

(** *** [nvExportSurfaceHandle] (vabackend.c:1844) *)

Definition nvExportSurfaceHandle (e : Env) (surface_id : VAGenericID)
    (mem_type flags : Z) : M VAStatus VAStatus :=
  drv ← get_drv;
  if bool_decide (Z.land mem_type VA_SURFACE_ATTRIB_MEM_TYPE_DRM_PRIME_2 = 0) then
    return_ VA_STATUS_ERROR_UNSUPPORTED_MEMORY_TYPE
  else if bool_decide (Z.land flags VA_EXPORT_SURFACE_SEPARATE_LAYERS = 0) then
    return_ VA_STATUS_ERROR_INVALID_SURFACE
  else
    match getObjectPtr drv surface_id with
    | None => return_ VA_STATUS_ERROR_INVALID_SURFACE
    | Some surface =>
        CHECK_CUDA_RESULT_RETURN cuCtxPushCurrent (Env.r_cuCtxPushCurrent e)
          VA_STATUS_ERROR_OPERATION_FAILED;;
        realised ← backend_realiseSurface e surface;
        if realised : bool then
          backend_fillExportDescriptor surface;;
          CHECK_CUDA_RESULT_RETURN cuCtxPopCurrent (Env.r_cuCtxPopCurrent e)
            VA_STATUS_ERROR_OPERATION_FAILED;;
          mret VA_STATUS_SUCCESS
        else
          LOG "Unable to export surface" [];;
          return_ VA_STATUS_ERROR_ALLOCATION_FAILED
    end.

End Driver.
(* ================================================================== *)
(** * Specification predicates *)

(** The state of a buffer that holds [data]. *)
Definition holds (ab : AppendableBuffer) (data : list byte) : Prop :=
  exists b, AppendableBuffer.buf ab = Some b /\
    len b = AppendableBuffer.allocated ab /\
    AppendableBuffer.size ab = len data /\
    take (Z.to_nat (AppendableBuffer.size ab)) b = Some <$> data /\
    AppendableBuffer.size ab <= AppendableBuffer.allocated ab /\
    2 <= AppendableBuffer.allocated ab < 2 ^ 64.


(** The first append of a sequence carries at least one byte. *)
Definition first_nonempty (bs : list (list byte)) : Prop :=
  match bs with
  | b :: _ => b <> []
  | [] => True
  end.

(** "The capacity grew by at least 50%": [a' >= 1.5 * a]. *)
Definition grows_by_half (a a' : Z) : Prop := 3 * a <= 2 * a'.



(** [BeginPicture] finds the target bound to another Context. *)
Definition bound_elsewhere (s : NVSurface) (nvCtx : addr) : Prop :=
  NVSurface.context s <> None /\ NVSurface.context s <> Some nvCtx.

(** The events a computation adds to the trace. *)
Definition new_events (w w' : World) : list Event :=
  drop (length (World.trace w)) (World.trace w').

Section SpecDriver.
Context {hdr : Headers} {cds : Codecs}.

(** [BeginPicture] on each target in turn, on one Context. *)
Fixpoint beginPictures (context : VAGenericID) (targets : list VAGenericID) (w : World)
    : list (Outcome VAStatus VAStatus) * World :=
  match targets with
  | [] => ([], w)
  | t :: ts =>
      let (o, w1) := nvBeginPicture context t w in
      let (os, w2) := beginPictures context ts w1 in
      (o :: os, w2)
  end.

(** The id names a live object whose cell holds an unbound Surface. *)
Definition fresh_surface (w : World) (id : VAGenericID) (p : addr) : Prop :=
  getObjectPtr (World.drv w) id = Some p /\
  exists s, World.heap w !! p = Some (PSurface s) /\ NVSurface.pictureIdx s = -1.

(** The cell of a Context, of a Surface; the zeroed struct elsewhere. *)
Definition context_at (w : World) (a : addr) : NVContext :=
  match World.heap w !! a with
  | Some (PContext c) => c
  | _ => NVContext.zero
  end.

Definition surface_at (w : World) (p : addr) : NVSurface :=
  match World.heap w !! p with
  | Some (PSurface s) => s
  | _ => NVSurface.zero
  end.

End SpecDriver.

(** The registry hands out each id once: the live objects have distinct
    ids, all handed out already ([1 .. nextObjId]). *)
Definition registry_wf (d : NVDriver) : Prop :=
  NoDup (Object_t.id <$> NVDriver.objects d) /\
  Forall (fun o => 0 < Object_t.id o <= NVDriver.nextObjId d) (NVDriver.objects d) /\
  0 <= NVDriver.nextObjId d < 2 ^ 32.

(* ================================================================== *)
(** * A concrete platform and concrete runs *)

(** The values of [vabackend.h] and [va.h]. *)
Definition demo_headers : Headers :=
  {| SURFACE_QUEUE_SIZE := 16; VA_INVALID_ID := 0xffffffff |}.

(** A codec table with an HEVC and a VP9 entry; the handler of the picture
    parameter buffer notes the buffer's element count in the scratch
    picture parameters, the other buffer types have no handler. *)
Definition demo_handler : HandlerFunc := fun c b =>
  NVContext.set_pPicParams
    (CUVIDPICPARAMS.mk (CUVIDPICPARAMS.CurrPicIdx (NVContext.pPicParams c))
       0 (NVBuffer.elements b) None None) c.

Definition demo_hevc : NVCodec :=
  NVCodec.mk
    (fun p => match p with
              | VAProfileHEVCMain | VAProfileHEVCMain10 | VAProfileHEVCMain12 =>
                  cudaVideoCodec_HEVC
              | _ => cudaVideoCodec_NONE
              end)
    [Some demo_handler; None; None; None; None; None]
    [VAProfileHEVCMain; VAProfileHEVCMain10; VAProfileHEVCMain12].

Definition demo_vp9 : NVCodec :=
  NVCodec.mk
    (fun p => match p with
              | VAProfileVP9Profile0 | VAProfileVP9Profile2 => cudaVideoCodec_VP9
              | _ => cudaVideoCodec_NONE
              end)
    [Some demo_handler; None; None; None; None; None]
    [VAProfileVP9Profile0; VAProfileVP9Profile2].

Definition demo_codecs : Codecs := {| nvd_codecs := [demo_hevc; demo_vp9] |}.

(** A codec table that has an AV1 and a VP8 entry as well. *)
Definition demo_av1 : NVCodec :=
  NVCodec.mk
    (fun p => match p with
              | VAProfileAV1Profile0 | VAProfileAV1Profile1 => cudaVideoCodec_AV1
              | _ => cudaVideoCodec_NONE
              end)
    [Some demo_handler; None; None; None; None; None]
    [VAProfileAV1Profile0; VAProfileAV1Profile1].

Definition demo_vp8 : NVCodec :=
  NVCodec.mk
    (fun p => match p with
              | VAProfileVP8Version0_3 => cudaVideoCodec_VP8
              | _ => cudaVideoCodec_NONE
              end)
    [Some demo_handler; None; None; None; None; None]
    [VAProfileVP8Version0_3].

Definition demo_codecs_full : Codecs :=
  {| nvd_codecs := [demo_hevc; demo_vp9; demo_av1; demo_vp8] |}.

(** The state of a driver instance after initialisation on a device that
    supports 16-bit surfaces. *)
Definition demo_init : World :=
  World.mk (NVDriver.mk [] 0 0 true false) ∅ [].

(** The world a computation leaves. *)
Definition after {R A} (m : M R A) (w : World) : World := snd (m w).

Section Demo.
#[local] Existing Instance demo_headers.
#[local] Existing Instance demo_codecs.

(** [CreateConfig(HEVCMain10, VLD, [RTFormat = YUV420_10])]: Config 1. *)
Definition demo_config : World :=
  after (nvCreateConfig
           VAProfileHEVCMain10 VAEntrypointVLD
           [VAConfigAttrib.mk VAConfigAttribRTFormat VA_RT_FORMAT_YUV420_10])
        demo_init.

(** [CreateSurfaces2(YUV420_10, 1920x1080, 3)]: Surfaces 2, 3 and 4. *)
Definition demo_surfaces : World :=
  after (nvCreateSurfaces2 Env.ok VA_RT_FORMAT_YUV420_10 1920 1080 3)
        demo_config.

(** [CreateContext(config 1, 1920x1080, [2; 3])]: Context 5, two decode surfaces. *)
Definition demo_context : World :=
  after (nvCreateContext
           Env.ok 1 1920 1080 0 [2; 3])
        demo_surfaces.

(** A second context on the same config: Context 6. *)
Definition demo_context2 : World :=
  after (nvCreateContext
           Env.ok 1 1920 1080 0 [2; 3])
        demo_context.

(** [CreateBuffer(context 5, picture parameters, 8 bytes x 1, NULL)]: Buffer 7. *)
Definition demo_buffer : World :=
  after (nvCreateBuffer Env.ok 5 VAPictureParameterBufferType 8 1 None)
        demo_context2.

(** [BeginPicture(context 5, surface 2)], [EndPicture(context 5)], one
    iteration of the resolve worker of context 5, and the export of
    surface 2, which gives it a backing image. *)
Definition demo_begin : World := after (nvBeginPicture 5 2) demo_buffer.
Definition demo_end : World := after (nvEndPicture Env.ok 5) demo_begin.
Definition demo_resolved : World :=
  after (resolveSurfaces_iteration Env.ok 5%positive) demo_end.
Definition demo_exported : World :=
  after (nvExportSurfaceHandle Env.ok 2 VA_SURFACE_ATTRIB_MEM_TYPE_DRM_PRIME_2
           VA_EXPORT_SURFACE_SEPARATE_LAYERS) demo_resolved.

(** Context 6 decodes into surface 3 and so hands out its picture index 0. *)
Definition demo_other_busy : World := after (nvBeginPicture 6 3) demo_exported.

End Demo.

(** The addresses of the cells of context 5, context 6 and surface 2. *)
Definition demo_ctx_addr : addr := 5%positive.
Definition demo_ctx2_addr : addr := 6%positive.
Definition demo_surface_addr : addr := 2%positive.

(** An environment whose allocator is out of memory. *)
Definition env_no_memory : Env := Env.mk 0 0 0 0 1 0 0 0 0 0 false true 1.

(** An environment whose decoder rejects the picture ([CUDA_ERROR_INVALID_VALUE]). *)
Definition env_decode_fails : Env := Env.mk 0 0 0 0 1 1 0 0 0 0 true true 1.

(** The decoder rejects the picture and the context pop fails as well. *)
Definition env_decode_and_pop_fail : Env := Env.mk 0 1 0 0 1 1 0 0 0 0 true true 1.

(* ================================================================== *)
(** * The resolve ring as a queue *)

Section RingSpec.
Context {hdr : Headers}.

(** The pictures waiting in the resolve ring of a Context, oldest first:
    they sit in the slots from the read index on, the write index is the
    slot after the last of them, and one slot at least is free. *)
Definition ring_holds (c : NVContext) (pending : list addr) : Prop :=
  len (NVContext.surfaceQueue c) = SURFACE_QUEUE_SIZE /\
  0 <= NVContext.surfaceQueueReadIdx c < SURFACE_QUEUE_SIZE /\
  len pending < SURFACE_QUEUE_SIZE /\
  NVContext.surfaceQueueWriteIdx c =
    (NVContext.surfaceQueueReadIdx c + len pending) mod SURFACE_QUEUE_SIZE /\
  forall (i : nat) (p : addr), pending !! i = Some p ->
    NVContext.surfaceQueue c
      !! Z.to_nat ((NVContext.surfaceQueueReadIdx c + Z.of_nat i) mod SURFACE_QUEUE_SIZE)
    = Some (Some p).

(** The events of a run that concern the picture in the cell [p]: the
    signal of its condition and its hand-over to the export backend. *)
Definition handles (evs : list Event) (p : addr) : Prop :=
  (CondSignal (surfaceCond p) ∈ evs \/ exists pitch, Backend (exportCudaPtr p pitch) ∈ evs) /\
  (forall q, CondSignal (surfaceCond q) ∈ evs -> q = p) /\
  (forall q pitch, Backend (exportCudaPtr q pitch) ∈ evs -> q = p).

End RingSpec.

(* ================================================================== *)
(** * Context creation *)

Section CreateContextSpec.
Context {hdr : Headers}.

(** The Config as [nvCreateContext] leaves it: with render targets, the
    surface parameters are those of the first one. *)
Definition config_after (w : World) (render_targets : list VAGenericID) (k k' : NVConfig)
    : Prop :=
  match render_targets with
  | [] => k' = k
  | rt0 :: _ =>
      exists sp s, getObjectPtr (World.drv w) rt0 = Some sp /\
        World.heap w !! sp = Some (PSurface s) /\
        k' = NVConfig.set_surface (NVSurface.format s) (NVSurface.chromaFormat s)
               (NVSurface.bitDepth s) k
  end.

(** The decoder [nvCreateContext] asks for. *)
Definition decoder_request (k' : NVConfig) (width height n : Z) : CUVIDDECODECREATEINFO :=
  let '(dw, dh) := round_dims int32 (NVConfig.chromaFormat k') width height in
  CUVIDDECODECREATEINFO.mk (uint64 width) (uint64 height) (NVConfig.cudaCodec k')
    (int16 dw) (int16 dh)
    (NVConfig.chromaFormat k') (NVConfig.surfaceFormat k') (NVConfig.bitDepth k' - 8) 1
    (Z.min (if bool_decide (n > 0) then n else 32) 32).

End CreateContextSpec.

(* ================================================================== *)
(** * Out-parameters *)

(** The values a run has stored through out-parameters, in order: for
    [nvCreateSurfaces2] the contents of the array [surfaces]. *)
Definition outs (evs : list Event) : list Z :=
  omap (fun ev => match ev with Out v => Some v | _ => None end) evs.

(** The calls into the export backend during a run, in order. *)
Definition backend_calls (evs : list Event) : list BackendCall :=
  omap (fun ev => match ev with Backend c => Some c | _ => None end) evs.

(* ================================================================== *)
(** * Further entry points of [vabackend.c] *)

(** The answer of [cuvidGetDecoderCaps] that [doesGPUSupportCodec] reads. *)
Module CUVIDDECODECAPS.
Record t := mk {
  r_cuvidGetDecoderCaps : CUresult;
  nMaxWidth : Z;
  nMaxHeight : Z;
  bIsSupported : Z
}.
End CUVIDDECODECAPS.
Abbreviation CUVIDDECODECAPS := CUVIDDECODECAPS.t.

(** The decoder capabilities of the device, by [eCodecType],
    [nBitDepthMinus8] and [eChromaFormat]. *)
Definition DecoderCaps := cudaVideoCodec -> Z -> cudaVideoChromaFormat -> CUVIDDECODECAPS.

(** A call of a function with a return type of its own: its [return]
    ends the callee, not the caller. *)
Definition call {R A} (m : M A A) : M R A := fun w =>
  match m w with
  | (Val a, w') | (Return a, w') => (Val a, w')
  | (Crash f, w') => (Crash f, w')
  | (Blocked c, w') => (Blocked c, w')
  end.


(** [nvCtx->decoder = v] *)
Definition NVContext_set_decoder (v : option Z) (c : NVContext) : NVContext :=
  NVContext.mk v (NVContext.profile c) (NVContext.entrypoint c) (NVContext.width c)
    (NVContext.height c) (NVContext.codec c) (NVContext.surfaceCount c)
    (NVContext.currentPictureId c) (NVContext.renderTarget c) (NVContext.pPicParams c)
    (NVContext.bitstreamBuffer c) (NVContext.sliceOffsets c) (NVContext.surfaceQueue c)
    (NVContext.surfaceQueueReadIdx c) (NVContext.surfaceQueueWriteIdx c) (NVContext.exiting c).



Section DriverQueries.
Context {hdr : Headers} {cds : Codecs}.

(** *** [destroyContext] (vabackend.c:347), [nvDestroyContext] (1047)

    [pthread_timedjoin_np] and [cuvidDestroyDecoder] have no event of
    their own; their results are the inputs [r_timedjoin] and
    [r_cuvidDestroyDecoder]. *)
Definition destroyContext (e : Env) (r_timedjoin : Z) (r_cuvidDestroyDecoder : CUresult)
    (nvCtx : option addr) : M bool bool :=
  CHECK_CUDA_RESULT_RETURN cuCtxPushCurrent (Env.r_cuCtxPushCurrent e) false;;
  LOG "Signaling resolve thread to exit" [];;
  modifyContext nvCtx (NVContext.set_exiting true);;
  match nvCtx with
  | None => crash NullDeref
  | Some a =>
  emit (CondSignal (resolveCondition a));;
  LOG "Waiting for resolve thread to exit" [];;
  LOG "pthread_timedjoin_np finished with %d" [r_timedjoin];;
  modifyContext nvCtx (fun c =>
    NVContext.set_buffers (NVContext.bitstreamBuffer c) (freeBuffer (NVContext.sliceOffsets c)) c);;
  modifyContext nvCtx (fun c =>
    NVContext.set_buffers (freeBuffer (NVContext.bitstreamBuffer c)) (NVContext.sliceOffsets c) c);;
  c ← loadContext nvCtx;
  successful ← (match NVContext.decoder c with
                | Some _ =>
                    if bool_decide (r_cuvidDestroyDecoder <> CUDA_SUCCESS) then
                      LOG "cuvidDestroyDecoder failed: %d" [r_cuvidDestroyDecoder];;
                      mret false
                    else mret true
                | None => mret true
                end);
  modifyContext nvCtx (NVContext_set_decoder None);;
  CHECK_CUDA_RESULT_RETURN cuCtxPopCurrent (Env.r_cuCtxPopCurrent e) false;;
  mret successful
  end.

Definition nvDestroyContext (e : Env) (r_timedjoin : Z) (r_cuvidDestroyDecoder : CUresult)
    (context : VAGenericID) : M VAStatus VAStatus :=
  drv ← get_drv;
  LOG "Destroying context: %d" [context];;
  let nvCtx := getObjectPtr drv context in
  match nvCtx with
  | None => return_ VA_STATUS_ERROR_INVALID_CONTEXT
  | Some _ =>
      ok ← call (destroyContext e r_timedjoin r_cuvidDestroyDecoder nvCtx);
      let ret := if ok : bool then VA_STATUS_SUCCESS else VA_STATUS_ERROR_OPERATION_FAILED in
      deleteObject context;;
      mret ret
  end.

(** *** [nvSurfaceFromSurfaceId], [pictureIdxFromSurfaceId] (vabackend.c:385-400) *)

Definition nvSurfaceFromSurfaceId (d : NVDriver) (surf : VAGenericID) : option addr :=
  match getObject d surf with
  | Some obj =>
      if bool_decide (Object_t.type obj = OBJECT_TYPE_SURFACE)
      then Object_t.obj obj else None
  | None => None
  end.

Definition pictureIdxFromSurfaceId {R} (surfId : VAGenericID) : M R Z :=
  d ← get_drv;
  let surf := nvSurfaceFromSurfaceId d surfId in
  match surf with
  | Some _ => s ← loadSurface surf; mret (NVSurface.pictureIdx s)
  | None => mret (-1)
  end.

(** *** [nvDestroyConfig] (vabackend.c:772) *)

Definition nvDestroyConfig (config_id : VAGenericID) : M VAStatus VAStatus :=
  deleteObject config_id;;
  mret VA_STATUS_SUCCESS.

(** *** [nvMapBuffer] (vabackend.c:1113), [nvDestroyBuffer] (1136) *)

(** The value is what the call stores to [*pbuf], its status being
    VA_STATUS_SUCCESS. *)
Definition nvMapBuffer (buf_id : VAGenericID) : M VAStatus (option block) :=
  drv ← get_drv;
  let buf := getObjectPtr drv buf_id in
  match buf with
  | None => return_ VA_STATUS_ERROR_INVALID_BUFFER
  | Some _ =>
      b ← loadBuffer buf;
      mret (NVBuffer.ptr b)
  end.

(** The block behind [buf->ptr] is part of the Buffer cell and is freed
    with it. *)
Definition nvDestroyBuffer (buffer_id : VAGenericID) : M VAStatus VAStatus :=
  drv ← get_drv;
  let buf := getObjectPtr drv buffer_id in
  match buf with
  | None => return_ VA_STATUS_ERROR_INVALID_BUFFER
  | Some _ =>
      b ← loadBuffer buf;                  (* reads buf->ptr *)
      deleteObject buffer_id;;
      mret VA_STATUS_SUCCESS
  end.

(** *** [doesGPUSupportCodec] (vabackend.c:412)

    The value is the answer together with what is stored through [width]
    and [height] (nothing when the capability query fails). *)
Definition doesGPUSupportCodec {R} (gpu : DecoderCaps) (codec : cudaVideoCodec)
    (bitDepth : Z) (chromaFormat : cudaVideoChromaFormat) : M R (bool * option (Z * Z)) :=
  let videoDecodeCaps := gpu codec (bitDepth - 8) chromaFormat in
  failed ← checkCudaErrors (CUVIDDECODECAPS.r_cuvidGetDecoderCaps videoDecodeCaps);
  if failed : bool then mret (false, None)
  else mret (bool_decide (CUVIDDECODECAPS.bIsSupported videoDecodeCaps = 1),
             Some (CUVIDDECODECAPS.nMaxWidth videoDecodeCaps,
                   CUVIDDECODECAPS.nMaxHeight videoDecodeCaps)).

(** *** [nvGetConfigAttributes] (vabackend.c:588) *)


(** *** [nvQueryConfigAttributes] (vabackend.c:782) *)


(** *** [nvQueryConfigProfiles] (vabackend.c:478) *)

(** [if (doesGPUSupportCodec(codec, depth, chroma, NULL, NULL))
       { profile_list[profiles++] = p; ... }];
    the array and its fill count are the list. *)
Definition add_profiles {R} (gpu : DecoderCaps) (codec : cudaVideoCodec) (bitDepth : Z)
    (chromaFormat : cudaVideoChromaFormat) (ps : list VAProfile)
    (profile_list : list VAProfile) : M R (list VAProfile) :=
  r ← doesGPUSupportCodec gpu codec bitDepth chromaFormat;
  mret (if (fst r : bool) then profile_list ++ ps else profile_list).

(** [for (x = i; x < profiles-1; x++) profile_list[x] = profile_list[x+1];]
    with [n] iterations to go; [None] is a read outside the array. *)
Fixpoint shift_down (n x : nat) (profile_list : list VAProfile) : option (list VAProfile) :=
  match n with
  | O => Some profile_list
  | S n' =>
      match profile_list !! S x with
      | Some v => shift_down n' (S x) (<[x := v]> profile_list)
      | None => None
      end
  end.

(** The loop that removes the profiles no codec module decodes,
    [for (i = 0; i < profiles; i++) if (vaToCuCodec(profile_list[i]) == NONE)
       { shift; profiles--; i--; }].
    Every iteration brings [i] and [profiles] one step closer, so the loop
    is written by recursion on [remaining = profiles - i]; the value is the
    array and the final [profiles]. *)
Fixpoint remove_unsupported (remaining i : nat) (profile_list : list VAProfile)
    : option (list VAProfile * nat) :=
  match remaining with
  | O => Some (profile_list, i)
  | S remaining' =>
      match profile_list !! i with
      | Some p =>
          if bool_decide (vaToCuCodec p = cudaVideoCodec_NONE) then
            match shift_down remaining' i profile_list with
            | Some profile_list' => remove_unsupported remaining' i profile_list'
            | None => None
            end
          else remove_unsupported remaining' (S i) profile_list
      | None => None
      end
  end.

(** The value is the array [profile_list] and what is stored to
    [*num_profiles]. *)
Definition nvQueryConfigProfiles (e : Env) (gpu : DecoderCaps)
    : M VAStatus (list VAProfile * Z) :=
  drv ← get_drv;
  CHECK_CUDA_RESULT_RETURN cuCtxPushCurrent (Env.r_cuCtxPushCurrent e)
    VA_STATUS_ERROR_OPERATION_FAILED;;
  l ← add_profiles gpu cudaVideoCodec_MPEG2 8 cudaVideoChromaFormat_420
        [VAProfileMPEG2Simple; VAProfileMPEG2Main] [];
  l ← add_profiles gpu cudaVideoCodec_MPEG4 8 cudaVideoChromaFormat_420
        [VAProfileMPEG4Simple; VAProfileMPEG4AdvancedSimple; VAProfileMPEG4Main] l;
  l ← add_profiles gpu cudaVideoCodec_VC1 8 cudaVideoChromaFormat_420
        [VAProfileVC1Simple; VAProfileVC1Main; VAProfileVC1Advanced] l;
  l ← add_profiles gpu cudaVideoCodec_H264 8 cudaVideoChromaFormat_420
        [VAProfileH264Main; VAProfileH264High; VAProfileH264ConstrainedBaseline] l;
  l ← add_profiles gpu cudaVideoCodec_JPEG 8 cudaVideoChromaFormat_420
        [VAProfileJPEGBaseline] l;
  l ← add_profiles gpu cudaVideoCodec_H264_SVC 8 cudaVideoChromaFormat_420
        [VAProfileH264StereoHigh] l;
  l ← add_profiles gpu cudaVideoCodec_H264_MVC 8 cudaVideoChromaFormat_420
        [VAProfileH264MultiviewHigh] l;
  l ← add_profiles gpu cudaVideoCodec_HEVC 8 cudaVideoChromaFormat_420
        [VAProfileHEVCMain] l;
  l ← add_profiles gpu cudaVideoCodec_VP8 8 cudaVideoChromaFormat_420
        [VAProfileVP8Version0_3] l;
  l ← add_profiles gpu cudaVideoCodec_VP9 8 cudaVideoChromaFormat_420
        [VAProfileVP9Profile0] l;
  l ← add_profiles gpu cudaVideoCodec_AV1 8 cudaVideoChromaFormat_420
        [VAProfileAV1Profile0] l;
  l ← (if NVDriver.supports16BitSurface drv then
         l ← add_profiles gpu cudaVideoCodec_HEVC 10 cudaVideoChromaFormat_420
               [VAProfileHEVCMain10] l;
         l ← add_profiles gpu cudaVideoCodec_HEVC 12 cudaVideoChromaFormat_420
               [VAProfileHEVCMain12] l;
         add_profiles gpu cudaVideoCodec_VP9 10 cudaVideoChromaFormat_420
           [VAProfileVP9Profile2] l
       else mret l);
  l ← (if NVDriver.supports444Surface drv then
         l ← add_profiles gpu cudaVideoCodec_HEVC 8 cudaVideoChromaFormat_444
               [VAProfileHEVCMain444] l;
         l ← add_profiles gpu cudaVideoCodec_VP9 8 cudaVideoChromaFormat_444
               [VAProfileVP9Profile1] l;
         l ← add_profiles gpu cudaVideoCodec_AV1 8 cudaVideoChromaFormat_444
               [VAProfileAV1Profile1] l;
         if NVDriver.supports16BitSurface drv then
           l ← add_profiles gpu cudaVideoCodec_HEVC 10 cudaVideoChromaFormat_444
                 [VAProfileHEVCMain444_10] l;
           l ← add_profiles gpu cudaVideoCodec_HEVC 12 cudaVideoChromaFormat_444
                 [VAProfileHEVCMain444_12] l;
           add_profiles gpu cudaVideoCodec_VP9 10 cudaVideoChromaFormat_444
             [VAProfileVP9Profile3] l
         else mret l
       else mret l);
  match remove_unsupported (length l) 0 l with
  | None => crash OutOfBounds
  | Some (l, profiles) =>
      CHECK_CUDA_RESULT_RETURN cuCtxPopCurrent (Env.r_cuCtxPopCurrent e)
        VA_STATUS_ERROR_OPERATION_FAILED;;
      mret (l, Z.of_nat profiles)
  end.

End DriverQueries.

(** The profiles [nvQueryConfigProfiles] can report on a driver with the
    given surface support, in the order of the source. *)
Definition reportable_profiles (supports16Bit supports444 : bool) : list VAProfile :=
  [VAProfileMPEG2Simple; VAProfileMPEG2Main;
   VAProfileMPEG4Simple; VAProfileMPEG4AdvancedSimple; VAProfileMPEG4Main;
   VAProfileVC1Simple; VAProfileVC1Main; VAProfileVC1Advanced;
   VAProfileH264Main; VAProfileH264High; VAProfileH264ConstrainedBaseline;
   VAProfileJPEGBaseline; VAProfileH264StereoHigh; VAProfileH264MultiviewHigh;
   VAProfileHEVCMain; VAProfileVP8Version0_3; VAProfileVP9Profile0; VAProfileAV1Profile0]
  ++ (if supports16Bit
      then [VAProfileHEVCMain10; VAProfileHEVCMain12; VAProfileVP9Profile2] else [])
  ++ (if supports444
      then [VAProfileHEVCMain444; VAProfileVP9Profile1; VAProfileAV1Profile1]
           ++ (if supports16Bit
               then [VAProfileHEVCMain444_10; VAProfileHEVCMain444_12; VAProfileVP9Profile3]
               else [])
      else []).

(** [MAX_PROFILES] (vabackend.c:477), the size [__vaDriverInit_1_0]
    announces for the array of [nvQueryConfigProfiles]. *)
Definition MAX_PROFILES : Z := 32.

(** The array after [if (b) { profile_list[profiles++] = ...; }]. *)
Definition add_if (b : bool) (profile_list ps : list VAProfile) : list VAProfile :=
  if b then profile_list ++ ps else profile_list.

(** What the dispatch of [nvRenderPicture] does to the Context for one
    buffer: the handler of the buffer's type, if the codec has one. *)
Definition dispatch (codec : NVCodec) (c : NVContext) (b : NVBuffer) : NVContext :=
  match NVCodec.handlers codec !! Z.to_nat (NVBuffer.bufferType b) with
  | Some (Some func) => func c b
  | _ => c
  end.

(** A buffer [nvRenderPicture] can dispatch: the id yields a Buffer with a
    payload whose type lies inside the handler table. *)
Definition dispatchable {hdr : Headers} (w : World) (codec : NVCodec)
    (t : VAGenericID * addr * NVBuffer) : Prop :=
  let '(id, p, b) := t in
  getObjectPtr (World.drv w) id = Some p /\
  World.heap w !! p = Some (PBuffer b) /\
  NVBuffer.ptr b <> None /\
  0 <= NVBuffer.bufferType b < len (NVCodec.handlers codec).

(* ================================================================== *)
(** * Further concrete runs *)

(** The cell of a Config, of a Buffer; the zeroed struct elsewhere. *)
Definition config_at (w : World) (a : addr) : NVConfig :=
  match World.heap w !! a with
  | Some (PConfig c) => c
  | _ => NVConfig.zero
  end.

Definition buffer_at (w : World) (a : addr) : NVBuffer :=
  match World.heap w !! a with
  | Some (PBuffer b) => b
  | _ => NVBuffer.zero
  end.

(** An environment in which the resolve thread cannot be started ([EAGAIN]). *)
Definition env_thread_fails : Env := Env.mk 0 0 0 0 1 0 0 0 0 11 true true 1.

(** A device that decodes every codec up to 4096x4096. *)
Definition demo_caps : DecoderCaps := fun _ _ _ => CUVIDDECODECAPS.mk 0 4096 4096 1.

(** Client memory at address 0x1003 that holds the byte 0x2a everywhere. *)
Definition demo_data : ClientPtr := ClientPtr.mk 0x1003 (fun _ => x2a).

Section DemoMore.
#[local] Existing Instance demo_headers.
#[local] Existing Instance demo_codecs.

(** Fifteen pictures submitted on context 5 while its worker does not run:
    one slot of the ring is left. *)
Definition demo_ring_full : World :=
  Nat.iter 15 (after (nvEndPicture Env.ok 5)) demo_begin.

End DemoMore.

(** A VP8 Config (id 1) and a Context on it (id 2), on the codec table that
    has a VP8 entry. *)
Definition demo_vp8_context : World :=
  after (nvCreateContext (hdr := demo_headers) (cds := demo_codecs_full)
           Env.ok 1 640 480 0 [])
    (after (nvCreateConfig (cds := demo_codecs_full)
              VAProfileVP8Version0_3 VAEntrypointVLD [])
       demo_init).

(** Client memory at address 8. *)
Definition demo_data_low : ClientPtr := ClientPtr.mk 8 (fun _ => x2a).

(* ================================================================== *)
(** * Properties *)

(** ** Running the monad *)

Section Run.
Context {R : Type}.

Lemma bind_assoc {A B C} (m : M R A) (g : A -> M R B) (f : B -> M R C) w :
  ((m ≫= g) ≫= f) w = (m ≫= (fun x => g x ≫= f)) w.
Proof. unfold mbind, M_bind. destruct (m w) as [[]]; reflexivity. Qed.

Lemma bind_Val {A B} (m : M R A) (f : A -> M R B) w a w' :
  m w = (Val a, w') -> (m ≫= f) w = f a w'.
Proof. intros Hm. unfold mbind, M_bind. by rewrite Hm. Qed.

Lemma mret_run {A} (a : A) w : (mret a : M R A) w = (Val a, w).
Proof. reflexivity. Qed.

Lemma mret_bind {A B} (a : A) (f : A -> M R B) w : (mret a ≫= f) w = f a w.
Proof. reflexivity. Qed.

Lemma skip_bind {B} (f : unit -> M R B) w : (skip ≫= f) w = f () w.
Proof. reflexivity. Qed.

Lemma return_bind {A B} (r : R) (f : A -> M R B) w :
  (return_ r ≫= f) w = (Return r, w).
Proof. reflexivity. Qed.

Lemma crash_bind {A B} (e : Fault) (f : A -> M R B) w :
  (crash e ≫= f) w = (Crash e, w).
Proof. reflexivity. Qed.

Lemma block_bind {A B} (c : Cond) (f : A -> M R B) w :
  (block_on c ≫= f) w = (Blocked c, w).
Proof. reflexivity. Qed.

Lemma get_drv_bind {B} (f : NVDriver -> M R B) w :
  (get_drv ≫= f) w = f (World.drv w) w.
Proof. reflexivity. Qed.

Lemma put_drv_bind {B} d (f : unit -> M R B) w :
  (put_drv d ≫= f) w = f () (World.set_drv d w).
Proof. reflexivity. Qed.

Lemma emit_bind {B} e (f : unit -> M R B) w :
  (emit e ≫= f) w = f () (World.log e w).
Proof. reflexivity. Qed.

Lemma LOG_bind {B} fmt args (f : unit -> M R B) w :
  (LOG fmt args ≫= f) w = f () (World.log (Log fmt args) w).
Proof. reflexivity. Qed.

Lemma load_bind {B} a v (f : Payload -> M R B) w :
  World.heap w !! a = Some v -> (load (Some a) ≫= f) w = f v w.
Proof. intros Hv. unfold mbind, M_bind, load. by rewrite Hv. Qed.

Lemma store_bind {B} a v0 v (f : unit -> M R B) w :
  World.heap w !! a = Some v0 -> (store (Some a) v ≫= f) w = f () (World.upd a v w).
Proof. intros Hv. unfold mbind, M_bind, store. by rewrite Hv. Qed.

Lemma loadConfig_bind {B} a c (f : NVConfig -> M R B) w :
  World.heap w !! a = Some (PConfig c) -> (loadConfig (Some a) ≫= f) w = f c w.
Proof. intros Hv. unfold loadConfig. rewrite bind_assoc. by rewrite (load_bind _ _ _ _ Hv). Qed.

Lemma loadContext_bind {B} a c (f : NVContext -> M R B) w :
  World.heap w !! a = Some (PContext c) -> (loadContext (Some a) ≫= f) w = f c w.
Proof. intros Hv. unfold loadContext. rewrite bind_assoc. by rewrite (load_bind _ _ _ _ Hv). Qed.

Lemma loadSurface_bind {B} a s (f : NVSurface -> M R B) w :
  World.heap w !! a = Some (PSurface s) -> (loadSurface (Some a) ≫= f) w = f s w.
Proof. intros Hv. unfold loadSurface. rewrite bind_assoc. by rewrite (load_bind _ _ _ _ Hv). Qed.

Lemma loadBuffer_bind {B} a b (f : NVBuffer -> M R B) w :
  World.heap w !! a = Some (PBuffer b) -> (loadBuffer (Some a) ≫= f) w = f b w.
Proof. intros Hv. unfold loadBuffer. rewrite bind_assoc. by rewrite (load_bind _ _ _ _ Hv). Qed.

Lemma modifyConfig_bind {B} a c g (f : unit -> M R B) w :
  World.heap w !! a = Some (PConfig c) ->
  (modifyConfig (Some a) g ≫= f) w = f () (World.upd a (PConfig (g c)) w).
Proof.
  intros Hv. unfold modifyConfig. rewrite bind_assoc, (loadConfig_bind _ _ _ _ Hv).
  by rewrite (store_bind _ _ _ _ _ Hv).
Qed.

Lemma modifyContext_bind {B} a c g (f : unit -> M R B) w :
  World.heap w !! a = Some (PContext c) ->
  (modifyContext (Some a) g ≫= f) w = f () (World.upd a (PContext (g c)) w).
Proof.
  intros Hv. unfold modifyContext. rewrite bind_assoc, (loadContext_bind _ _ _ _ Hv).
  by rewrite (store_bind _ _ _ _ _ Hv).
Qed.

Lemma modifySurface_bind {B} a s g (f : unit -> M R B) w :
  World.heap w !! a = Some (PSurface s) ->
  (modifySurface (Some a) g ≫= f) w = f () (World.upd a (PSurface (g s)) w).
Proof.
  intros Hv. unfold modifySurface. rewrite bind_assoc, (loadSurface_bind _ _ _ _ Hv).
  by rewrite (store_bind _ _ _ _ _ Hv).
Qed.

Lemma modifyBuffer_bind {B} a b g (f : unit -> M R B) w :
  World.heap w !! a = Some (PBuffer b) ->
  (modifyBuffer (Some a) g ≫= f) w = f () (World.upd a (PBuffer (g b)) w).
Proof.
  intros Hv. unfold modifyBuffer. rewrite bind_assoc, (loadBuffer_bind _ _ _ _ Hv).
  by rewrite (store_bind _ _ _ _ _ Hv).
Qed.

Lemma calloc_bind {B} zero (f : addr -> M R B) w :
  (calloc zero ≫= f) w =
  f (fresh (dom (World.heap w))) (World.upd (fresh (dom (World.heap w))) zero w).
Proof. reflexivity. Qed.

Lemma free_bind {B} a (f : unit -> M R B) w :
  (free (Some a) ≫= f) w = f () (World.dealloc a w).
Proof. reflexivity. Qed.

Lemma CHECK_RETURN_ok_bind {B} c err r (f : unit -> M R B) w :
  err = CUDA_SUCCESS ->
  (CHECK_CUDA_RESULT_RETURN c err r ≫= f) w = f () (World.log (Vendor c) w).
Proof.
  intros ->. unfold CHECK_CUDA_RESULT_RETURN, checkCudaErrors.
  rewrite bool_decide_eq_true_2 by done. reflexivity.
Qed.

Lemma CHECK_RETURN_fail_bind {B} c err r (f : unit -> M R B) w :
  err <> CUDA_SUCCESS ->
  (CHECK_CUDA_RESULT_RETURN c err r ≫= f) w =
  (Return r, World.log (Log "CUDA ERROR '%s' (%d)" [err]) (World.log (Vendor c) w)).
Proof.
  intros Herr. unfold CHECK_CUDA_RESULT_RETURN, checkCudaErrors.
  rewrite bool_decide_eq_false_2 by done. reflexivity.
Qed.

Lemma CHECK_ok_bind {B} c err (f : bool -> M R B) w :
  err = CUDA_SUCCESS ->
  (CHECK_CUDA_RESULT c err ≫= f) w = f false (World.log (Vendor c) w).
Proof.
  intros ->. unfold CHECK_CUDA_RESULT, checkCudaErrors.
  rewrite bool_decide_eq_true_2 by done. reflexivity.
Qed.

Lemma CHECK_fail_bind {B} c err (f : bool -> M R B) w :
  err <> CUDA_SUCCESS ->
  (CHECK_CUDA_RESULT c err ≫= f) w =
  f true (World.log (Log "CUDA ERROR '%s' (%d)" [err]) (World.log (Vendor c) w)).
Proof.
  intros Herr. unfold CHECK_CUDA_RESULT, checkCudaErrors.
  rewrite bool_decide_eq_false_2 by done. reflexivity.
Qed.

Lemma detach_bind {B} a s (f : unit -> M R B) w :
  World.heap w !! a = Some (PSurface s) ->
  (backend_detachBackingImageFromSurface (Some a) ≫= f) w =
  f () (World.upd a (PSurface (NVSurface.set_backingImage None s))
          (World.log (Backend (detachBackingImageFromSurface a)) w)).
Proof.
  intros Hv. unfold backend_detachBackingImageFromSurface.
  rewrite bind_assoc, emit_bind. cbn beta.
  by rewrite (modifySurface_bind a s _ f (World.log _ w) Hv).
Qed.

End Run.

(** Symbolic execution of an entry point: flatten the binds and run the
    primitive at the head, looking its cell up in the current store. *)
Ltac solve_lookup :=
  cbn [World.heap World.drv World.trace World.upd World.log World.set_drv World.dealloc];
  repeat first [ rewrite lookup_insert_eq | rewrite lookup_insert_ne by congruence ];
  first [ eassumption | reflexivity ].

Ltac mstep :=
  first
    [ rewrite bind_assoc
    | rewrite mret_bind | rewrite skip_bind | rewrite return_bind
    | rewrite crash_bind | rewrite block_bind
    | rewrite get_drv_bind | rewrite put_drv_bind
    | rewrite emit_bind | rewrite LOG_bind
    | erewrite loadConfig_bind by solve_lookup
    | erewrite loadContext_bind by solve_lookup
    | erewrite loadSurface_bind by solve_lookup
    | erewrite loadBuffer_bind by solve_lookup
    | erewrite modifyConfig_bind by solve_lookup
    | erewrite modifyContext_bind by solve_lookup
    | erewrite modifySurface_bind by solve_lookup
    | erewrite modifyBuffer_bind by solve_lookup
    | erewrite detach_bind by solve_lookup
    | erewrite store_bind by solve_lookup
    | rewrite calloc_bind | rewrite free_bind
    | rewrite CHECK_RETURN_ok_bind by done
    | rewrite CHECK_RETURN_fail_bind by done
    | rewrite CHECK_ok_bind by done
    | rewrite CHECK_fail_bind by done ].

Ltac msteps := repeat (mstep; cbn beta iota).
(* ------------------------------------------------------------------ *)
(** *** Properties of the appendable buffer *)

Lemma len_app {A} (l k : list A) : len (l ++ k) = len l + len k.
Proof. unfold len. rewrite length_app. lia. Qed.

Lemma len_nonneg {A} (l : list A) : 0 <= len l.
Proof. unfold len. lia. Qed.

Lemma len_fmap {A B} (f : A -> B) (l : list A) : len (f <$> l) = len l.
Proof. unfold len. by rewrite length_fmap. Qed.

Lemma to_nat_len {A} (l : list A) : Z.to_nat (len l) = length l.
Proof. unfold len. apply Nat2Z.id. Qed.

Lemma uint64_small x : 0 <= x < 2 ^ 64 -> uint64 x = x.
Proof. intros. unfold uint64. apply Z.mod_small. lia. Qed.

(** Writing [src] at offset [|pre|] of a block that starts with [pre]. *)
Lemma memcpy_after (dst pre src : block) :
  take (length pre) dst = pre ->
  len pre + len src <= len dst ->
  exists dst', memcpy dst (len pre) src = Some dst' /\
    len dst' = len dst /\
    take (length (pre ++ src)) dst' = pre ++ src.
Proof.
  intros Hpre Hfit. unfold memcpy.
  pose proof (len_nonneg pre).
  rewrite bool_decide_eq_true_2 by lia.
  eexists; split; [reflexivity|].
  unfold len in *. rewrite Nat2Z.id.
  assert (length pre <= length dst)%nat by lia.
  split.
  - rewrite !length_app, length_take, length_drop. lia.
  - rewrite Hpre. rewrite app_assoc.
    rewrite take_app_length'; [done|].
    rewrite !length_app. lia.
Qed.

(** One iteration of the growth loop adds half of the capacity, rounded
    down; from a capacity of at least 2 the loop exits. *)
Lemma grow_spec (fuel : nat) (need a : Z) :
  2 <= a < 2 ^ 64 -> need < 2 ^ 63 -> (Z.to_nat (need - a) <= fuel)%nat ->
  exists a', grow fuel need a = Some a' /\ need <= a' /\ a <= a' /\
             a' < 2 ^ 64 /\ (a < need -> a + a / 2 <= a').
Proof.
  revert a. induction fuel as [|fuel IH]; intros a Ha Hneed Hfuel.
  - cbn. destruct (Z.gtb_spec need a) as [Hgt|Hle]; [lia|].
    exists a. repeat split; lia.
  - cbn. destruct (Z.gtb_spec need a) as [Hgt|Hle].
    + rewrite Z.shiftr_div_pow2 by lia. change (2 ^ 1) with 2.
      assert (1 <= a / 2) by (apply Z.div_le_lower_bound; lia).
      assert (a / 2 <= a) by (apply Z.div_le_upper_bound; lia).
      rewrite uint64_small by lia.
      destruct (IH (a + a / 2)) as (a' & -> & ? & ? & ? & ?); [lia..|].
      exists a'. repeat split; lia.
    + exists a. repeat split; lia.
Qed.

(** From a capacity of 0 the loop never exits: [0 + (0 >> 1) = 0]. *)
Lemma grow_zero_spins (fuel : nat) (need : Z) :
  0 < need -> grow fuel need 0 = None.
Proof.
  intros Hneed. induction fuel as [|fuel IH]; cbn.
  - destruct (Z.gtb_spec need 0); [done|lia].
  - destruct (Z.gtb_spec need 0); [|lia]. exact IH.
Qed.

Lemma appendBuffer_first (fuel : nat) (bytes : list byte) :
  bytes <> [] -> len bytes < 2 ^ 63 ->
  exists ab', appendBuffer fuel true AppendableBuffer.empty bytes = Appended ab' /\
    holds ab' bytes /\ AppendableBuffer.allocated ab' = 2 * len bytes.
Proof.
  intros Hne Hlen.
  assert (1 <= len bytes) by (destruct bytes; [done|unfold len; cbn; lia]).
  unfold appendBuffer; cbn [AppendableBuffer.buf AppendableBuffer.empty memalign].
  rewrite (uint64_small (len bytes * 2)) by lia.
  destruct (memcpy_after (replicate (Z.to_nat (len bytes * 2)) None) [] (Some <$> bytes))
    as (b' & Hcpy & Hlen' & Htake).
  { done. }
  { unfold len at 3. rewrite length_replicate, len_fmap. cbn. unfold len; cbn. lia. }
  change (len []) with 0 in Hcpy. rewrite Hcpy.
  eexists; split; [reflexivity|].
  cbn in Htake.
  split; [|cbn; lia].
  exists b'. cbn. rewrite uint64_small by lia.
  repeat split; try lia.
  - rewrite Hlen'. unfold len at 1. rewrite length_replicate. lia.
  - rewrite Z.add_0_l. unfold len. rewrite Nat2Z.id.
    rewrite length_fmap in Htake. exact Htake.
Qed.

Lemma appendBuffer_next (fuel : nat) (ab : AppendableBuffer) (data bytes : list byte) :
  holds ab data -> len data + len bytes < 2 ^ 63 ->
  (Z.to_nat (len data + len bytes) <= fuel)%nat ->
  exists ab', appendBuffer fuel true ab bytes = Appended ab' /\
    holds ab' (data ++ bytes) /\
    AppendableBuffer.allocated ab <= AppendableBuffer.allocated ab' /\
    (AppendableBuffer.size ab + len bytes > AppendableBuffer.allocated ab ->
     AppendableBuffer.allocated ab + AppendableBuffer.allocated ab / 2
       <= AppendableBuffer.allocated ab').
Proof.
  intros (b & Hbuf & Hcap & Hsz & Htake & Hle & H2) Hbound Hfuel.
  pose proof (len_nonneg data). pose proof (len_nonneg bytes).
  unfold appendBuffer. rewrite Hbuf, Hsz.
  rewrite (uint64_small (len data + len bytes)) by lia.
  rewrite Hsz in Htake, Hle. rewrite to_nat_len in Htake.
  assert (Hpre : take (length (Some <$> data)) b = Some <$> data)
    by (by rewrite length_fmap).
  assert (Hdone : forall blk a',
    take (length ((Some <$> data) ++ (Some <$> bytes))) blk
      = (Some <$> data) ++ (Some <$> bytes) ->
    len blk = a' -> len data + len bytes <= a' -> 2 <= a' < 2 ^ 64 ->
    holds (AppendableBuffer.mk (Some blk) (len data + len bytes) a') (data ++ bytes)).
  { intros blk a' Ht Hl Hfit Ha'. exists blk. cbn.
    rewrite <- fmap_app in Ht. rewrite length_fmap in Ht.
    rewrite <- len_app, to_nat_len. rewrite len_app. done. }
  destruct (Z.gtb_spec (len data + len bytes) (AppendableBuffer.allocated ab)) as [Hov|Hfit].
  - destruct (grow_spec fuel (len data + len bytes) (AppendableBuffer.allocated ab))
      as (a' & -> & Hneed & Hmono & Hlt & Hhalf); [lia..|].
    cbn [memalign]. rewrite bool_decide_eq_true_2 by lia.
    set (nb := replicate (Z.to_nat a') None : block).
    assert (Hnb : len nb = a') by (unfold len, nb; rewrite length_replicate; lia).
    rewrite to_nat_len, Htake.
    destruct (memcpy_after nb [] (Some <$> data)) as (nb' & Hc1 & Hl1 & Ht1).
    { done. }
    { rewrite len_fmap. change (len []) with 0. lia. }
    change (len []) with 0 in Hc1. rewrite Hc1. cbn [app] in Ht1.
    destruct (memcpy_after nb' (Some <$> data) (Some <$> bytes)) as (nb'' & Hc2 & Hl2 & Ht2).
    { exact Ht1. }
    { rewrite !len_fmap. lia. }
    rewrite len_fmap in Hc2. rewrite Hc2.
    eexists; split; [reflexivity|].
    cbn [AppendableBuffer.allocated].
    split; [apply Hdone; [done|lia..]|].
    split; [lia|intros; apply Hhalf; lia].
  - destruct (memcpy_after b (Some <$> data) (Some <$> bytes)) as (b' & Hc & Hl & Ht).
    { exact Hpre. }
    { rewrite !len_fmap. lia. }
    rewrite len_fmap in Hc. rewrite Hc.
    eexists; split; [reflexivity|].
    cbn [AppendableBuffer.allocated].
    split; [apply Hdone; [done|lia..]|].
    split; [lia|intros; lia].
Qed.

Lemma appendAll_holds (fuel : nat) (bs : list (list byte)) :
  forall (ab : AppendableBuffer) (data : list byte),
  holds ab data -> len data + len (concat bs) < 2 ^ 63 ->
  (Z.to_nat (len data + len (concat bs)) <= fuel)%nat ->
  exists ab', appendAll fuel ab bs = Appended ab' /\ holds ab' (data ++ concat bs).
Proof.
  induction bs as [|b bs IH]; intros ab data Hab Hbound Hfuel.
  - exists ab. cbn. by rewrite app_nil_r.
  - cbn [appendAll concat] in *. rewrite len_app in Hbound, Hfuel.
    pose proof (len_nonneg (concat bs)). pose proof (len_nonneg b).
    destruct (appendBuffer_next fuel ab data b) as (ab1 & -> & Hab1 & _); [done|lia..|].
    destruct (IH ab1 (data ++ b)) as (ab' & -> & Hab'); [done|rewrite len_app; lia..|].
    exists ab'. by rewrite app_assoc.
Qed.

(** After any sequence of appends that starts with a non-empty one the
    buffer holds the concatenation; only the untouched buffer is empty. *)
Lemma appendAll_from_empty (fuel : nat) (bs : list (list byte)) :
  first_nonempty bs -> len (concat bs) < 2 ^ 63 ->
  (Z.to_nat (len (concat bs)) <= fuel)%nat ->
  exists ab, appendAll fuel AppendableBuffer.empty bs = Appended ab /\
    (bs = [] /\ ab = AppendableBuffer.empty \/ bs <> [] /\ holds ab (concat bs)).
Proof.
  intros Hfirst Hbound Hfuel. destruct bs as [|b bs].
  - exists AppendableBuffer.empty. split; [done|by left].
  - cbn [appendAll concat first_nonempty] in *. rewrite len_app in Hbound, Hfuel.
    pose proof (len_nonneg (concat bs)). pose proof (len_nonneg b).
    destruct (appendBuffer_first fuel b) as (ab1 & -> & Hab1 & _); [done|lia|].
    destruct (appendAll_holds fuel bs ab1 b) as (ab & -> & Hab); [done|lia..|].
    exists ab. split; [done|]. by right.
Qed.

(** The preconditions of the round trip are needed.  An empty first append
    leaves a capacity of 0, from which the growth loop never exits ... *)
Lemma appendBuffer_empty_first_spins (fuel : nat) :
  appendAll fuel AppendableBuffer.empty [[]; [x01]] = Spins.
Proof.
  assert (Hfirst : appendBuffer fuel true AppendableBuffer.empty []
            = Appended (AppendableBuffer.mk (Some []) 0 0)) by reflexivity.
  cbn [appendAll]. rewrite Hfirst.
  unfold appendBuffer. cbn [AppendableBuffer.buf AppendableBuffer.size AppendableBuffer.allocated].
  change (uint64 (0 + len [x01])) with 1. change (1 >? 0) with true. cbn iota.
  rewrite grow_zero_spins by lia. reflexivity.
Qed.

(** ... and a failed allocation is written through unchecked. *)
Lemma appendBuffer_failed_allocation (fuel : nat) :
  appendBuffer fuel false AppendableBuffer.empty [x01] = Faults.
Proof. reflexivity. Qed.

(** ** Config creation *)


Section Config.
Context {hdr : Headers} {cds : Codecs}.










End Config.

(** ** Picture submission *)

Lemma new_events_app (w w' : World) evs :
  World.trace w' = World.trace w ++ evs -> new_events w w' = evs.
Proof. intros Ht. unfold new_events. by rewrite Ht, drop_app_length. Qed.

Ltac wsimpl :=
  cbn [World.drv World.heap World.trace World.upd World.log World.set_drv World.dealloc].

(** Lookup in a store after the updates of a symbolic run. *)
Ltac lookup_simpl :=
  wsimpl;
  repeat first [ rewrite lookup_insert_eq | rewrite lookup_insert_ne by congruence ].

(** Closes a leaf of the symbolic run of [nvBeginPicture]. *)
Ltac begin_leaf :=
  eexists _, _, _; split; [reflexivity|];
  split; [reflexivity|];
  split; [intros q Hqa Hqp; lookup_simpl; reflexivity|];
  split; [lookup_simpl; first [reflexivity|eassumption]|];
  split; [cbn; done|];
  split; [wsimpl; rewrite ?app_nil_r; reflexivity|];
  split_and!; intros; try congruence;
  (split; [reflexivity|]); (split; [cbn; first [done|congruence]|]);
  first [ lookup_simpl; done
        | eexists; split; [lookup_simpl; reflexivity|]; cbn; done ].

Section Picture.
Context {hdr : Headers} {cds : Codecs}.

(** What [nvBeginPicture] does on a live Surface and a live Context. *)
Lemma nvBeginPicture_run (w : World) (context render_target : VAGenericID)
    (a p : addr) (c : NVContext) (s : NVSurface) :
  getObjectPtr (World.drv w) context = Some a ->
  getObjectPtr (World.drv w) render_target = Some p ->
  World.heap w !! a = Some (PContext c) ->
  World.heap w !! p = Some (PSurface s) ->
  let cur := NVContext.currentPictureId c in
  let idx0 := if bool_decide (bound_elsewhere s a) then -1 else NVSurface.pictureIdx s in
  exists o w' s',
    nvBeginPicture context render_target w = (o, w') /\
    World.drv w' = World.drv w /\
    (forall q, q <> a -> q <> p -> World.heap w' !! q = World.heap w !! q) /\
    World.heap w' !! p = Some (PSurface s') /\
    NVSurface.backingImage s' =
      (if bool_decide (bound_elsewhere s a) then None else NVSurface.backingImage s) /\
    World.trace w' = World.trace w ++
      (if bool_decide (bound_elsewhere s a /\ NVSurface.backingImage s <> None)
       then [Backend (detachBackingImageFromSurface p)] else []) /\
    (idx0 = -1 -> cur = NVContext.surfaceCount c ->
       o = Return VA_STATUS_ERROR_MAX_NUM_EXCEEDED /\
       NVSurface.pictureIdx s' = -1 /\
       World.heap w' !! a = Some (PContext c)) /\
    (idx0 = -1 -> cur <> NVContext.surfaceCount c ->
       o = Val VA_STATUS_SUCCESS /\
       NVSurface.pictureIdx s' = cur /\
       exists c', World.heap w' !! a = Some (PContext c') /\
         NVContext.currentPictureId c' = int32 (cur + 1) /\
         NVContext.surfaceCount c' = NVContext.surfaceCount c /\
         NVContext.renderTarget c' = Some p) /\
    (idx0 <> -1 ->
       o = Val VA_STATUS_SUCCESS /\
       NVSurface.pictureIdx s' = NVSurface.pictureIdx s /\
       exists c', World.heap w' !! a = Some (PContext c') /\
         NVContext.currentPictureId c' = cur /\
         NVContext.surfaceCount c' = NVContext.surfaceCount c /\
         NVContext.renderTarget c' = Some p).
Proof.
  intros Ha Hp Hc Hs cur idx0.
  assert (Hap : a <> p) by congruence.
  unfold nvBeginPicture. rewrite get_drv_bind. cbn beta zeta. rewrite Ha, Hp.
  mstep. cbn beta. subst idx0.
  change (NVSurface.context s <> None /\ NVSurface.context s <> Some a)
    with (bound_elsewhere s a).
  destruct (decide (bound_elsewhere s a)) as [Hre|Hre].
  - rewrite !(bool_decide_eq_true_2 (bound_elsewhere s a)) by done.
    destruct (decide (NVSurface.backingImage s = None)) as [Hbi|Hbi].
    + rewrite (bool_decide_eq_false_2 (NVSurface.backingImage s <> None)) by tauto.
      rewrite bool_decide_eq_false_2 by tauto.
      msteps. cbn [NVSurface.pictureIdx NVSurface.set_pictureIdx].
      rewrite bool_decide_eq_true_2 by done. msteps.
      destruct (decide (cur = NVContext.surfaceCount c)) as [Hfull|Hfree].
      * rewrite (bool_decide_eq_true_2 _ Hfull). msteps. begin_leaf.
      * rewrite (bool_decide_eq_false_2 _ Hfree). msteps. rewrite mret_run. begin_leaf.
    + rewrite (bool_decide_eq_true_2 (NVSurface.backingImage s <> None)) by done.
      rewrite bool_decide_eq_true_2 by done.
      msteps. cbn [NVSurface.pictureIdx NVSurface.set_pictureIdx].
      rewrite bool_decide_eq_true_2 by done. msteps.
      destruct (decide (cur = NVContext.surfaceCount c)) as [Hfull|Hfree].
      * rewrite (bool_decide_eq_true_2 _ Hfull). msteps. begin_leaf.
      * rewrite (bool_decide_eq_false_2 _ Hfree). msteps. rewrite mret_run. begin_leaf.
  - rewrite !(bool_decide_eq_false_2 (bound_elsewhere s a)) by done.
    rewrite bool_decide_eq_false_2 by tauto.
    msteps.
    destruct (decide (NVSurface.pictureIdx s = -1)) as [Hidx|Hidx].
    + rewrite (bool_decide_eq_true_2 _ Hidx). msteps.
      destruct (decide (cur = NVContext.surfaceCount c)) as [Hfull|Hfree].
      * rewrite (bool_decide_eq_true_2 _ Hfull). msteps. begin_leaf.
      * rewrite (bool_decide_eq_false_2 _ Hfree). msteps. rewrite mret_run. begin_leaf.
    + rewrite (bool_decide_eq_false_2 _ Hidx). msteps. rewrite mret_run. begin_leaf.
Qed.

End Picture.

Lemma Forall2_impl_elem {A B} (P Q : A -> B -> Prop) (l : list A) (k : list B) :
  Forall2 P l k ->
  (forall x y, x ∈ l -> y ∈ k -> P x y -> Q x y) ->
  Forall2 Q l k.
Proof.
  induction 1 as [|x y l k Hxy Hrest IH]; intros Himp; constructor.
  - apply Himp; [apply list_elem_of_here..|done].
  - apply IH. intros x' y' Hx' Hy'. apply Himp; by apply list_elem_of_further.
Qed.

Lemma int32_small x : - 2 ^ 31 <= x < 2 ^ 31 -> int32 x = x.
Proof. intros. unfold int32. rewrite Z.mod_small; lia. Qed.

Section PictureSequence.
Context {hdr : Headers} {cds : Codecs}.

(** As long as the Context has free picture indices, [BeginPicture] on
    unbound Surfaces succeeds and consumes one index per call. *)
Lemma beginPictures_fresh (context : VAGenericID) (a : addr) (targets : list VAGenericID) :
  forall (ps : list addr) (w : World) (c : NVContext),
  getObjectPtr (World.drv w) context = Some a ->
  World.heap w !! a = Some (PContext c) ->
  Forall2 (fresh_surface w) targets ps -> NoDup ps ->
  0 <= NVContext.currentPictureId c ->
  NVContext.currentPictureId c + len targets <= NVContext.surfaceCount c ->
  NVContext.surfaceCount c < 2 ^ 31 ->
  exists w' c',
    beginPictures context targets w = (replicate (length targets) (Val VA_STATUS_SUCCESS), w') /\
    World.drv w' = World.drv w /\
    World.heap w' !! a = Some (PContext c') /\
    NVContext.currentPictureId c' = NVContext.currentPictureId c + len targets /\
    NVContext.surfaceCount c' = NVContext.surfaceCount c /\
    (forall q, q <> a -> q ∉ ps -> World.heap w' !! q = World.heap w !! q).
Proof.
  induction targets as [|t ts IH]; intros ps w c Ha Hc Hfresh Hnd Hcur Hroom Hcount.
  - exists w, c. cbn. split_and!; try done. unfold len; cbn; lia.
  - destruct ps as [|p ps]; [by apply Forall2_cons_nil_inv in Hfresh|].
    apply Forall2_cons in Hfresh as [(Hp & s & Hs & Hidx) Hrest].
    apply NoDup_cons in Hnd as [Hp_notin Hnd].
    assert (Hlen : len (t :: ts) = 1 + len ts) by (unfold len; cbn; lia).
    pose proof (len_nonneg ts) as Hts.
    destruct (nvBeginPicture_run w context t a p c s Ha Hp Hc Hs)
      as (o & w1 & s1 & Hrun & Hdrv & Hframe & Hp1 & _ & _ & _ & Hok & _).
    destruct Hok as (-> & _ & c1 & Hc1 & Hcur1 & Hcount1 & _); [by case_bool_decide|lia|].
    rewrite int32_small in Hcur1 by lia.
    destruct (IH ps w1 c1) as (w' & c' & Hseq & Hdrv' & Hc' & Hcur' & Hcount' & Hframe');
      [by rewrite Hdrv|done| |done|lia|lia|lia|].
    { eapply Forall2_impl_elem; [exact Hrest|].
      intros id q Hid_in Hq_in (Hq & sq & Hsq & Hqidx). split; [by rewrite Hdrv|].
      exists sq. split; [|done]. rewrite Hframe; [done|congruence|].
      intros ->. done. }
    exists w', c'. cbn [beginPictures]. rewrite Hrun, Hseq.
    split_and!; try done; [congruence|lia|congruence|].
    intros q Hqa Hq. apply not_elem_of_cons in Hq as [Hqp Hq].
    rewrite Hframe' by done. by apply Hframe.
Qed.

End PictureSequence.

(** ** Object registry *)

Lemma list_find_delete_other {A} (P : A -> Prop) `{!forall x, Decision (P x)}
    (l : list A) (i : nat) (x : A) :
  l !! i = Some x -> ~ P x ->
  snd <$> list_find P (delete i l) = snd <$> list_find P l.
Proof.
  revert i. induction l as [|y l IH]; intros i Hi Hx; [done|].
  destruct i as [|i]; cbn in Hi.
  - injection Hi as ->. cbn. rewrite decide_False by done.
    rewrite <- option_fmap_compose. by destruct (list_find P l) as [[]|].
  - cbn. case_decide; [done|].
    rewrite <- !option_fmap_compose.
    specialize (IH i Hi Hx).
    destruct (list_find P (delete i l)) as [[]|], (list_find P l) as [[]|]; cbn in *; congruence.
Qed.

Lemma list_find_delete_unique {A B} `{EqDecision B} (f : A -> B) (l : list A) (i : nat) (x : A) :
  NoDup (f <$> l) -> l !! i = Some x ->
  list_find (fun y => f y = f x) (delete i l) = None.
Proof.
  intros Hnd Hi. apply list_find_None, Forall_forall. intros y Hy Heq.
  rewrite <- (take_drop_middle l i x Hi) in Hnd.
  rewrite fmap_app, fmap_cons in Hnd.
  apply NoDup_app in Hnd as (_ & Hdisj & Hnd). apply NoDup_cons in Hnd as [Hx _].
  rewrite delete_take_drop in Hy. apply elem_of_app in Hy as [Hy|Hy].
  - apply (Hdisj (f x)); [rewrite <- Heq; by apply list_elem_of_fmap_2|apply list_elem_of_here].
  - apply Hx. rewrite <- Heq. by apply list_elem_of_fmap_2.
Qed.

Section Registry.
Context {hdr : Headers}.

Lemma getObject_Some (d : NVDriver) (id : VAGenericID) (o : Object) :
  getObject d id = Some o ->
  id <> VA_INVALID_ID /\ Object_t.id o = id /\ o ∈ NVDriver.objects d.
Proof.
  unfold getObject. case_bool_decide; [|done].
  destruct (list_find _ _) as [[i o']|] eqn:Hfind; [|done]. intros [= ->].
  apply list_find_Some in Hfind as (Hi & Hid & _).
  split_and!; [done|done|by eapply list_elem_of_lookup_2].
Qed.

Lemma getObject_None (d : NVDriver) (id : VAGenericID) :
  id ∉ (Object_t.id <$> NVDriver.objects d) -> getObject d id = None.
Proof.
  intros Hnin. unfold getObject. case_bool_decide; [|done].
  rewrite (proj2 (list_find_None _ _)); [done|].
  apply Forall_forall. intros o Ho Hid. apply Hnin. rewrite <- Hid.
  by apply list_elem_of_fmap_2.
Qed.

(** Lookup in the registry after one object was appended. *)
Lemma getObject_append (d : NVDriver) (new : Object) (id : VAGenericID) :
  let d' := NVDriver.set_objects (NVDriver.objects d ++ [new]) d in
  (id <> Object_t.id new -> getObject d' id = getObject d id) /\
  (Object_t.id new <> VA_INVALID_ID -> getObject d (Object_t.id new) = None ->
   getObject d' (Object_t.id new) = Some new).
Proof.
  cbn zeta. unfold getObject. cbn [NVDriver.objects NVDriver.set_objects]. split.
  - intros Hne. case_bool_decide; [|done].
    destruct (list_find (has_id id) (NVDriver.objects d)) as [[i o]|] eqn:Hfind.
    + by rewrite (list_find_app_l _ _ _ _ _ Hfind).
    + rewrite list_find_app_r by done. cbn.
      rewrite decide_False; [done|]. unfold has_id. congruence.
  - intros Hvalid. rewrite !bool_decide_eq_true_2 by done.
    destruct (list_find (has_id (Object_t.id new)) (NVDriver.objects d)) as [[i o]|] eqn:Hfind;
      [done|]. intros _.
    rewrite list_find_app_r by done. cbn. by rewrite decide_True.
Qed.

End Registry.

(* ================================================================== *)
(** * The claims of the specification *)

(** ** C4: appendable buffer round trip *)

(** C4, as the specification states it, fails on the growth clause: on
    overflow the capacity grows by half of itself rounded down.  After the
    appends of 1, 2 and 1 bytes the capacity goes from 3 to 4, which is
    less than 50% more. *)
Lemma appendBuffer_growth_below_half :
  let ab3 := AppendableBuffer.mk (Some [Some x01; Some x02; Some x03]) 3 3 in
  let ab4 := AppendableBuffer.mk (Some [Some x01; Some x02; Some x03; Some x04]) 4 4 in
  appendAll 4 AppendableBuffer.empty [[x01]; [x02; x03]] = Appended ab3 /\
  AppendableBuffer.size ab3 + len [x04] > AppendableBuffer.allocated ab3 /\
  appendBuffer 4 true ab3 [x04] = Appended ab4 /\
  ~ grows_by_half (AppendableBuffer.allocated ab3) (AppendableBuffer.allocated ab4).
Proof.
  cbv zeta. split; [vm_compute; reflexivity|].
  split; [unfold len; cbn; lia|].
  split; [vm_compute; reflexivity|].
  unfold grows_by_half. cbn. lia.
Qed.

(** C4 (amended): for every sequence of appends, started on the empty
    buffer, whose first append is not empty and whose total size is below
    2^63 bytes, every allocation succeeding: each append returns (given
    enough iterations of the growth loop), after it the first [size] bytes
    of [buf] are the concatenation of all bytes appended so far and
    [allocated >= size]; the capacity never shrinks, and on overflow it
    grows by at least half of itself rounded down. *)
Theorem appendBuffer_roundtrip (pre : list (list byte)) (b : list byte) :
  first_nonempty (pre ++ [b]) -> len (concat (pre ++ [b])) < 2 ^ 63 ->
  exists fuel0, forall fuel, (fuel0 <= fuel)%nat ->
  exists ab0 ab1 blk,
    appendAll fuel AppendableBuffer.empty pre = Appended ab0 /\
    appendBuffer fuel true ab0 b = Appended ab1 /\
    AppendableBuffer.buf ab1 = Some blk /\
    AppendableBuffer.size ab1 = len (concat (pre ++ [b])) /\
    take (Z.to_nat (AppendableBuffer.size ab1)) blk = Some <$> concat (pre ++ [b]) /\
    AppendableBuffer.size ab1 <= AppendableBuffer.allocated ab1 /\
    AppendableBuffer.allocated ab0 <= AppendableBuffer.allocated ab1 /\
    (AppendableBuffer.buf ab0 <> None ->
     AppendableBuffer.size ab0 + len b > AppendableBuffer.allocated ab0 ->
     AppendableBuffer.allocated ab0 + AppendableBuffer.allocated ab0 / 2
       <= AppendableBuffer.allocated ab1).
Proof.
  intros Hfirst Hbound.
  exists (Z.to_nat (len (concat (pre ++ [b])))). intros fuel Hfuel.
  rewrite concat_app, len_app in Hbound, Hfuel. cbn [concat] in Hbound, Hfuel.
  rewrite app_nil_r in Hbound, Hfuel.
  pose proof (len_nonneg (concat pre)). pose proof (len_nonneg b).
  destruct (appendAll_from_empty fuel pre) as (ab0 & Hpre & Hab0).
  { destruct pre; [done|exact Hfirst]. }
  { lia. }
  { lia. }
  rewrite concat_app. cbn [concat]. rewrite app_nil_r.
  destruct Hab0 as [[-> ->]|[Hne Hab0]].
  - cbn [app first_nonempty concat] in *.
    destruct (appendBuffer_first fuel b) as (ab1 & Hb & (blk & ? & ? & ? & ? & ? & ?) & Hcap);
      [done|lia|].
    exists AppendableBuffer.empty, ab1, blk.
    cbn [AppendableBuffer.allocated AppendableBuffer.empty AppendableBuffer.buf].
    split_and!; try done; lia.
  - destruct (appendBuffer_next fuel ab0 (concat pre) b)
      as (ab1 & Hb & (blk & ? & ? & ? & ? & ? & ?) & Hmono & Hhalf); [done|lia..|].
    exists ab0, ab1, blk. split_and!; auto.
Qed.

Lemma appendBuffer_roundtrip_witness :
  first_nonempty ([[x01]; [x02; x03]] ++ [[x04]]) /\
  len (concat ([[x01]; [x02; x03]] ++ [[x04]])) < 2 ^ 63 /\
  exists fuel0, forall fuel, (fuel0 <= fuel)%nat ->
  exists ab0 ab1 blk,
    appendAll fuel AppendableBuffer.empty [[x01]; [x02; x03]] = Appended ab0 /\
    appendBuffer fuel true ab0 [x04] = Appended ab1 /\
    AppendableBuffer.buf ab1 = Some blk /\
    AppendableBuffer.size ab1 = len (concat ([[x01]; [x02; x03]] ++ [[x04]])) /\
    take (Z.to_nat (AppendableBuffer.size ab1)) blk
      = Some <$> concat ([[x01]; [x02; x03]] ++ [[x04]]) /\
    AppendableBuffer.size ab1 <= AppendableBuffer.allocated ab1 /\
    AppendableBuffer.allocated ab0 <= AppendableBuffer.allocated ab1 /\
    (AppendableBuffer.buf ab0 <> None ->
     AppendableBuffer.size ab0 + len [x04] > AppendableBuffer.allocated ab0 ->
     AppendableBuffer.allocated ab0 + AppendableBuffer.allocated ab0 / 2
       <= AppendableBuffer.allocated ab1).
Proof.
  split; [|split].
  - cbn. discriminate.
  - vm_compute. reflexivity.
  - apply (appendBuffer_roundtrip [[x01]; [x02; x03]] [x04]).
    + cbn. discriminate.
    + vm_compute. reflexivity.
Defined.

(** ** C7: surface parameters of a new Config *)

Section C7.
Context {hdr : Headers} {cds : Codecs}.


End C7.



(** A reading note for C7: HEVC Main10 is 10 bit whatever RT format the
    client names, also YUV420_12. *)
Remark nvCreateConfig_main10_ignores_rt_format :
  exists w', nvCreateConfig (cds := demo_codecs) VAProfileHEVCMain10 VAEntrypointVLD
      [VAConfigAttrib.mk VAConfigAttribRTFormat VA_RT_FORMAT_YUV420_12] demo_init
      = (Val VA_STATUS_SUCCESS, w') /\
    World.heap w' !! 1%positive =
      Some (PConfig (NVConfig.mk VAProfileHEVCMain10 VAEntrypointVLD cudaVideoCodec_HEVC
                       cudaVideoChromaFormat_420 cudaVideoSurfaceFormat_P016 10)).
Proof. eexists. split; vm_compute; reflexivity. Qed.

(** ** C3: the guards of ExportSurfaceHandle *)

Section C3.
Context {hdr : Headers}.

(** What holds of C3: [nvExportSurfaceHandle] returns
    UNSUPPORTED_MEMORY_TYPE when [mem_type] lacks DRM_PRIME_2; otherwise
    INVALID_SURFACE when [flags] lacks SEPARATE_LAYERS; otherwise
    INVALID_SURFACE when the registry lookup of the surface id yields no
    payload pointer.  The three checks come in this order and before any
    backend call: in each case the world, and so the trace, is left as it
    was. *)
Lemma nvExportSurfaceHandle_guards
    (e : Env) (w : World) (surface_id : VAGenericID) (mem_type flags : Z) :
  (Z.land mem_type VA_SURFACE_ATTRIB_MEM_TYPE_DRM_PRIME_2 = 0 ->
   nvExportSurfaceHandle e surface_id mem_type flags w
     = (Return VA_STATUS_ERROR_UNSUPPORTED_MEMORY_TYPE, w)) /\
  (Z.land mem_type VA_SURFACE_ATTRIB_MEM_TYPE_DRM_PRIME_2 <> 0 ->
   Z.land flags VA_EXPORT_SURFACE_SEPARATE_LAYERS = 0 ->
   nvExportSurfaceHandle e surface_id mem_type flags w
     = (Return VA_STATUS_ERROR_INVALID_SURFACE, w)) /\
  (Z.land mem_type VA_SURFACE_ATTRIB_MEM_TYPE_DRM_PRIME_2 <> 0 ->
   Z.land flags VA_EXPORT_SURFACE_SEPARATE_LAYERS <> 0 ->
   getObjectPtr (World.drv w) surface_id = None ->
   nvExportSurfaceHandle e surface_id mem_type flags w
     = (Return VA_STATUS_ERROR_INVALID_SURFACE, w)).
Proof.
  unfold nvExportSurfaceHandle. rewrite get_drv_bind. split_and!.
  - intros Hmem. by rewrite (bool_decide_eq_true_2 _ Hmem).
  - intros Hmem Hflags.
    by rewrite (bool_decide_eq_false_2 _ Hmem), (bool_decide_eq_true_2 _ Hflags).
  - intros Hmem Hflags Hnone.
    by rewrite (bool_decide_eq_false_2 _ Hmem), (bool_decide_eq_false_2 _ Hflags), Hnone.
Qed.

(** The backend's [realiseSurface] returns an answer and leaves its call in
    the trace, whatever cell it is given. *)
Lemma backend_realiseSurface_run {R} (e : Env) (p : addr) (w : World) :
  exists b w',
    backend_realiseSurface (R := R) e p w = (Val b, w') /\
    World.trace w' = World.trace w ++ [Backend (realiseSurface p)].
Proof.
  unfold backend_realiseSurface.
  destruct (Env.r_realiseSurface e); [|by eexists _, _].
  destruct (World.heap w !! p) as [[| |s|]|]; try by eexists _, _.
  destruct (NVSurface.backingImage s); by eexists _, _.
Qed.

(** C3 (the code departs from the claim): the third check is a lookup by
    id alone, through [getObjectPtr], and the type of the object is not
    looked at.  When the id names a live object that is not a Surface, the
    call does not return INVALID_SURFACE: it goes on to push the device
    context and, when the push succeeds, hands the cell of that object to
    the backend's [realiseSurface]. *)
Theorem nvExportSurfaceHandle_wrong_type
    (e : Env) (w : World) (surface_id : VAGenericID) (o : Object) (p : addr)
    (mem_type flags : Z) :
  Z.land mem_type VA_SURFACE_ATTRIB_MEM_TYPE_DRM_PRIME_2 <> 0 ->
  Z.land flags VA_EXPORT_SURFACE_SEPARATE_LAYERS <> 0 ->
  getObject (World.drv w) surface_id = Some o ->
  Object_t.type o <> OBJECT_TYPE_SURFACE ->
  Object_t.obj o = Some p ->
  exists out w',
    nvExportSurfaceHandle e surface_id mem_type flags w = (out, w') /\
    out <> Return VA_STATUS_ERROR_INVALID_SURFACE /\
    Vendor cuCtxPushCurrent ∈ new_events w w' /\
    (Env.r_cuCtxPushCurrent e = CUDA_SUCCESS ->
       Backend (realiseSurface p) ∈ new_events w w').
Proof.
  intros Hmem Hflags Ho _ Hobj.
  assert (Hptr : getObjectPtr (World.drv w) surface_id = Some p).
  { unfold getObjectPtr. rewrite Ho.
    destruct (getObject_Some _ _ _ Ho) as (Hvalid & _).
    by rewrite (bool_decide_eq_true_2 _ Hvalid). }
  unfold nvExportSurfaceHandle. rewrite get_drv_bind.
  rewrite (bool_decide_eq_false_2 _ Hmem), (bool_decide_eq_false_2 _ Hflags), Hptr.
  destruct (decide (Env.r_cuCtxPushCurrent e = CUDA_SUCCESS)) as [Hpush|Hpush].
  2: { rewrite CHECK_RETURN_fail_bind by done.
       eexists _, _. split; [reflexivity|]. split; [discriminate|].
       erewrite new_events_app by (wsimpl; by rewrite <- app_assoc).
       split; [by repeat constructor|done]. }
  rewrite CHECK_RETURN_ok_bind by done.
  destruct (backend_realiseSurface_run (R := VAStatus) e p
              (World.log (Vendor cuCtxPushCurrent) w)) as (b & w1 & Hrun & Htrace).
  erewrite bind_Val by exact Hrun.
  assert (Hev : forall w' evs,
    World.trace w' = World.trace w1 ++ evs ->
    Vendor cuCtxPushCurrent ∈ new_events w w' /\
    (Env.r_cuCtxPushCurrent e = CUDA_SUCCESS ->
       Backend (realiseSurface p) ∈ new_events w w')).
  { intros w' evs Hw'.
    erewrite new_events_app
      by (rewrite Hw', Htrace; wsimpl; rewrite <- !app_assoc; reflexivity).
    split; [|intros _]; rewrite !elem_of_app, !elem_of_cons; tauto. }
  destruct b.
  - unfold backend_fillExportDescriptor. rewrite emit_bind.
    destruct (decide (Env.r_cuCtxPopCurrent e = CUDA_SUCCESS)) as [Hpop|Hpop].
    + rewrite CHECK_RETURN_ok_bind by done. rewrite mret_run.
      eexists _, _. split; [reflexivity|]. split; [discriminate|].
      eapply Hev. wsimpl. by rewrite <- !app_assoc.
    + rewrite CHECK_RETURN_fail_bind by done.
      eexists _, _. split; [reflexivity|]. split; [discriminate|].
      eapply Hev. wsimpl. by rewrite <- !app_assoc.
  - rewrite LOG_bind.
    eexists _, _. split; [reflexivity|]. split; [discriminate|].
    eapply Hev. wsimpl. reflexivity.
Qed.

End C3.

Lemma nvExportSurfaceHandle_guards_on_demo :
  nvExportSurfaceHandle (hdr := demo_headers) Env.ok 2
      VA_SURFACE_ATTRIB_MEM_TYPE_DRM_PRIME VA_EXPORT_SURFACE_SEPARATE_LAYERS demo_buffer
    = (Return VA_STATUS_ERROR_UNSUPPORTED_MEMORY_TYPE, demo_buffer) /\
  nvExportSurfaceHandle (hdr := demo_headers) Env.ok 2
      VA_SURFACE_ATTRIB_MEM_TYPE_DRM_PRIME_2 0 demo_buffer
    = (Return VA_STATUS_ERROR_INVALID_SURFACE, demo_buffer) /\
  nvExportSurfaceHandle (hdr := demo_headers) Env.ok 99
      VA_SURFACE_ATTRIB_MEM_TYPE_DRM_PRIME_2 VA_EXPORT_SURFACE_SEPARATE_LAYERS demo_buffer
    = (Return VA_STATUS_ERROR_INVALID_SURFACE, demo_buffer).
Proof.
  split_and!.
  - apply (proj1 (nvExportSurfaceHandle_guards (hdr := demo_headers) _ _ _ _ _)).
    reflexivity.
  - apply (proj1 (proj2 (nvExportSurfaceHandle_guards (hdr := demo_headers) _ _ _ _ _)));
      [discriminate|reflexivity].
  - apply (proj2 (proj2 (nvExportSurfaceHandle_guards (hdr := demo_headers) _ _ _ _ _)));
      [discriminate|discriminate|vm_compute; reflexivity].
Qed.

(** The failing input of C3: id 7 names the Buffer of the demo run, and the
    cell of this Buffer reaches [realiseSurface]. *)
Lemma nvExportSurfaceHandle_wrong_type_witness :
  getObject (hdr := demo_headers) (World.drv demo_buffer) 7
    = Some (Object_t.mk OBJECT_TYPE_BUFFER 7 (Some 7%positive)) /\
  exists out w',
    nvExportSurfaceHandle (hdr := demo_headers) Env.ok 7
      VA_SURFACE_ATTRIB_MEM_TYPE_DRM_PRIME_2 VA_EXPORT_SURFACE_SEPARATE_LAYERS demo_buffer
      = (out, w') /\
    out <> Return VA_STATUS_ERROR_INVALID_SURFACE /\
    Backend (realiseSurface 7%positive) ∈ new_events demo_buffer w'.
Proof.
  assert (Ho : getObject (hdr := demo_headers) (World.drv demo_buffer) 7
               = Some (Object_t.mk OBJECT_TYPE_BUFFER 7 (Some 7%positive)))
    by (vm_compute; reflexivity).
  split; [exact Ho|].
  destruct (nvExportSurfaceHandle_wrong_type (hdr := demo_headers) Env.ok demo_buffer 7
              (Object_t.mk OBJECT_TYPE_BUFFER 7 (Some 7%positive)) 7%positive
              VA_SURFACE_ATTRIB_MEM_TYPE_DRM_PRIME_2 VA_EXPORT_SURFACE_SEPARATE_LAYERS)
    as (out & w' & Hrun & Hout & _ & Hbackend);
    [discriminate|discriminate|exact Ho|discriminate|reflexivity|].
  exists out, w'. split; [exact Hrun|]. split; [exact Hout|].
  apply Hbackend. reflexivity.
Defined.

(** ** C9: RenderPicture on ids the registry does not know *)

Section C9.
Context {hdr : Headers} {cds : Codecs}.

(** C9 (the code departs from the claim): when the registry lookup of a
    buffer id yields no object, [nvRenderPicture] reads [->obj] through the
    NULL result of [getObject]; the id is not skipped and the call does not
    return. *)
Theorem nvRenderPicture_unknown_id_faults
    (w : World) (context : VAGenericID) (nvCtx : addr)
    (id : VAGenericID) (buffers : list VAGenericID) :
  getObjectPtr (World.drv w) context = Some nvCtx ->
  getObject (World.drv w) id = None ->
  nvRenderPicture context (id :: buffers) w = (Crash NullDeref, w).
Proof.
  intros Hctx Hid. unfold nvRenderPicture.
  rewrite get_drv_bind. cbn beta zeta. rewrite Hctx.
  cbn [for_each]. rewrite !bind_assoc, get_drv_bind. by rewrite Hid.
Qed.

(** What C9 says of the other two cases holds: a buffer whose payload
    pointer is NULL is skipped with a log ... *)
Lemma nvRenderPicture_null_payload_skipped
    (w : World) (context : VAGenericID) (nvCtx : addr) (id : VAGenericID)
    (o : Object) (p : addr) (b : NVBuffer) :
  getObjectPtr (World.drv w) context = Some nvCtx ->
  getObject (World.drv w) id = Some o -> Object_t.obj o = Some p ->
  World.heap w !! p = Some (PBuffer b) -> NVBuffer.ptr b = None ->
  nvRenderPicture context [id] w =
    (Val VA_STATUS_SUCCESS, World.log (Log "Invalid buffer detected, skipping: %d" [id]) w).
Proof.
  intros Hctx Hid Hobj Hp Hptr. unfold nvRenderPicture.
  rewrite get_drv_bind. cbn beta zeta. rewrite Hctx.
  cbn [for_each]. rewrite !bind_assoc, get_drv_bind. rewrite Hid, Hobj.
  msteps. rewrite (bool_decide_eq_true_2 _ Hptr). msteps. reflexivity.
Qed.

(** ... and so is a buffer whose type has no handler. *)
Lemma nvRenderPicture_unhandled_type_skipped
    (w : World) (context : VAGenericID) (nvCtx : addr) (c : NVContext)
    (slot : nat) (codec : NVCodec) (id : VAGenericID)
    (o : Object) (p : addr) (b : NVBuffer) :
  getObjectPtr (World.drv w) context = Some nvCtx ->
  World.heap w !! nvCtx = Some (PContext c) ->
  NVContext.codec c = Some slot -> nvd_codecs !! slot = Some codec ->
  getObject (World.drv w) id = Some o -> Object_t.obj o = Some p ->
  World.heap w !! p = Some (PBuffer b) -> NVBuffer.ptr b <> None ->
  0 <= NVBuffer.bufferType b ->
  NVCodec.handlers codec !! Z.to_nat (NVBuffer.bufferType b) = Some None ->
  nvRenderPicture context [id] w =
    (Val VA_STATUS_SUCCESS,
     World.log (Log "Unhandled buffer type: %d" [NVBuffer.bufferType b]) w).
Proof.
  intros Hctx Hc Hslot Hcodec Hid Hobj Hp Hptr Hty Hnone. unfold nvRenderPicture.
  rewrite get_drv_bind. cbn beta zeta. rewrite Hctx.
  cbn [for_each]. rewrite !bind_assoc, get_drv_bind. rewrite Hid, Hobj.
  msteps. rewrite (bool_decide_eq_false_2 _ Hptr). msteps.
  rewrite Hslot, Hcodec. rewrite (bool_decide_eq_true_2 _ Hty).
  unfold HandlerFunc in *. rewrite Hnone.
  msteps. reflexivity.
Qed.

End C9.

Lemma nvRenderPicture_unknown_id_faults_witness :
  getObjectPtr (hdr := demo_headers) (World.drv demo_buffer) 5 = Some demo_ctx_addr /\
  getObject (hdr := demo_headers) (World.drv demo_buffer) 99 = None /\
  nvRenderPicture (hdr := demo_headers) (cds := demo_codecs) 5 [99; 7] demo_buffer
    = (Crash NullDeref, demo_buffer).
Proof.
  split; [vm_compute; reflexivity|]. split; [vm_compute; reflexivity|].
  apply (nvRenderPicture_unknown_id_faults (hdr := demo_headers) (cds := demo_codecs)
           demo_buffer 5 demo_ctx_addr 99 [7]); vm_compute; reflexivity.
Defined.

(** ** C6: CreateBuffer when the payload cannot be allocated *)

Section C6.
Context {hdr : Headers}.

(** C6 (the code departs from the claim): when [memalign] fails,
    [nvCreateBuffer] returns ALLOCATION_FAILED and rolls nothing back: the
    Buffer object it has appended to the registry stays there, with a NULL
    payload pointer, under the id it has written to [*buf_id]. *)
Theorem nvCreateBuffer_failure_keeps_object
    (e : Env) (w : World) (context : VAGenericID) (nvCtx : addr) (c : NVContext)
    (type : VABufferType) (size num_elements : Z) (data : option ClientPtr) :
  getObjectPtr (World.drv w) context = Some nvCtx ->
  World.heap w !! nvCtx = Some (PContext c) ->
  Env.r_memalign e = false ->
  exists w' id p b,
    nvCreateBuffer e context type size num_elements data w
      = (Return VA_STATUS_ERROR_ALLOCATION_FAILED, w') /\
    NVDriver.objects (World.drv w') =
      NVDriver.objects (World.drv w) ++ [Object_t.mk OBJECT_TYPE_BUFFER id (Some p)] /\
    Out id ∈ World.trace w' /\
    World.heap w !! p = None /\
    World.heap w' !! p = Some (PBuffer b) /\ NVBuffer.ptr b = None.
Proof.
  intros Hctx Hc Hmem. unfold nvCreateBuffer.
  rewrite get_drv_bind. cbn beta zeta. rewrite Hctx.
  unfold allocateObject. msteps. cbn [Object_t.obj Object_t.id].
  rewrite Hmem. cbn [memalign]. msteps. rewrite mret_run || idtac.
  eexists _, _, _, _. split; [reflexivity|].
  cbn [World.drv World.heap World.trace World.upd World.log World.set_drv
       NVDriver.objects NVDriver.set_objects].
  split; [reflexivity|]. split; [set_solver|].
  split; [apply not_elem_of_dom, is_fresh|].
  split; [by rewrite lookup_insert_eq|reflexivity].
Qed.

End C6.

Lemma nvCreateBuffer_failure_keeps_object_witness :
  getObjectPtr (hdr := demo_headers) (World.drv demo_context2) 5 = Some demo_ctx_addr /\
  Env.r_memalign env_no_memory = false /\
  exists w' id p b,
    nvCreateBuffer (hdr := demo_headers) env_no_memory 5 VASliceDataBufferType
        0x7fffffff 2 None demo_context2
      = (Return VA_STATUS_ERROR_ALLOCATION_FAILED, w') /\
    NVDriver.objects (World.drv w') =
      NVDriver.objects (World.drv demo_context2)
        ++ [Object_t.mk OBJECT_TYPE_BUFFER id (Some p)] /\
    Out id ∈ World.trace w' /\
    World.heap w' !! p = Some (PBuffer b) /\ NVBuffer.ptr b = None.
Proof.
  split; [vm_compute; reflexivity|]. split; [reflexivity|].
  destruct (nvCreateBuffer_failure_keeps_object (hdr := demo_headers) env_no_memory
              demo_context2 5 demo_ctx_addr
              (context_at (hdr := demo_headers) demo_context2 demo_ctx_addr)
              VASliceDataBufferType 0x7fffffff 2 None)
    as (w' & id & p & b & Hrun & Hobjs & Hout & Hfresh & Hheap & Hptr);
    [vm_compute; reflexivity..|].
  exists w', id, p, b.
  exact (conj Hrun (conj Hobjs (conj Hout (conj Hheap Hptr)))).
Defined.

(** The failing input of C6, evaluated: the id written to [*buf_id] is 7,
    and after the failed call id 7 names a live Buffer object whose payload
    pointer is NULL. *)
Example nvCreateBuffer_failure_evaluated :
  let w' := after (nvCreateBuffer (hdr := demo_headers) env_no_memory 5
                     VASliceDataBufferType 0x7fffffff 2 None) demo_context2 in
  fst (nvCreateBuffer (hdr := demo_headers) env_no_memory 5
         VASliceDataBufferType 0x7fffffff 2 None demo_context2)
    = Return VA_STATUS_ERROR_ALLOCATION_FAILED /\
  new_events demo_context2 w' =
    [Out 7; Log "Unable to allocate buffer of %d bytes" [0xfffffffe]] /\
  getObject (hdr := demo_headers) (World.drv w') 7
    = Some (Object_t.mk OBJECT_TYPE_BUFFER 7 (Some 7%positive)) /\
  World.heap w' !! 7%positive
    = Some (PBuffer (NVBuffer.mk VASliceDataBufferType 2 0xfffffffe None 0)).
Proof. cbv zeta. split_and!; vm_compute; reflexivity. Qed.

(** ** C1: picture indices handed out by BeginPicture *)

Section C1.
Context {hdr : Headers} {cds : Codecs}.

(** C1: on a live Context with surface count N, a [BeginPicture] whose
    target Surface has [pictureIdx = -1] returns MAX_NUM_EXCEEDED and
    assigns no picture index (target and Context keep their values) when
    [currentPictureId = N]; otherwise it succeeds, sets the target's
    [pictureIdx] to [currentPictureId] and increments [currentPictureId].
    Hence, from [currentPictureId = 0] and over distinct unbound Surfaces,
    the first N calls succeed and the (N+1)-th returns MAX_NUM_EXCEEDED. *)
Theorem nvBeginPicture_picture_index
    (w : World) (context : VAGenericID) (a : addr) (c : NVContext) :
  getObjectPtr (World.drv w) context = Some a ->
  World.heap w !! a = Some (PContext c) ->
  (forall render_target p,
     fresh_surface w render_target p ->
     exists o w' s',
       nvBeginPicture context render_target w = (o, w') /\
       World.heap w' !! p = Some (PSurface s') /\
       (NVContext.currentPictureId c = NVContext.surfaceCount c ->
          o = Return VA_STATUS_ERROR_MAX_NUM_EXCEEDED /\
          NVSurface.pictureIdx s' = -1 /\
          World.heap w' !! a = Some (PContext c)) /\
       (NVContext.currentPictureId c <> NVContext.surfaceCount c ->
          o = Val VA_STATUS_SUCCESS /\
          NVSurface.pictureIdx s' = NVContext.currentPictureId c /\
          exists c', World.heap w' !! a = Some (PContext c') /\
            NVContext.currentPictureId c' = int32 (NVContext.currentPictureId c + 1) /\
            NVContext.surfaceCount c' = NVContext.surfaceCount c)) /\
  (forall targets last ps,
     NVContext.currentPictureId c = 0 ->
     len targets = NVContext.surfaceCount c -> NVContext.surfaceCount c < 2 ^ 31 ->
     Forall2 (fresh_surface w) (targets ++ [last]) ps -> NoDup ps ->
     exists w',
       beginPictures context targets w
         = (replicate (length targets) (Val VA_STATUS_SUCCESS), w') /\
       fst (nvBeginPicture context last w') = Return VA_STATUS_ERROR_MAX_NUM_EXCEEDED).
Proof.
  intros Ha Hc. split.
  - intros render_target p (Hp & s & Hs & Hidx).
    destruct (nvBeginPicture_run w context render_target a p c s Ha Hp Hc Hs)
      as (o & w' & s' & Hrun & _ & _ & Hp' & _ & _ & Hfull & Hfree & _).
    assert (Hidx0 : (if bool_decide (bound_elsewhere s a) then -1
                     else NVSurface.pictureIdx s) = -1) by (by case_bool_decide).
    exists o, w', s'. split; [done|]. split; [done|]. split.
    + intros Heq. by apply Hfull.
    + intros Hne. destruct (Hfree Hidx0 Hne) as (-> & ? & c' & ? & ? & ? & _).
      split_and!; try done. by exists c'.
  - intros targets last ps Hzero Hlen Hcount Hfresh Hnd.
    apply Forall2_app_inv_l in Hfresh as (ps1 & ps2 & Hfresh1 & Hfresh2 & ->).
    apply Forall2_cons_inv_l in Hfresh2 as (p & ps3 & (Hp & s & Hs & Hidx) & Hnil & ->).
    apply Forall2_nil_inv_l in Hnil as ->.
    apply NoDup_app in Hnd as (Hnd1 & Hdisj & _).
    destruct (beginPictures_fresh context a targets ps1 w c)
      as (w' & c' & Hseq & Hdrv & Hc' & Hcur & Hcount' & Hframe); [done..|lia|lia|lia|].
    exists w'. split; [done|].
    assert (Hpa : p <> a) by congruence.
    assert (Hp_notin : p ∉ ps1).
    { intros Hin. apply (Hdisj p Hin). apply list_elem_of_here. }
    destruct (nvBeginPicture_run w' context last a p c' s)
      as (o & w'' & s' & Hrun & _ & _ & _ & _ & _ & Hfull & _);
      [by rewrite Hdrv..|done|by rewrite Hframe|].
    rewrite Hrun. cbn [fst]. apply Hfull; [by case_bool_decide|lia].
Qed.

End C1.

Lemma nvBeginPicture_picture_index_witness :
  getObjectPtr (hdr := demo_headers) (World.drv demo_buffer) 5 = Some demo_ctx_addr /\
  fresh_surface (hdr := demo_headers) demo_buffer 2 demo_surface_addr /\
  (exists o w' s',
     nvBeginPicture (hdr := demo_headers) 5 2 demo_buffer = (o, w') /\
     World.heap w' !! demo_surface_addr = Some (PSurface s') /\
     o = Val VA_STATUS_SUCCESS /\ NVSurface.pictureIdx s' = 0) /\
  (exists w',
     beginPictures (hdr := demo_headers) 5 [2; 3] demo_buffer
       = ([Val VA_STATUS_SUCCESS; Val VA_STATUS_SUCCESS], w') /\
     fst (nvBeginPicture (hdr := demo_headers) 5 4 w')
       = Return VA_STATUS_ERROR_MAX_NUM_EXCEEDED).
Proof.
  assert (Hf2 : fresh_surface (hdr := demo_headers) demo_buffer 2 2%positive).
  { split; [vm_compute; reflexivity|]. eexists. split; vm_compute; reflexivity. }
  assert (Hf3 : fresh_surface (hdr := demo_headers) demo_buffer 3 3%positive).
  { split; [vm_compute; reflexivity|]. eexists. split; vm_compute; reflexivity. }
  assert (Hf4 : fresh_surface (hdr := demo_headers) demo_buffer 4 4%positive).
  { split; [vm_compute; reflexivity|]. eexists. split; vm_compute; reflexivity. }
  destruct (nvBeginPicture_picture_index (hdr := demo_headers) demo_buffer 5 demo_ctx_addr
              (context_at (hdr := demo_headers) demo_buffer demo_ctx_addr))
    as [Hone Hseq]; [vm_compute; reflexivity..|].
  split; [vm_compute; reflexivity|]. split; [exact Hf2|]. split.
  - destruct (Hone 2 demo_surface_addr Hf2) as (o & w' & s' & Hrun & Hs' & _ & Hfree).
    destruct Hfree as (-> & Hidx & _); [vm_compute; discriminate|].
    exists (Val VA_STATUS_SUCCESS), w', s'. split_and!; done.
  - apply (Hseq [2; 3] 4 [2; 3; 4]%positive); try (vm_compute; reflexivity).
    + constructor 2; [exact Hf2|]. constructor 2; [exact Hf3|].
      constructor 2; [exact Hf4|]. constructor 1.
    + apply (bool_decide_unpack _). vm_compute. reflexivity.
Defined.

(** ** C8: BeginPicture on a Surface bound to another Context *)

Section C8.
Context {hdr : Headers} {cds : Codecs}.

(** C8 (amended): when [BeginPicture] finds the target's [context] field
    non-null and different from the calling Context, it detaches the
    target's backing image (calling the backend if there is one) and resets
    [pictureIdx] to -1 before a picture index is assigned.  By the time the
    call returns the backing image is detached, and [pictureIdx] is -1
    only if the call fails with MAX_NUM_EXCEEDED; on success it is the
    index just assigned, the Context's previous [currentPictureId]. *)
Theorem nvBeginPicture_rebinds
    (w : World) (context render_target : VAGenericID)
    (a p : addr) (c : NVContext) (s : NVSurface) :
  getObjectPtr (World.drv w) context = Some a ->
  getObjectPtr (World.drv w) render_target = Some p ->
  World.heap w !! a = Some (PContext c) ->
  World.heap w !! p = Some (PSurface s) ->
  bound_elsewhere s a ->
  exists o w' s',
    nvBeginPicture context render_target w = (o, w') /\
    World.heap w' !! p = Some (PSurface s') /\
    NVSurface.backingImage s' = None /\
    new_events w w' =
      (if bool_decide (NVSurface.backingImage s <> None)
       then [Backend (detachBackingImageFromSurface p)] else []) /\
    (NVContext.currentPictureId c = NVContext.surfaceCount c ->
       o = Return VA_STATUS_ERROR_MAX_NUM_EXCEEDED /\ NVSurface.pictureIdx s' = -1) /\
    (NVContext.currentPictureId c <> NVContext.surfaceCount c ->
       o = Val VA_STATUS_SUCCESS /\
       NVSurface.pictureIdx s' = NVContext.currentPictureId c).
Proof.
  intros Ha Hp Hc Hs Hre.
  destruct (nvBeginPicture_run w context render_target a p c s Ha Hp Hc Hs)
    as (o & w' & s' & Hrun & _ & _ & Hp' & Hbi & Htrace & Hfull & Hfree & _).
  rewrite (bool_decide_eq_true_2 _ Hre) in Hbi, Hfull, Hfree.
  exists o, w', s'. split_and!; try done.
  - apply new_events_app. rewrite Htrace. f_equal.
    repeat case_bool_decide; tauto.
  - intros Heq. destruct (Hfull eq_refl Heq) as (? & ? & _). done.
  - intros Hne. destruct (Hfree eq_refl Hne) as (? & ? & _). done.
Qed.

End C8.

Lemma nvBeginPicture_rebinds_witness :
  bound_elsewhere (surface_at demo_other_busy demo_surface_addr) demo_ctx2_addr /\
  exists w' s',
    nvBeginPicture (hdr := demo_headers) 6 2 demo_other_busy = (Val VA_STATUS_SUCCESS, w') /\
    World.heap w' !! demo_surface_addr = Some (PSurface s') /\
    NVSurface.backingImage s' = None /\
    new_events demo_other_busy w' = [Backend (detachBackingImageFromSurface demo_surface_addr)] /\
    NVSurface.pictureIdx s' = 1.
Proof.
  assert (Hre : bound_elsewhere (surface_at demo_other_busy demo_surface_addr) demo_ctx2_addr)
    by (split; vm_compute; discriminate).
  split; [exact Hre|].
  destruct (nvBeginPicture_rebinds (hdr := demo_headers) demo_other_busy 6 2
              demo_ctx2_addr demo_surface_addr
              (context_at (hdr := demo_headers) demo_other_busy demo_ctx2_addr)
              (surface_at demo_other_busy demo_surface_addr))
    as (o & w' & s' & Hrun & Hs' & Hbi & Hev & _ & Hfree);
    [vm_compute; reflexivity..|exact Hre|].
  destruct Hfree as [-> Hidx]; [vm_compute; discriminate|].
  exists w', s'. split_and!; try done.
Defined.

(** C8, as the specification states it, fails on the picture index: the
    rebinding call succeeds and returns with the freshly assigned index 1,
    not with -1. *)
Lemma nvBeginPicture_rebind_ends_with_fresh_index :
  bound_elsewhere (surface_at demo_other_busy demo_surface_addr) demo_ctx2_addr /\
  fst (nvBeginPicture (hdr := demo_headers) 6 2 demo_other_busy) = Val VA_STATUS_SUCCESS /\
  NVSurface.pictureIdx
    (surface_at (after (nvBeginPicture (hdr := demo_headers) 6 2) demo_other_busy)
       demo_surface_addr) = 1.
Proof. split_and!; [split; vm_compute; discriminate|vm_compute; reflexivity..]. Qed.


(* ================================================================== *)
(** * Further properties of the code *)

(** ** The object registry *)

Section RegistryProps.
Context {hdr : Headers}.

(** [allocateObject] on a well-formed registry, before the id counter wraps:
    the new object gets the id [nextObjId + 1], which no live object has,
    and a fresh zeroed cell; looking the id up yields the new object, every
    other lookup and every other cell is as before, and the registry stays
    well formed. *)
Theorem allocateObject_registers {R} (w : World) (type : ObjectType) (zero : Payload) :
  registry_wf (World.drv w) ->
  NVDriver.nextObjId (World.drv w) + 1 < 2 ^ 32 ->
  NVDriver.nextObjId (World.drv w) + 1 <> VA_INVALID_ID ->
  exists new p w',
    allocateObject (R := R) type zero w = (Val new, w') /\
    new = Object_t.mk type (NVDriver.nextObjId (World.drv w) + 1) (Some p) /\
    World.heap w !! p = None /\ World.heap w' !! p = Some zero /\
    (forall a, a <> p -> World.heap w' !! a = World.heap w !! a) /\
    getObject (World.drv w) (Object_t.id new) = None /\
    getObject (World.drv w') (Object_t.id new) = Some new /\
    (forall id, id <> Object_t.id new ->
       getObject (World.drv w') id = getObject (World.drv w) id) /\
    registry_wf (World.drv w').
Proof.
  intros (Hnd & Hids & Hnext) Hwrap Hvalid.
  unfold allocateObject. msteps. rewrite mret_run.
  set (p := fresh (dom (World.heap w))).
  set (n := NVDriver.nextObjId (World.drv w)) in *.
  assert (Hu : uint32 (n + 1) = n + 1) by (unfold uint32; apply Z.mod_small; lia).
  rewrite Hu.
  set (new := Object_t.mk type (n + 1) (Some p)).
  assert (Hnew_notin : Object_t.id new ∉ (Object_t.id <$> NVDriver.objects (World.drv w))).
  { intros (o & Ho & Hin)%list_elem_of_fmap.
    rewrite Forall_forall in Hids. specialize (Hids o Hin). cbn in Ho. lia. }
  assert (Hnone : getObject (World.drv w) (Object_t.id new) = None)
    by (by apply getObject_None).
  exists new, p. eexists. split; [reflexivity|]. split; [reflexivity|].
  wsimpl. split; [apply not_elem_of_dom, is_fresh|].
  split; [apply lookup_insert_eq|].
  split; [intros a Ha; by rewrite lookup_insert_ne|].
  split; [done|].
  pose proof (getObject_append (NVDriver.set_nextObjId (n + 1) (World.drv w)) new) as Happ.
  cbn zeta in Happ. cbn [NVDriver.objects NVDriver.set_nextObjId] in Happ.
  assert (Hsame : forall id, getObject (NVDriver.set_nextObjId (n + 1) (World.drv w)) id
                             = getObject (World.drv w) id) by done.
  split; [apply (Happ (n + 1)); [done|by rewrite Hsame]|].
  split; [intros id Hid; rewrite <- (Hsame id); by apply (Happ id)|].
  unfold registry_wf.
  split_and!; cbn [NVDriver.objects NVDriver.set_objects NVDriver.nextObjId NVDriver.set_nextObjId].
  - rewrite fmap_app. apply NoDup_app. split_and!; [done| |apply NoDup_singleton].
    intros x Hx Hx'. apply list_elem_of_singleton in Hx'. subst x. done.
  - apply Forall_app. split.
    + eapply Forall_impl; [exact Hids|]. cbn. intros o Ho. lia.
    + apply Forall_singleton. cbn. lia.
  - lia.
  - lia.
Qed.

(** [deleteObject]: an id that names no object (or is [VA_INVALID_ID])
    changes nothing; on a registry with distinct ids a live id is removed,
    its cell freed, and no other lookup or cell changes. *)
Theorem deleteObject_removes {R} (w : World) (id : VAGenericID) :
  (getObject (World.drv w) id = None -> deleteObject (R := R) id w = (Val (), w)) /\
  (forall o,
     NoDup (Object_t.id <$> NVDriver.objects (World.drv w)) ->
     getObject (World.drv w) id = Some o ->
     exists w',
       deleteObject (R := R) id w = (Val (), w') /\
       getObject (World.drv w') id = None /\
       (forall id', id' <> id -> getObject (World.drv w') id' = getObject (World.drv w) id') /\
       (forall p, Object_t.obj o = Some p -> World.heap w' !! p = None) /\
       (forall a, Object_t.obj o <> Some a -> World.heap w' !! a = World.heap w !! a) /\
       (registry_wf (World.drv w) -> registry_wf (World.drv w'))).
Proof.
  split.
  - intros Hnone. unfold deleteObject. case_bool_decide; [done|].
    rewrite get_drv_bind.
    unfold getObject in Hnone. rewrite bool_decide_eq_true_2 in Hnone by done.
    destruct (list_find _ _) as [[]|]; [done|]. by destruct w.
  - intros o Hnd Hsome.
    destruct (getObject_Some _ _ _ Hsome) as (Hvalid & Hid & Hin).
    unfold getObject in Hsome. rewrite bool_decide_eq_true_2 in Hsome by done.
    destruct (list_find (has_id id) (NVDriver.objects (World.drv w)))
      as [[i o']|] eqn:Hfind; [|done].
    injection Hsome as ->.
    pose proof Hfind as (Hi & _ & _)%list_find_Some.
    unfold deleteObject. rewrite bool_decide_eq_false_2 by done.
    rewrite get_drv_bind, Hfind. msteps.
    assert (Hlook : forall id',
      getObject (NVDriver.set_objects (delete i (NVDriver.objects (World.drv w))) (World.drv w)) id'
      = if bool_decide (id' = id) then None else getObject (World.drv w) id').
    { intros id'. unfold getObject. cbn [NVDriver.objects NVDriver.set_objects].
      destruct (decide (id' = id)) as [->|Hne].
      - rewrite (bool_decide_eq_true_2 (id = id)) by done. case_bool_decide; [|done].
        subst id. rewrite (proj2 (list_find_None _ _)); [done|].
        apply (proj1 (list_find_None _ _)).
        exact (list_find_delete_unique Object_t.id _ _ _ Hnd Hi).
      - rewrite (bool_decide_eq_false_2 (id' = id)) by done. case_bool_decide; [|done].
        apply (list_find_delete_other (has_id id') _ _ _ Hi). unfold has_id. congruence. }
    assert (Hwf : registry_wf (World.drv w) ->
      registry_wf (NVDriver.set_objects (delete i (NVDriver.objects (World.drv w))) (World.drv w))).
    { intros (_ & Hids & Hnext). unfold registry_wf.
      cbn [NVDriver.objects NVDriver.set_objects NVDriver.nextObjId].
      rewrite delete_take_drop. rewrite <- (take_drop_middle _ _ _ Hi) in Hnd, Hids.
      rewrite fmap_app in *. rewrite fmap_cons in Hnd.
      apply NoDup_app in Hnd as (Hnd1 & Hdisj & Hnd2). apply NoDup_cons in Hnd2 as [_ Hnd2].
      apply Forall_app in Hids as [Hids1 Hids2]. apply Forall_cons in Hids2 as [_ Hids2].
      split; [|split; [by apply Forall_app|done]].
      apply NoDup_app. split_and!; [done| |done].
      intros x Hx Hx'. apply (Hdisj x Hx). by apply list_elem_of_further. }
    destruct (Object_t.obj o) as [p|] eqn:Hobj.
    + eexists. split; [reflexivity|]. wsimpl.
      split; [by rewrite Hlook, bool_decide_eq_true_2|].
      split; [intros id' Hne; by rewrite Hlook, bool_decide_eq_false_2|].
      split; [intros p' [= <-]; apply lookup_delete_eq|].
      split; [intros a Ha; apply lookup_delete_ne; congruence|done].
    + eexists. split; [reflexivity|]. wsimpl.
      split; [by rewrite Hlook, bool_decide_eq_true_2|].
      split; [intros id' Hne; by rewrite Hlook, bool_decide_eq_false_2|].
      split; [done|]. split; [done|done].
Qed.

End RegistryProps.

(** ** EndPicture and the resolve worker *)

Section EndPictureProps.
Context {hdr : Headers} {cds : Codecs}.

(** What [nvEndPicture] does on a live Context with a live render target
    when the device context can be pushed and popped. *)
Lemma nvEndPicture_run
    (e : Env) (w : World) (context : VAGenericID) (o : Object)
    (a p : addr) (c : NVContext) (s : NVSurface) :
  getObject (World.drv w) context = Some o -> Object_t.obj o = Some a ->
  World.heap w !! a = Some (PContext c) ->
  NVContext.renderTarget c = Some p ->
  World.heap w !! p = Some (PSurface s) ->
  0 <= NVContext.surfaceQueueWriteIdx c < len (NVContext.surfaceQueue c) ->
  Env.r_cuCtxPushCurrent e = CUDA_SUCCESS ->
  Env.r_cuCtxPopCurrent e = CUDA_SUCCESS ->
  let failed := bool_decide (Env.r_cuvidDecodePicture e <> CUDA_SUCCESS) in
  let picParams :=
    CUVIDPICPARAMS.mk (CUVIDPICPARAMS.CurrPicIdx (NVContext.pPicParams c))
      (CUVIDPICPARAMS.bottom_field_flag (NVContext.pPicParams c))
      (CUVIDPICPARAMS.second_field (NVContext.pPicParams c))
      (AppendableBuffer.buf (NVContext.bitstreamBuffer c))
      (AppendableBuffer.buf (NVContext.sliceOffsets c)) in
  exists w' c',
    nvEndPicture e context w =
      (Val (if failed then VA_STATUS_ERROR_DECODING_ERROR else VA_STATUS_SUCCESS), w') /\
    World.drv w' = World.drv w /\
    (forall q, q <> a -> q <> p -> World.heap w' !! q = World.heap w !! q) /\
    World.heap w' !! p =
      Some (PSurface
        (NVSurface.set_decodeFailed failed
           (NVSurface.set_secondField (CUVIDPICPARAMS.second_field picParams)
              (NVSurface.set_topFieldFirst
                 (bool_decide (CUVIDPICPARAMS.bottom_field_flag picParams = 0))
                 (NVSurface.set_context (Some a) s))))) /\
    World.heap w' !! a = Some (PContext c') /\
    NVContext.surfaceQueue c' =
      <[Z.to_nat (NVContext.surfaceQueueWriteIdx c) := Some p]> (NVContext.surfaceQueue c) /\
    NVContext.surfaceQueueWriteIdx c' = next_index (NVContext.surfaceQueueWriteIdx c) /\
    NVContext.surfaceQueueReadIdx c' = NVContext.surfaceQueueReadIdx c /\
    NVContext.exiting c' = NVContext.exiting c /\
    NVContext.renderTarget c' = Some p /\
    NVContext.currentPictureId c' = NVContext.currentPictureId c /\
    NVContext.surfaceCount c' = NVContext.surfaceCount c /\
    NVContext.pPicParams c' = picParams /\
    NVContext.bitstreamBuffer c' =
      AppendableBuffer.mk (AppendableBuffer.buf (NVContext.bitstreamBuffer c)) 0
        (AppendableBuffer.allocated (NVContext.bitstreamBuffer c)) /\
    NVContext.sliceOffsets c' =
      AppendableBuffer.mk (AppendableBuffer.buf (NVContext.sliceOffsets c)) 0
        (AppendableBuffer.allocated (NVContext.sliceOffsets c)) /\
    new_events w w' =
      [Vendor cuCtxPushCurrent; Vendor (cuvidDecodePicture picParams); Vendor cuCtxPopCurrent]
      ++ (if failed then [Log "cuvidDecodePicture failed: %d" [Env.r_cuvidDecodePicture e]]
          else [])
      ++ [Enqueued a (Some p); CondSignal (resolveCondition a)].
Proof.
  intros Ho Hobj Hc Hrt Hs Hidx Hpush Hpop failed picParams.
  assert (Hap : a <> p) by congruence.
  unfold nvEndPicture. rewrite get_drv_bind. rewrite Ho. cbn beta zeta. rewrite Hobj.
  msteps. cbn [NVContext.renderTarget NVContext.set_buffers NVContext.set_pPicParams].
  fold picParams. subst failed.
  destruct (decide (Env.r_cuvidDecodePicture e = CUDA_SUCCESS)) as [Hdec|Hdec].
  - rewrite !(bool_decide_eq_false_2 (Env.r_cuvidDecodePicture e <> CUDA_SUCCESS)) by tauto.
    msteps. cbn [NVContext.renderTarget NVContext.set_buffers NVContext.set_pPicParams].
    rewrite Hrt. msteps.
    cbn [NVContext.surfaceQueueWriteIdx NVContext.surfaceQueue NVContext.surfaceQueueReadIdx
         NVContext.set_buffers NVContext.set_pPicParams NVContext.renderTarget].
    rewrite (bool_decide_eq_true_2 _ Hidx). msteps. rewrite mret_run.
    eexists _, _. split; [reflexivity|]. split; [reflexivity|].
    split; [intros q Hqa Hqp; lookup_simpl; reflexivity|].
    split; [lookup_simpl; reflexivity|].
    split; [lookup_simpl; reflexivity|].
    cbn. rewrite ?Hrt. split_and!; try reflexivity.
    apply new_events_app. wsimpl. rewrite ?Hrt. by rewrite <- !app_assoc.
  - rewrite !(bool_decide_eq_true_2 (Env.r_cuvidDecodePicture e <> CUDA_SUCCESS)) by done.
    msteps. cbn [NVContext.renderTarget NVContext.set_buffers NVContext.set_pPicParams].
    rewrite Hrt. msteps.
    cbn [NVContext.surfaceQueueWriteIdx NVContext.surfaceQueue NVContext.surfaceQueueReadIdx
         NVContext.set_buffers NVContext.set_pPicParams NVContext.renderTarget].
    rewrite (bool_decide_eq_true_2 _ Hidx). msteps. rewrite mret_run.
    eexists _, _. split; [reflexivity|]. split; [reflexivity|].
    split; [intros q Hqa Hqp; lookup_simpl; reflexivity|].
    split; [lookup_simpl; reflexivity|].
    split; [lookup_simpl; reflexivity|].
    cbn. rewrite ?Hrt. split_and!; try reflexivity.
    apply new_events_app. wsimpl. rewrite ?Hrt. by rewrite <- !app_assoc.
Qed.


(** [nvEndPicture] reads [->obj] through the result of [getObject]: on an
    id that names no object it faults, where [nvCreateBuffer] and
    [nvRenderPicture], which go through [getObjectPtr], answer
    INVALID_CONTEXT and leave the state alone. *)
Theorem unknown_context_id_handling
    (e : Env) (w : World) (context : VAGenericID) (type : VABufferType)
    (size num_elements : Z) (data : option ClientPtr) (buffers : list VAGenericID) :
  getObject (World.drv w) context = None ->
  nvCreateBuffer e context type size num_elements data w
    = (Return VA_STATUS_ERROR_INVALID_CONTEXT, w) /\
  nvRenderPicture context buffers w = (Return VA_STATUS_ERROR_INVALID_CONTEXT, w) /\
  nvEndPicture e context w = (Crash NullDeref, w).
Proof.
  intros Hnone.
  assert (Hptr : getObjectPtr (World.drv w) context = None).
  { unfold getObjectPtr. rewrite Hnone. by case_bool_decide. }
  split_and!.
  - unfold nvCreateBuffer. rewrite get_drv_bind. cbn beta zeta. by rewrite Hptr.
  - unfold nvRenderPicture. rewrite get_drv_bind. cbn beta zeta. by rewrite Hptr.
  - unfold nvEndPicture. rewrite get_drv_bind. by rewrite Hnone.
Qed.

(** When the device context cannot be pushed, or cannot be popped after the
    decode call, [nvEndPicture] returns OPERATION_FAILED at once: the render
    target is neither marked nor enqueued and the worker is not signalled,
    although the scratch buffers have been emptied already. *)
Theorem nvEndPicture_cuda_context_failure
    (e : Env) (w : World) (context : VAGenericID) (o : Object)
    (a : addr) (c : NVContext) :
  getObject (World.drv w) context = Some o -> Object_t.obj o = Some a ->
  World.heap w !! a = Some (PContext c) ->
  Env.r_cuCtxPushCurrent e <> CUDA_SUCCESS \/ Env.r_cuCtxPopCurrent e <> CUDA_SUCCESS ->
  exists w' c',
    nvEndPicture e context w = (Return VA_STATUS_ERROR_OPERATION_FAILED, w') /\
    World.drv w' = World.drv w /\
    (forall q, q <> a -> World.heap w' !! q = World.heap w !! q) /\
    World.heap w' !! a = Some (PContext c') /\
    NVContext.surfaceQueue c' = NVContext.surfaceQueue c /\
    NVContext.surfaceQueueWriteIdx c' = NVContext.surfaceQueueWriteIdx c /\
    NVContext.surfaceQueueReadIdx c' = NVContext.surfaceQueueReadIdx c /\
    AppendableBuffer.size (NVContext.bitstreamBuffer c') = 0 /\
    AppendableBuffer.size (NVContext.sliceOffsets c') = 0 /\
    (forall ev, ev ∈ new_events w w' ->
       (forall s, ev <> Enqueued a s) /\ (forall cond, ev <> CondSignal cond)) /\
    (Env.r_cuCtxPushCurrent e <> CUDA_SUCCESS ->
       forall pic, Vendor (cuvidDecodePicture pic) ∉ new_events w w').
Proof.
  intros Ho Hobj Hc Hfail.
  unfold nvEndPicture. rewrite get_drv_bind. rewrite Ho. cbn beta zeta. rewrite Hobj.
  msteps.
  destruct (decide (Env.r_cuCtxPushCurrent e = CUDA_SUCCESS)) as [Hpush|Hpush].
  - assert (Hpop : Env.r_cuCtxPopCurrent e <> CUDA_SUCCESS) by tauto.
    msteps.
    eexists _, _. split; [reflexivity|]. split; [reflexivity|].
    split; [intros q Hqa; lookup_simpl; reflexivity|].
    split; [lookup_simpl; reflexivity|].
    cbn. split_and!; try reflexivity; [|done].
    intros ev Hev. erewrite new_events_app in Hev; [|wsimpl; by rewrite <- !app_assoc].
    set_unfold in Hev. split; intros ? ->; intuition discriminate.
  - msteps.
    eexists _, _. split; [reflexivity|]. split; [reflexivity|].
    split; [intros q Hqa; lookup_simpl; reflexivity|].
    split; [lookup_simpl; reflexivity|].
    cbn. split_and!; try reflexivity.
    + intros ev Hev. erewrite new_events_app in Hev; [|wsimpl; by rewrite <- !app_assoc].
      set_unfold in Hev. split; intros ? ->; intuition discriminate.
    + intros _ pic Hev. erewrite new_events_app in Hev; [|wsimpl; by rewrite <- !app_assoc].
      set_unfold in Hev. intuition discriminate.
Qed.

End EndPictureProps.

Section ResolveProps.
Context {hdr : Headers} {cds : Codecs}.

(** The worker with nothing to do: it leaves when [exiting] is set, and
    otherwise suspends on the resolve condition while the ring is empty;
    neither touches the state. *)
Theorem resolveSurfaces_iteration_idle (e : Env) (w : World) (a : addr) (c : NVContext) :
  World.heap w !! a = Some (PContext c) ->
  (NVContext.exiting c = true ->
     resolveSurfaces_iteration e a w =
       (Return (), World.log (Log "[RT] Resolve thread for %p exiting" []) w)) /\
  (NVContext.exiting c = false ->
   NVContext.surfaceQueueReadIdx c = NVContext.surfaceQueueWriteIdx c ->
     resolveSurfaces_iteration e a w = (Blocked (resolveCondition a), w)).
Proof.
  intros Hc. split.
  - intros Hex. unfold resolveSurfaces_iteration. msteps. rewrite Hex. msteps. reflexivity.
  - intros Hex Hempty. unfold resolveSurfaces_iteration. msteps. rewrite Hex.
    rewrite (bool_decide_eq_true_2 _ Hempty). reflexivity.
Qed.


(** One iteration of the worker on a ring whose read slot holds the
    picture [p]. *)
Lemma resolveSurfaces_iteration_run
    (e : Env) (w : World) (a p : addr) (c : NVContext) (s : NVSurface) :
  World.heap w !! a = Some (PContext c) ->
  NVContext.exiting c = false ->
  NVContext.surfaceQueueReadIdx c <> NVContext.surfaceQueueWriteIdx c ->
  0 <= NVContext.surfaceQueueReadIdx c ->
  NVContext.surfaceQueue c !! Z.to_nat (NVContext.surfaceQueueReadIdx c) = Some (Some p) ->
  World.heap w !! p = Some (PSurface s) ->
  let mapped := bool_decide (Env.r_cuvidMapVideoFrame e = CUDA_SUCCESS) in
  exists w',
    resolveSurfaces_iteration e a w = (Val (), w') /\
    World.drv w' = World.drv w /\
    (forall q, q <> a -> q <> p -> World.heap w' !! q = World.heap w !! q) /\
    World.heap w' !! a =
      Some (PContext (NVContext.set_queue (NVContext.surfaceQueue c)
                        (next_index (NVContext.surfaceQueueReadIdx c))
                        (NVContext.surfaceQueueWriteIdx c) c)) /\
    World.heap w' !! p = Some (PSurface (NVSurface.set_resolving 0 s)) /\
    new_events w w' =
      if NVSurface.decodeFailed s then [CondSignal (surfaceCond p)]
      else if mapped then
        [Vendor (cuvidMapVideoFrame (NVSurface.pictureIdx s));
         Backend (exportCudaPtr p (Env.mapped_pitch e));
         CondSignal (surfaceCond p);
         Vendor cuvidUnmapVideoFrame]
        ++ (if bool_decide (Env.r_cuvidUnmapVideoFrame e = CUDA_SUCCESS) then []
            else [Log "CUDA ERROR '%s' (%d)" [Env.r_cuvidUnmapVideoFrame e]])
      else
        [Vendor (cuvidMapVideoFrame (NVSurface.pictureIdx s));
         Log "CUDA ERROR '%s' (%d)" [Env.r_cuvidMapVideoFrame e];
         CondSignal (surfaceCond p)].
Proof.
  intros Hc Hex Hne Hidx Hq Hs mapped. subst mapped.
  assert (Hap : a <> p) by congruence.
  unfold resolveSurfaces_iteration. msteps. rewrite Hex.
  rewrite (bool_decide_eq_false_2 _ Hne), (bool_decide_eq_true_2 _ Hidx), Hq.
  msteps. destruct (NVSurface.decodeFailed s) eqn:Hdf.
  - msteps.
    eexists. split; [reflexivity|]. split; [reflexivity|].
    split; [intros q Hqa Hqp; lookup_simpl; reflexivity|].
    split; [lookup_simpl; reflexivity|].
    split; [lookup_simpl; reflexivity|].
    apply new_events_app. wsimpl. reflexivity.
  - case_bool_decide as Hmap.
    + msteps. unfold backend_exportCudaPtr. msteps.
      case_bool_decide as Hun; msteps.
      * eexists. split; [reflexivity|]. split; [reflexivity|].
        split; [intros q Hqa Hqp; lookup_simpl; reflexivity|].
        split; [lookup_simpl; reflexivity|].
        split; [lookup_simpl; reflexivity|].
        apply new_events_app. wsimpl. by rewrite <- !app_assoc.
      * eexists. split; [reflexivity|]. split; [reflexivity|].
        split; [intros q Hqa Hqp; lookup_simpl; reflexivity|].
        split; [lookup_simpl; reflexivity|].
        split; [lookup_simpl; reflexivity|].
        apply new_events_app. wsimpl. by rewrite <- !app_assoc.
    + msteps.
      eexists. split; [reflexivity|]. split; [reflexivity|].
      split; [intros q Hqa Hqp; lookup_simpl; reflexivity|].
      split; [lookup_simpl; reflexivity|].
      split; [lookup_simpl; reflexivity|].
      apply new_events_app. wsimpl. by rewrite <- !app_assoc.
Qed.




End ResolveProps.

Section RingProps.
Context {hdr : Headers} {cds : Codecs}.

Lemma next_index_mod (i : Z) :
  0 <= i < SURFACE_QUEUE_SIZE -> next_index i = (i + 1) mod SURFACE_QUEUE_SIZE.
Proof.
  intros Hi. unfold next_index. case_bool_decide as Hwrap.
  - replace (i + 1) with SURFACE_QUEUE_SIZE by lia. by rewrite Z.mod_same by lia.
  - by rewrite Z.mod_small by lia.
Qed.

Lemma ring_slot_inj (r i j : Z) :
  0 <= i < j -> j < SURFACE_QUEUE_SIZE ->
  (r + i) mod SURFACE_QUEUE_SIZE <> (r + j) mod SURFACE_QUEUE_SIZE.
Proof.
  intros Hij Hj Heq.
  assert (Hz : (j - i) mod SURFACE_QUEUE_SIZE = 0).
  { replace (j - i) with ((r + j) - (r + i)) by lia.
    rewrite Zminus_mod, Heq, Z.sub_diag. apply Z.mod_0_l. lia. }
  rewrite Z.mod_small in Hz by lia. lia.
Qed.

Lemma ring_holds_enqueue (c : NVContext) (pending : list addr) (p : addr) :
  ring_holds c pending -> len pending + 1 < SURFACE_QUEUE_SIZE ->
  ring_holds
    (NVContext.set_queue
       (<[Z.to_nat (NVContext.surfaceQueueWriteIdx c) := Some p]> (NVContext.surfaceQueue c))
       (NVContext.surfaceQueueReadIdx c) (next_index (NVContext.surfaceQueueWriteIdx c)) c)
    (pending ++ [p]).
Proof.
  intros (Hlen & Hr & Hn & Hw & Hslots) Hroom.
  pose proof (len_nonneg pending) as Hn0.
  assert (Hwb : 0 <= NVContext.surfaceQueueWriteIdx c < SURFACE_QUEUE_SIZE).
  { rewrite Hw. apply Z.mod_pos_bound. lia. }
  unfold ring_holds. cbn [NVContext.surfaceQueue NVContext.surfaceQueueReadIdx
                          NVContext.surfaceQueueWriteIdx NVContext.set_queue].
  split_and!; try lia.
  - unfold len in *. by rewrite length_insert.
  - rewrite len_app. unfold len at 2. cbn [length]. lia.
  - rewrite next_index_mod by done. rewrite Hw, len_app. unfold len at 3. cbn [length].
    rewrite Z.add_mod_idemp_l by lia. f_equal. lia.
  - intros i q Hi. destruct (decide (i < length pending)%nat) as [Hlt|Hge].
    + rewrite lookup_app_l in Hi by done.
      rewrite list_lookup_insert_ne; [by apply Hslots|].
      rewrite Hw. intros Heq. apply Z2Nat.inj in Heq;
        [|apply Z.mod_pos_bound; lia|apply Z.mod_pos_bound; lia].
      symmetry in Heq. revert Heq. apply ring_slot_inj; unfold len in *; lia.
    + rewrite lookup_app_r in Hi by lia.
      destruct (i - length pending)%nat as [|k] eqn:Hk; [|by destruct k].
      injection Hi as ->. assert (i = length pending) as -> by lia.
      fold (len pending). rewrite <- Hw.
      apply list_lookup_insert_eq. unfold len in Hlen. lia.
Qed.

Lemma ring_holds_dequeue (c : NVContext) (pending : list addr) (p : addr) :
  ring_holds c (p :: pending) ->
  NVContext.surfaceQueueReadIdx c <> NVContext.surfaceQueueWriteIdx c /\
  NVContext.surfaceQueue c !! Z.to_nat (NVContext.surfaceQueueReadIdx c) = Some (Some p) /\
  ring_holds
    (NVContext.set_queue (NVContext.surfaceQueue c)
       (next_index (NVContext.surfaceQueueReadIdx c)) (NVContext.surfaceQueueWriteIdx c) c)
    pending.
Proof.
  intros (Hlen & Hr & Hn & Hw & Hslots).
  pose proof (len_nonneg pending) as Hn0.
  assert (Hcons : len (p :: pending) = len pending + 1).
  { unfold len. cbn [length]. lia. }
  rewrite Hcons in *.
  split_and!.
  - rewrite Hw. intros Heq.
    assert (Hr0 : NVContext.surfaceQueueReadIdx c =
                  (NVContext.surfaceQueueReadIdx c + 0) mod SURFACE_QUEUE_SIZE).
    { rewrite Z.add_0_r. by rewrite Z.mod_small. }
    rewrite Hr0 in Heq at 1. revert Heq. apply ring_slot_inj; lia.
  - specialize (Hslots 0%nat p eq_refl). cbn in Hslots.
    rewrite Z.add_0_r, Z.mod_small in Hslots by done. exact Hslots.
  - unfold ring_holds. cbn [NVContext.surfaceQueue NVContext.surfaceQueueReadIdx
                            NVContext.surfaceQueueWriteIdx NVContext.set_queue].
    rewrite next_index_mod by done.
    split_and!; try lia.
    + apply Z.mod_pos_bound. lia.
    + apply Z.mod_pos_bound. lia.
    + rewrite Hw. rewrite Z.add_mod_idemp_l by lia. f_equal. lia.
    + intros i q Hi. specialize (Hslots (S i) q Hi).
      rewrite Z.add_mod_idemp_l by lia.
      replace (NVContext.surfaceQueueReadIdx c + 1 + Z.of_nat i)
        with (NVContext.surfaceQueueReadIdx c + Z.of_nat (S i)) by lia.
      exact Hslots.
Qed.

(** The ring is a first-in first-out queue, part one: [nvEndPicture] puts
    the render target behind the pictures that wait already, as long as a
    slot stays free afterwards. *)
Theorem nvEndPicture_enqueues_in_order
    (e : Env) (w : World) (context : VAGenericID) (o : Object)
    (a p : addr) (c : NVContext) (s : NVSurface) (pending : list addr) :
  getObject (World.drv w) context = Some o -> Object_t.obj o = Some a ->
  World.heap w !! a = Some (PContext c) ->
  NVContext.renderTarget c = Some p ->
  World.heap w !! p = Some (PSurface s) ->
  Env.r_cuCtxPushCurrent e = CUDA_SUCCESS ->
  Env.r_cuCtxPopCurrent e = CUDA_SUCCESS ->
  ring_holds c pending ->
  len pending + 1 < SURFACE_QUEUE_SIZE ->
  exists st w' c',
    nvEndPicture e context w = (Val st, w') /\
    World.heap w' !! a = Some (PContext c') /\
    NVContext.exiting c' = NVContext.exiting c /\
    ring_holds c' (pending ++ [p]).
Proof.
  intros Ho Hobj Hc Hrt Hs Hpush Hpop Hring Hroom.
  pose proof Hring as (Hlen & Hr & Hn & Hw & Hslots).
  pose proof (len_nonneg pending) as Hn0.
  assert (Hidx : 0 <= NVContext.surfaceQueueWriteIdx c < len (NVContext.surfaceQueue c)).
  { rewrite Hlen, Hw. apply Z.mod_pos_bound. lia. }
  destruct (nvEndPicture_run e w context o a p c s Ho Hobj Hc Hrt Hs Hidx Hpush Hpop)
    as (w' & c' & Hrun & _ & _ & _ & Ha & Hq & Hwi & Hri & Hex & _).
  eexists _, w', c'. split; [exact Hrun|]. split; [exact Ha|]. split; [exact Hex|].
  pose proof (ring_holds_enqueue c pending p Hring Hroom) as H'.
  unfold ring_holds in *.
  cbn [NVContext.surfaceQueue NVContext.surfaceQueueReadIdx
       NVContext.surfaceQueueWriteIdx NVContext.set_queue] in H'.
  by rewrite Hq, Hwi, Hri.
Qed.

(** [nvEndPicture] does not look whether the ring has room: with every slot
    but one taken, the new picture makes the write index meet the read
    index, and the worker finds the ring empty and suspends, with
    SURFACE_QUEUE_SIZE pictures waiting. *)
Theorem nvEndPicture_full_ring_looks_empty
    (e : Env) (w : World) (context : VAGenericID) (o : Object)
    (a p : addr) (c : NVContext) (s : NVSurface) (pending : list addr) :
  getObject (World.drv w) context = Some o -> Object_t.obj o = Some a ->
  World.heap w !! a = Some (PContext c) ->
  NVContext.renderTarget c = Some p ->
  World.heap w !! p = Some (PSurface s) ->
  NVContext.exiting c = false ->
  Env.r_cuCtxPushCurrent e = CUDA_SUCCESS ->
  Env.r_cuCtxPopCurrent e = CUDA_SUCCESS ->
  ring_holds c pending ->
  len pending + 1 = SURFACE_QUEUE_SIZE ->
  exists st w',
    nvEndPicture e context w = (Val st, w') /\
    Enqueued a (Some p) ∈ new_events w w' /\
    resolveSurfaces_iteration e a w' = (Blocked (resolveCondition a), w').
Proof.
  intros Ho Hobj Hc Hrt Hs Hexit Hpush Hpop (Hlen & Hr & Hn & Hw & Hslots) Hfull.
  pose proof (len_nonneg pending) as Hn0.
  assert (Hwb : 0 <= NVContext.surfaceQueueWriteIdx c < SURFACE_QUEUE_SIZE).
  { rewrite Hw. apply Z.mod_pos_bound. lia. }
  assert (Hidx : 0 <= NVContext.surfaceQueueWriteIdx c < len (NVContext.surfaceQueue c))
    by (by rewrite Hlen).
  destruct (nvEndPicture_run e w context o a p c s Ho Hobj Hc Hrt Hs Hidx Hpush Hpop)
    as (w' & c' & Hrun & _ & _ & _ & Ha & Hq & Hwi & Hri & Hex & _ & _ & _ & _ & _ & _ & Hev).
  eexists _, w'. split; [exact Hrun|]. split.
  { rewrite Hev. do 2 (apply elem_of_app; right). by repeat constructor. }
  unfold resolveSurfaces_iteration.
  erewrite loadContext_bind by exact Ha. rewrite Hex, Hexit.
  rewrite bool_decide_eq_true_2; [reflexivity|].
  rewrite Hri, Hwi, next_index_mod by exact Hwb. rewrite Hw.
  rewrite Z.add_mod_idemp_l by lia.
  replace (NVContext.surfaceQueueReadIdx c + len pending + 1)
    with (NVContext.surfaceQueueReadIdx c + 1 * SURFACE_QUEUE_SIZE) by lia.
  rewrite Z.mod_add by lia. by rewrite Z.mod_small.
Qed.

(** The ring is a first-in first-out queue, part two: one iteration of the
    worker handles the oldest waiting picture, and no other, and leaves
    the others waiting in their order. *)
Theorem resolveSurfaces_iteration_dequeues_in_order
    (e : Env) (w : World) (a p : addr) (c : NVContext) (s : NVSurface)
    (pending : list addr) :
  World.heap w !! a = Some (PContext c) ->
  NVContext.exiting c = false ->
  World.heap w !! p = Some (PSurface s) ->
  ring_holds c (p :: pending) ->
  exists w' c',
    resolveSurfaces_iteration e a w = (Val (), w') /\
    World.heap w' !! a = Some (PContext c') /\
    NVContext.exiting c' = false /\
    ring_holds c' pending /\
    handles (new_events w w') p.
Proof.
  intros Hc Hexit Hs Hring.
  pose proof Hring as (_ & Hr & _).
  destruct (ring_holds_dequeue c pending p Hring) as (Hne & Hslot & Hring').
  destruct (resolveSurfaces_iteration_run e w a p c s Hc Hexit Hne (proj1 Hr) Hslot Hs)
    as (w' & Hrun & _ & _ & Ha & _ & Hev).
  eexists w', _. split; [exact Hrun|]. split; [exact Ha|].
  split; [exact Hexit|]. split; [exact Hring'|].
  rewrite Hev. unfold handles.
  destruct (NVSurface.decodeFailed s); [|case_bool_decide; [case_bool_decide|]].
  - split; [left; by repeat constructor|]. split.
    + intros q Hin. set_unfold in Hin. intuition congruence.
    + intros q pitch Hin. set_unfold in Hin. intuition congruence.
  - split; [right; exists (Env.mapped_pitch e); by repeat constructor|]. split.
    + intros q Hin. set_unfold in Hin. intuition congruence.
    + intros q pitch Hin. set_unfold in Hin. intuition congruence.
  - split; [right; exists (Env.mapped_pitch e); by repeat constructor|]. split.
    + intros q Hin. set_unfold in Hin. intuition congruence.
    + intros q pitch Hin. set_unfold in Hin. intuition congruence.
  - split; [left; by repeat constructor|]. split.
    + intros q Hin. set_unfold in Hin. intuition congruence.
    + intros q pitch Hin. set_unfold in Hin. intuition congruence.
Qed.

End RingProps.

Section SubmitProps.
Context {hdr : Headers} {cds : Codecs}.

(** [nvEndPicture] hands the picture to the decoder between a push and a
    pop of the device context, and whatever the decoder answers it binds
    the render target to the Context, records the answer in [decodeFailed],
    enqueues the target and signals the worker; the status is
    DECODING_ERROR exactly when the decoder reported an error.  The picture
    index and [resolving] are not touched. *)
Theorem nvEndPicture_decode_result
    (e : Env) (w : World) (context : VAGenericID) (o : Object)
    (a p : addr) (c : NVContext) (s : NVSurface) :
  getObject (World.drv w) context = Some o -> Object_t.obj o = Some a ->
  World.heap w !! a = Some (PContext c) ->
  NVContext.renderTarget c = Some p ->
  World.heap w !! p = Some (PSurface s) ->
  0 <= NVContext.surfaceQueueWriteIdx c < len (NVContext.surfaceQueue c) ->
  Env.r_cuCtxPushCurrent e = CUDA_SUCCESS ->
  Env.r_cuCtxPopCurrent e = CUDA_SUCCESS ->
  let failed := bool_decide (Env.r_cuvidDecodePicture e <> CUDA_SUCCESS) in
  exists w' s' pic,
    nvEndPicture e context w =
      (Val (if failed then VA_STATUS_ERROR_DECODING_ERROR else VA_STATUS_SUCCESS), w') /\
    World.heap w' !! p = Some (PSurface s') /\
    NVSurface.decodeFailed s' = failed /\
    NVSurface.context s' = Some a /\
    NVSurface.pictureIdx s' = NVSurface.pictureIdx s /\
    NVSurface.resolving s' = NVSurface.resolving s /\
    CUVIDPICPARAMS.pBitstreamData pic = AppendableBuffer.buf (NVContext.bitstreamBuffer c) /\
    CUVIDPICPARAMS.pSliceDataOffsets pic = AppendableBuffer.buf (NVContext.sliceOffsets c) /\
    CUVIDPICPARAMS.CurrPicIdx pic = CUVIDPICPARAMS.CurrPicIdx (NVContext.pPicParams c) /\
    new_events w w' =
      [Vendor cuCtxPushCurrent; Vendor (cuvidDecodePicture pic); Vendor cuCtxPopCurrent]
      ++ (if failed then [Log "cuvidDecodePicture failed: %d" [Env.r_cuvidDecodePicture e]]
          else [])
      ++ [Enqueued a (Some p); CondSignal (resolveCondition a)].
Proof.
  intros Ho Hobj Hc Hrt Hs Hidx Hpush Hpop failed.
  destruct (nvEndPicture_run e w context o a p c s Ho Hobj Hc Hrt Hs Hidx Hpush Hpop)
    as (w' & c' & Hrun & _ & _ & Hp & _ & _ & _ & _ & _ & _ & _ & _ & _ & _ & _ & Hev).
  exists w'. eexists.
  exists (CUVIDPICPARAMS.mk (CUVIDPICPARAMS.CurrPicIdx (NVContext.pPicParams c))
            (CUVIDPICPARAMS.bottom_field_flag (NVContext.pPicParams c))
            (CUVIDPICPARAMS.second_field (NVContext.pPicParams c))
            (AppendableBuffer.buf (NVContext.bitstreamBuffer c))
            (AppendableBuffer.buf (NVContext.sliceOffsets c))).
  split; [exact Hrun|]. split; [exact Hp|].
  split_and!; try reflexivity. exact Hev.
Qed.

(** A decode failure does not leave a waiter behind: after [nvEndPicture]
    has answered DECODING_ERROR on an idle Context, the next iteration of
    the worker takes the picture off the ring, calls neither the decoder
    nor the export backend, clears [resolving] and signals the Surface, and
    [nvSyncSurface] on the target then returns SUCCESS. *)
Theorem decode_failure_unblocks_sync
    (e e' : Env) (w : World) (context render_target : VAGenericID) (o : Object)
    (a p : addr) (c : NVContext) (s : NVSurface) :
  getObject (World.drv w) context = Some o -> Object_t.obj o = Some a ->
  getObjectPtr (World.drv w) render_target = Some p ->
  World.heap w !! a = Some (PContext c) ->
  NVContext.renderTarget c = Some p ->
  World.heap w !! p = Some (PSurface s) ->
  NVContext.exiting c = false ->
  ring_holds c [] ->
  1 < SURFACE_QUEUE_SIZE ->
  Env.r_cuCtxPushCurrent e = CUDA_SUCCESS ->
  Env.r_cuCtxPopCurrent e = CUDA_SUCCESS ->
  Env.r_cuvidDecodePicture e <> CUDA_SUCCESS ->
  exists w1 w2,
    nvEndPicture e context w = (Val VA_STATUS_ERROR_DECODING_ERROR, w1) /\
    resolveSurfaces_iteration e' a w1 = (Val (), w2) /\
    new_events w1 w2 = [CondSignal (surfaceCond p)] /\
    nvSyncSurface render_target w2 = (Val VA_STATUS_SUCCESS, w2).
Proof.
  intros Ho Hobj Hrtid Hc Hrt Hs Hexit Hring Hsize Hpush Hpop Hdec.
  assert (Hap : a <> p) by congruence.
  pose proof Hring as (Hlen & Hr & Hn & Hw & _).
  assert (Hidx : 0 <= NVContext.surfaceQueueWriteIdx c < len (NVContext.surfaceQueue c)).
  { rewrite Hlen, Hw. apply Z.mod_pos_bound. lia. }
  destruct (nvEndPicture_run e w context o a p c s Ho Hobj Hc Hrt Hs Hidx Hpush Hpop)
    as (w1 & c1 & Hrun & Hdrv & _ & Hp1 & Ha1 & Hq & Hwi & Hri & Hex & _).
  rewrite (bool_decide_eq_true_2 _ Hdec) in Hrun, Hp1.
  assert (Hring1 : ring_holds c1 [p]).
  { pose proof (ring_holds_enqueue c [] p Hring) as H'.
    unfold ring_holds in *.
    cbn [NVContext.surfaceQueue NVContext.surfaceQueueReadIdx
         NVContext.surfaceQueueWriteIdx NVContext.set_queue] in H'.
    rewrite Hq, Hwi, Hri. apply H'. unfold len. cbn [length]. lia. }
  destruct (ring_holds_dequeue c1 [] p Hring1) as (Hne & Hslot & _).
  assert (Hr1 : 0 <= NVContext.surfaceQueueReadIdx c1) by (rewrite Hri; lia).
  destruct (resolveSurfaces_iteration_run e' w1 a p c1 _ Ha1 (eq_trans Hex Hexit)
              Hne Hr1 Hslot Hp1)
    as (w2 & Hrun2 & Hdrv2 & _ & _ & Hp2 & Hev2).
  cbn [NVSurface.decodeFailed NVSurface.set_decodeFailed orb] in Hp2, Hev2.
  exists w1, w2. split; [exact Hrun|]. split; [exact Hrun2|]. split; [exact Hev2|].
  unfold nvSyncSurface. rewrite get_drv_bind. cbn beta zeta.
  rewrite Hdrv2, Hdrv, Hrtid. msteps.
  cbn [NVSurface.resolving NVSurface.set_resolving].
  rewrite bool_decide_eq_false_2 by (intros H; by apply H). reflexivity.
Qed.

(** The picture is lost when the device context cannot be popped after the
    decode call: [nvEndPicture] returns before it enqueues the target, so
    on an idle Context the worker stays suspended on the resolve condition
    and [nvSyncSurface] suspends on a Surface that [nvBeginPicture] has
    marked as resolving. *)
Theorem pop_failure_leaves_sync_suspended
    (e e' : Env) (w : World) (context render_target : VAGenericID) (o : Object)
    (a p : addr) (c : NVContext) (s : NVSurface) :
  getObject (World.drv w) context = Some o -> Object_t.obj o = Some a ->
  getObjectPtr (World.drv w) render_target = Some p ->
  World.heap w !! a = Some (PContext c) ->
  World.heap w !! p = Some (PSurface s) ->
  NVSurface.resolving s <> 0 ->
  NVContext.exiting c = false ->
  NVContext.surfaceQueueReadIdx c = NVContext.surfaceQueueWriteIdx c ->
  Env.r_cuCtxPushCurrent e = CUDA_SUCCESS ->
  Env.r_cuCtxPopCurrent e <> CUDA_SUCCESS ->
  exists w',
    nvEndPicture e context w = (Return VA_STATUS_ERROR_OPERATION_FAILED, w') /\
    resolveSurfaces_iteration e' a w' = (Blocked (resolveCondition a), w') /\
    nvSyncSurface render_target w' = (Blocked (surfaceCond p), w').
Proof.
  intros Ho Hobj Hrtid Hc Hs Hres Hexit Hempty Hpush Hpop.
  assert (Hap : a <> p) by congruence.
  unfold nvEndPicture. rewrite get_drv_bind. rewrite Ho. cbn beta zeta. rewrite Hobj.
  msteps. eexists. split; [reflexivity|]. split.
  - unfold resolveSurfaces_iteration. msteps.
    cbn [NVContext.exiting NVContext.set_buffers NVContext.set_pPicParams
         NVContext.surfaceQueueReadIdx NVContext.surfaceQueueWriteIdx].
    rewrite Hexit, (bool_decide_eq_true_2 _ Hempty). reflexivity.
  - unfold nvSyncSurface. rewrite get_drv_bind. cbn beta zeta. wsimpl.
    rewrite Hrtid. msteps. by rewrite (bool_decide_eq_true_2 _ Hres).
Qed.

End SubmitProps.

Section CreateContextProps.
Context {hdr : Headers} {cds : Codecs}.

Lemma getObject_find (d : NVDriver) (id : VAGenericID) (o : Object) :
  getObject d id = Some o ->
  id <> VA_INVALID_ID /\ exists i, list_find (has_id id) (NVDriver.objects d) = Some (i, o).
Proof.
  unfold getObject. case_bool_decide; [|done].
  destruct (list_find _ _) as [[i o']|]; [|done]. intros [= ->]. eauto.
Qed.

Lemma getObjectPtr_find (d : NVDriver) (id : VAGenericID) (p : addr) :
  getObjectPtr d id = Some p ->
  exists o, getObject d id = Some o /\ Object_t.obj o = Some p.
Proof.
  unfold getObjectPtr. case_bool_decide; [|done].
  destruct (getObject d id) as [o|]; [|done]. eauto.
Qed.

Lemma deleteObject_run {R} (w : World) (id : VAGenericID) (i : nat) (o : Object) :
  id <> VA_INVALID_ID ->
  list_find (has_id id) (NVDriver.objects (World.drv w)) = Some (i, o) ->
  deleteObject (R := R) id w =
    (Val (),
     let w' := World.set_drv
                 (NVDriver.set_objects (delete i (NVDriver.objects (World.drv w)))
                    (World.drv w)) w in
     match Object_t.obj o with
     | Some p => World.dealloc p w'
     | None => w'
     end).
Proof.
  intros Hid Hfind. unfold deleteObject. rewrite bool_decide_eq_false_2 by done.
  rewrite get_drv_bind, Hfind. msteps. by destruct (Object_t.obj o).
Qed.

Lemma list_find_app_new (l : list Object) (new : Object) :
  Forall (fun o => Object_t.id o <> Object_t.id new) l ->
  list_find (has_id (Object_t.id new)) (l ++ [new]) = Some (length l, new).
Proof.
  intros Hall. rewrite list_find_app_r.
  - cbn. rewrite decide_True by done. reflexivity.
  - by apply list_find_None.
Qed.

Lemma delete_app_new {A} (l : list A) (x : A) : delete (length l) (l ++ [x]) = l.
Proof. induction l as [|y l IH]; [done|]. cbn. f_equal. exact IH. Qed.

(** The limit on the number of decode surfaces. *)
Lemma clamp_bind {R B} (n : Z) (f : Z -> M R B) (w : World) :
  ((if bool_decide (n > 32) then
      LOG "Application requested %d surface(s), limiting to 32. This may cause issues." [n];;
      mret 32
    else mret n) ≫= f) w =
  f (Z.min n 32)
    (if bool_decide (n > 32)
     then World.log
            (Log "Application requested %d surface(s), limiting to 32. This may cause issues." [n]) w
     else w).
Proof.
  case_bool_decide.
  - msteps. rewrite Z.min_r by lia. reflexivity.
  - msteps. rewrite Z.min_l by lia. reflexivity.
Qed.

Lemma nvCreateContext_run (e : Env) (w : World) (config_id : VAGenericID) (kp : addr)
    (k k' : NVConfig) (width height flag : Z) (render_targets : list VAGenericID)
    (sel : nat) :
  getObjectPtr (World.drv w) config_id = Some kp ->
  World.heap w !! kp = Some (PConfig k) ->
  selectCodec_from 0 nvd_codecs (NVConfig.profile k) None = Some sel ->
  config_after w render_targets k k' ->
  registry_wf (World.drv w) ->
  NVDriver.nextObjId (World.drv w) + 1 < 2 ^ 32 ->
  NVDriver.nextObjId (World.drv w) + 1 <> VA_INVALID_ID ->
  let n := len render_targets in
  let vdci := decoder_request k' width height n in
  let a := fresh (dom (World.heap w)) in
  let id := NVDriver.nextObjId (World.drv w) + 1 in
  exists w',
    nvCreateContext e config_id width height flag render_targets w =
      ((if bool_decide (Env.r_cuvidCtxLockCreate e <> CUDA_SUCCESS)
        then Return VA_STATUS_ERROR_OPERATION_FAILED
        else if bool_decide (Env.r_cuvidCreateDecoder e <> CUDA_SUCCESS)
        then Return VA_STATUS_ERROR_ALLOCATION_FAILED
        else if bool_decide (Env.r_pthread_create e <> 0)
        then Return VA_STATUS_ERROR_OPERATION_FAILED
        else Val VA_STATUS_SUCCESS), w') /\
    NVDriver.surfaceCount (World.drv w') = 0 /\
    World.heap w' !! kp = Some (PConfig k') /\
    (forall q, q <> kp -> q <> a -> World.heap w' !! q = World.heap w !! q) /\
    (Env.r_cuvidCtxLockCreate e = CUDA_SUCCESS ->
       Vendor (cuvidCreateDecoder vdci) ∈ new_events w w') /\
    (Env.r_cuvidCtxLockCreate e <> CUDA_SUCCESS \/ Env.r_cuvidCreateDecoder e <> CUDA_SUCCESS ->
       NVDriver.objects (World.drv w') = NVDriver.objects (World.drv w) /\
       NVDriver.nextObjId (World.drv w') = NVDriver.nextObjId (World.drv w) /\
       World.heap w' !! a = None) /\
    (Env.r_cuvidCtxLockCreate e = CUDA_SUCCESS -> Env.r_cuvidCreateDecoder e = CUDA_SUCCESS ->
     Env.r_pthread_create e <> 0 ->
       NVDriver.objects (World.drv w') = NVDriver.objects (World.drv w) /\
       NVDriver.nextObjId (World.drv w') = id /\
       World.heap w' !! a = None /\
       Vendor (pthread_create a) ∈ new_events w w' /\
       Out id ∉ new_events w w') /\
    (Env.r_cuvidCtxLockCreate e = CUDA_SUCCESS -> Env.r_cuvidCreateDecoder e = CUDA_SUCCESS ->
     Env.r_pthread_create e = 0 ->
       NVDriver.objects (World.drv w') =
         NVDriver.objects (World.drv w) ++ [Object_t.mk OBJECT_TYPE_CONTEXT id (Some a)] /\
       NVDriver.nextObjId (World.drv w') = id /\
       World.heap w' !! a =
         Some (PContext
                 (NVContext.mk (Some (Env.decoder_handle e)) (NVConfig.profile k')
                    (NVConfig.entrypoint k') (uint32 width) (uint32 height) (Some sel)
                    (CUVIDDECODECREATEINFO.ulNumDecodeSurfaces vdci) 0 None
                    CUVIDPICPARAMS.zero AppendableBuffer.empty AppendableBuffer.empty
                    (replicate (Z.to_nat SURFACE_QUEUE_SIZE) None) 0 0 false)) /\
       Vendor (pthread_create a) ∈ new_events w w' /\
       Out id ∈ new_events w w').
Proof.
  intros Hk Hkp Hsel Hcfg (Hnd & Hids & Hnext) Hwrap Hvalid n vdci a id.
  assert (Hu : uint32 (NVDriver.nextObjId (World.drv w) + 1) = id).
  { unfold uint32. apply Z.mod_small. lia. }
  assert (Hfresh : World.heap w !! a = None) by apply not_elem_of_dom, is_fresh.
  assert (Hakp : a <> kp) by congruence.
  assert (Hnew : Forall (fun o => Object_t.id o <> id) (NVDriver.objects (World.drv w))).
  { eapply Forall_impl; [exact Hids|]. cbn. intros o Ho. subst id. lia. }
  unfold nvCreateContext. rewrite get_drv_bind. cbn beta zeta. rewrite Hk.
  msteps. rewrite Hsel.
  assert (Hpre : exists w0 pre,
    World.drv w0 = World.drv w /\ World.heap w0 !! kp = Some (PConfig k') /\
    (forall q, q <> kp -> World.heap w0 !! q = World.heap w !! q) /\
    dom (World.heap w0) = dom (World.heap w) /\
    World.trace w0 = World.trace w ++ pre /\
    Forall (fun ev => exists fmt args, ev = Log fmt args) pre /\
    forall B (f : unit -> M VAStatus B),
      ((match render_targets with
        | [] => skip
        | rt0 :: _ =>
            match getObjectPtr (World.drv w) rt0 with
            | Some _ =>
                s ← loadSurface (getObjectPtr (World.drv w) rt0);
                modifyConfig (Some kp)
                  (NVConfig.set_surface (NVSurface.format s) (NVSurface.chromaFormat s)
                     (NVSurface.bitDepth s))
            | None => return_ VA_STATUS_ERROR_INVALID_PARAMETER
            end
        end) ≫= f)
        (World.log
           (Log "creating context with %d render targets, %d surfaces, at %dx%d"
              [len render_targets; NVDriver.surfaceCount (World.drv w); width; height]) w)
      = f () w0).
  { set (ev := Log "creating context with %d render targets, %d surfaces, at %dx%d"
                 [len render_targets; NVDriver.surfaceCount (World.drv w); width; height]).
    assert (Hlog : Forall (fun ev => exists fmt args, ev = Log fmt args) [ev]).
    { apply Forall_singleton. by eexists _, _. }
    destruct render_targets as [|rt0 rts].
    - cbn in Hcfg. subst k'. exists (World.log ev w), [ev].
      split_and!; try done; intros B f; msteps; reflexivity.
    - destruct Hcfg as (sp & s & Hsp & Hs & ->).
      exists (World.upd kp (PConfig (NVConfig.set_surface (NVSurface.format s)
                                       (NVSurface.chromaFormat s) (NVSurface.bitDepth s) k))
                (World.log ev w)), [ev].
      split_and!; wsimpl; try done.
      + apply lookup_insert_eq.
      + intros q Hq. by rewrite lookup_insert_ne.
      + apply dom_insert_lookup_L. by rewrite Hkp.
      + intros B f. rewrite Hsp. msteps. reflexivity. }
  destruct Hpre as (w0 & pre & Hdrv0 & Hkp0 & Hframe0 & Hdom0 & Htrace0 & Hlogs & Hrun0).
  rewrite Hrun0. clear Hrun0. rewrite clamp_bind. cbn beta.
  fold n.
  match goal with
  | |- context [if bool_decide (?x > 32) then World.log ?ev0 w0 else w0] =>
      assert (Hcl : exists w1 pre1,
        w1 = (if bool_decide (x > 32) then World.log ev0 w0 else w0) /\
        World.drv w1 = World.drv w /\ World.heap w1 !! kp = Some (PConfig k') /\
        (forall q, q <> kp -> World.heap w1 !! q = World.heap w !! q) /\
        dom (World.heap w1) = dom (World.heap w) /\
        World.trace w1 = World.trace w ++ pre1 /\
        Forall (fun x0 => exists fmt args, x0 = Log fmt args) pre1)
  end.
  { case_bool_decide.
    - eexists _, (pre ++ [_]). split; [reflexivity|]. wsimpl.
      split_and!; try done; [by rewrite Htrace0, app_assoc|].
      apply Forall_app. split; [done|]. apply Forall_singleton. by eexists _, _.
    - by exists w0, pre. }
  destruct Hcl as (w1 & pre1 & Hw1 & Hdrv1 & Hkp1 & Hframe1 & Hdom1 & Htrace1 & Hlogs1).
  rewrite <- Hw1. clear Hw1 Hdrv0 Hkp0 Hframe0 Hdom0 Htrace0 Hlogs w0 pre.
  msteps. subst vdci. unfold decoder_request. fold n.
  destruct (round_dims int32 (NVConfig.chromaFormat k') width height) as [dw dh] eqn:Hdims.
  msteps. rewrite Hdrv1.
  assert (Hev : forall w' evs, World.trace w' = World.trace w1 ++ evs ->
                new_events w w' = pre1 ++ evs).
  { intros w' evs Ht. apply new_events_app. by rewrite Ht, Htrace1, app_assoc. }
  assert (Hnolog : forall v, Out v ∉ pre1).
  { intros v Hin. rewrite Forall_forall in Hlogs1.
    destruct (Hlogs1 _ Hin) as (? & ? & ?). done. }
  destruct (decide (Env.r_cuvidCtxLockCreate e = CUDA_SUCCESS)) as [Hlock|Hlock].
  2: { rewrite (bool_decide_eq_true_2 (Env.r_cuvidCtxLockCreate e <> CUDA_SUCCESS)) by done.
       msteps. eexists. split; [reflexivity|]. wsimpl.
       split; [reflexivity|]. split; [exact Hkp1|].
       split; [intros q Hq _; by apply Hframe1|].
       split; [done|]. split; [|split; intros; done].
       intros _. split; [done|]. split; [done|].
       rewrite Hframe1 by done. exact Hfresh. }
  rewrite (bool_decide_eq_false_2 (Env.r_cuvidCtxLockCreate e <> CUDA_SUCCESS)) by tauto.
  msteps.
  destruct (decide (Env.r_cuvidCreateDecoder e = CUDA_SUCCESS)) as [Hdec|Hdec].
  2: { rewrite (bool_decide_eq_true_2 (Env.r_cuvidCreateDecoder e <> CUDA_SUCCESS)) by done.
       msteps. eexists. split; [reflexivity|]. wsimpl.
       split; [reflexivity|]. split; [exact Hkp1|].
       split; [intros q Hq _; by apply Hframe1|].
       split.
       { intros _. erewrite Hev; [|wsimpl; by rewrite <- !app_assoc].
         apply elem_of_app. right. by repeat constructor. }
       split; [|split; intros; done].
       intros _. split; [done|]. split; [done|].
       rewrite Hframe1 by done. exact Hfresh. }
  rewrite (bool_decide_eq_false_2 (Env.r_cuvidCreateDecoder e <> CUDA_SUCCESS)) by tauto.
  msteps. unfold allocateObject. msteps. wsimpl.
  cbn [NVDriver.nextObjId NVDriver.set_surfaceCount NVDriver.objects NVDriver.set_nextObjId].
  rewrite ?Hdrv1, ?Hdom1, Hu. fold a.
  cbn [Object_t.obj Object_t.id]. msteps.
  destruct (decide (Env.r_pthread_create e = 0)) as [Hthr|Hthr].
  - rewrite (bool_decide_eq_false_2 (Env.r_pthread_create e <> 0)) by tauto.
    msteps. rewrite mret_run.
    eexists. split; [reflexivity|]. wsimpl.
    split; [reflexivity|].
    split; [by rewrite lookup_insert_ne, lookup_insert_ne|].
    split; [intros q Hq Hqa; rewrite !lookup_insert_ne by done; by apply Hframe1|].
    split.
    { intros _. erewrite Hev; [|wsimpl; by rewrite <- !app_assoc].
      apply elem_of_app. right. by repeat constructor. }
    split; [intros [?|?]; done|]. split; [intros; done|].
    intros _ _ _. split; [reflexivity|]. split; [reflexivity|].
    split; [by rewrite lookup_insert_eq|].
    split.
    + erewrite Hev; [|wsimpl; by rewrite <- !app_assoc].
      apply elem_of_app. right. by repeat constructor.
    + erewrite Hev; [|wsimpl; by rewrite <- !app_assoc].
      apply elem_of_app. right. by repeat constructor.
  - rewrite (bool_decide_eq_true_2 (Env.r_pthread_create e <> 0)) by done.
    msteps.
    erewrite bind_Val;
      [|apply (deleteObject_run _ id (length (NVDriver.objects (World.drv w)))
                 (Object_t.mk OBJECT_TYPE_CONTEXT id (Some a))); [done|];
        wsimpl; apply (list_find_app_new _ (Object_t.mk OBJECT_TYPE_CONTEXT id (Some a)) Hnew)].
    cbn zeta. cbn [Object_t.obj]. wsimpl.
    cbn [NVDriver.objects NVDriver.set_objects]. rewrite delete_app_new.
    eexists. split; [reflexivity|]. wsimpl.
    split; [reflexivity|].
    split; [by rewrite lookup_delete_ne, lookup_insert_ne, lookup_insert_ne|].
    split; [intros q Hq Hqa; rewrite lookup_delete_ne, !lookup_insert_ne by done;
            by apply Hframe1|].
    split.
    { intros _. erewrite Hev; [|wsimpl; by rewrite <- !app_assoc].
      apply elem_of_app. right. by repeat constructor. }
    split; [intros [?|?]; done|]. split; [|intros; done].
    intros _ _ _. split; [reflexivity|]. split; [reflexivity|].
    split; [by rewrite lookup_delete_eq|].
    split.
    + erewrite Hev; [|wsimpl; by rewrite <- !app_assoc].
      apply elem_of_app. right. by repeat constructor.
    + erewrite Hev; [|wsimpl; by rewrite <- !app_assoc].
      intros [Hin|Hin]%elem_of_app; [by apply (Hnolog id)|].
      set_unfold in Hin. intuition discriminate.
Qed.

(** [nvCreateContext] forgets the surfaces that [nvCreateSurfaces2] has
    counted: once the parameter checks have passed it sets
    [drv->surfaceCount] to 0, before the decoder is created and whatever
    becomes of the call. *)
Theorem nvCreateContext_resets_surface_count
    (e : Env) (w : World) (config_id : VAGenericID) (kp : addr)
    (k k' : NVConfig) (width height flag : Z) (render_targets : list VAGenericID)
    (sel : nat) :
  getObjectPtr (World.drv w) config_id = Some kp ->
  World.heap w !! kp = Some (PConfig k) ->
  selectCodec_from 0 nvd_codecs (NVConfig.profile k) None = Some sel ->
  config_after w render_targets k k' ->
  registry_wf (World.drv w) ->
  NVDriver.nextObjId (World.drv w) + 1 < 2 ^ 32 ->
  NVDriver.nextObjId (World.drv w) + 1 <> VA_INVALID_ID ->
  NVDriver.surfaceCount
    (World.drv (after (nvCreateContext e config_id width height flag render_targets) w)) = 0.
Proof.
  intros Hk Hkp Hsel Hcfg Hwf Hwrap Hvalid.
  destruct (nvCreateContext_run e w config_id kp k k' width height flag render_targets sel
              Hk Hkp Hsel Hcfg Hwf Hwrap Hvalid) as (w' & Hrun & Hcount & _).
  unfold after. by rewrite Hrun.
Qed.

(** When the resolve thread cannot be started, [nvCreateContext] takes the
    Context object out of the registry again and frees its cell: the
    registry is as before the call and no id is written to [*context].
    The id is used up all the same, and the Config keeps the surface
    parameters the call has written into it. *)
Theorem nvCreateContext_thread_failure_rolls_back
    (e : Env) (w : World) (config_id : VAGenericID) (kp : addr)
    (k k' : NVConfig) (width height flag : Z) (render_targets : list VAGenericID)
    (sel : nat) :
  getObjectPtr (World.drv w) config_id = Some kp ->
  World.heap w !! kp = Some (PConfig k) ->
  selectCodec_from 0 nvd_codecs (NVConfig.profile k) None = Some sel ->
  config_after w render_targets k k' ->
  registry_wf (World.drv w) ->
  NVDriver.nextObjId (World.drv w) + 1 < 2 ^ 32 ->
  NVDriver.nextObjId (World.drv w) + 1 <> VA_INVALID_ID ->
  Env.r_cuvidCtxLockCreate e = CUDA_SUCCESS ->
  Env.r_cuvidCreateDecoder e = CUDA_SUCCESS ->
  Env.r_pthread_create e <> 0 ->
  exists w',
    nvCreateContext e config_id width height flag render_targets w
      = (Return VA_STATUS_ERROR_OPERATION_FAILED, w') /\
    NVDriver.objects (World.drv w') = NVDriver.objects (World.drv w) /\
    (forall q, q <> kp -> World.heap w' !! q = World.heap w !! q) /\
    World.heap w' !! kp = Some (PConfig k') /\
    NVDriver.nextObjId (World.drv w') = NVDriver.nextObjId (World.drv w) + 1 /\
    Out (NVDriver.nextObjId (World.drv w) + 1) ∉ new_events w w'.
Proof.
  intros Hk Hkp Hsel Hcfg Hwf Hwrap Hvalid Hlock Hdec Hthr.
  destruct (nvCreateContext_run e w config_id kp k k' width height flag render_targets sel
              Hk Hkp Hsel Hcfg Hwf Hwrap Hvalid)
    as (w' & Hrun & _ & Hcfg' & Hframe & _ & _ & Hfail & _).
  destruct (Hfail Hlock Hdec Hthr) as (Hobjs & Hnext & Ha & _ & Hout).
  rewrite (bool_decide_eq_false_2 (Env.r_cuvidCtxLockCreate e <> CUDA_SUCCESS)) in Hrun by tauto.
  rewrite (bool_decide_eq_false_2 (Env.r_cuvidCreateDecoder e <> CUDA_SUCCESS)) in Hrun by tauto.
  rewrite (bool_decide_eq_true_2 (Env.r_pthread_create e <> 0)) in Hrun by done.
  exists w'. split; [exact Hrun|]. split; [exact Hobjs|].
  split; [|split; [exact Hcfg'|split; [exact Hnext|exact Hout]]].
  intros q Hq. destruct (decide (q = fresh (dom (World.heap w)))) as [->|Hqa].
  - rewrite Ha. symmetry. apply not_elem_of_dom, is_fresh.
  - by apply Hframe.
Qed.

(** A Context that [nvCreateContext] creates: it is registered under the
    next id, which is written to [*context]; it asks the decoder for as
    many decode surfaces as there are render targets, for 32 when there are
    none, and never for more than 32, and this number bounds its picture
    indices; its resolve ring is empty. *)
Theorem nvCreateContext_creates
    (e : Env) (w : World) (config_id : VAGenericID) (kp : addr)
    (k k' : NVConfig) (width height flag : Z) (render_targets : list VAGenericID)
    (sel : nat) :
  getObjectPtr (World.drv w) config_id = Some kp ->
  World.heap w !! kp = Some (PConfig k) ->
  selectCodec_from 0 nvd_codecs (NVConfig.profile k) None = Some sel ->
  config_after w render_targets k k' ->
  registry_wf (World.drv w) ->
  NVDriver.nextObjId (World.drv w) + 1 < 2 ^ 32 ->
  NVDriver.nextObjId (World.drv w) + 1 <> VA_INVALID_ID ->
  0 < SURFACE_QUEUE_SIZE ->
  Env.r_cuvidCtxLockCreate e = CUDA_SUCCESS ->
  Env.r_cuvidCreateDecoder e = CUDA_SUCCESS ->
  Env.r_pthread_create e = 0 ->
  let id := NVDriver.nextObjId (World.drv w) + 1 in
  let count := if bool_decide (render_targets = []) then 32
               else Z.min (len render_targets) 32 in
  exists w' a c vdci,
    nvCreateContext e config_id width height flag render_targets w
      = (Val VA_STATUS_SUCCESS, w') /\
    getObject (World.drv w) id = None /\
    getObject (World.drv w') id = Some (Object_t.mk OBJECT_TYPE_CONTEXT id (Some a)) /\
    Out id ∈ new_events w w' /\
    World.heap w !! a = None /\
    World.heap w' !! a = Some (PContext c) /\
    Vendor (cuvidCreateDecoder vdci) ∈ new_events w w' /\
    Vendor (pthread_create a) ∈ new_events w w' /\
    CUVIDDECODECREATEINFO.ulNumDecodeSurfaces vdci = count /\
    NVContext.surfaceCount c = count /\
    1 <= count <= 32 /\
    NVContext.currentPictureId c = 0 /\
    NVContext.codec c = Some sel /\
    NVContext.renderTarget c = None /\
    NVContext.exiting c = false /\
    ring_holds c [].
Proof.
  intros Hk Hkp Hsel Hcfg Hwf Hwrap Hvalid Hsize Hlock Hdec Hthr id count.
  destruct (nvCreateContext_run e w config_id kp k k' width height flag render_targets sel
              Hk Hkp Hsel Hcfg Hwf Hwrap Hvalid)
    as (w' & Hrun & _ & _ & _ & Hreq & _ & _ & Hok).
  destruct (Hok Hlock Hdec Hthr) as (Hobjs & Hnext & Ha & Hthread & Hout).
  rewrite (bool_decide_eq_false_2 (Env.r_cuvidCtxLockCreate e <> CUDA_SUCCESS)) in Hrun by tauto.
  rewrite (bool_decide_eq_false_2 (Env.r_cuvidCreateDecoder e <> CUDA_SUCCESS)) in Hrun by tauto.
  rewrite (bool_decide_eq_false_2 (Env.r_pthread_create e <> 0)) in Hrun by tauto.
  assert (Hcount : CUVIDDECODECREATEINFO.ulNumDecodeSurfaces
                     (decoder_request k' width height (len render_targets)) = count).
  { unfold decoder_request.
    destruct (round_dims int32 (NVConfig.chromaFormat k') width height) as [dw dh].
    cbn [CUVIDDECODECREATEINFO.ulNumDecodeSurfaces]. subst count.
    destruct render_targets as [|rt0 rts].
    - rewrite bool_decide_eq_false_2 by (unfold len; cbn; lia).
      rewrite bool_decide_eq_true_2 by done. lia.
    - rewrite bool_decide_eq_true_2 by (unfold len; cbn [length]; lia).
      by rewrite bool_decide_eq_false_2 by done. }
  assert (Hnone : getObject (World.drv w) id = None).
  { apply getObject_None. intros (o & Ho & Hin)%list_elem_of_fmap.
    destruct Hwf as (_ & Hids & _). rewrite Forall_forall in Hids.
    specialize (Hids o Hin). subst id. lia. }
  eexists w', _, _, _. split; [exact Hrun|]. split; [exact Hnone|].
  split.
  { pose proof (getObject_append (World.drv w)
                  (Object_t.mk OBJECT_TYPE_CONTEXT id (Some (fresh (dom (World.heap w)))))) as Happ.
    cbn zeta in Happ. destruct (Happ id) as [_ Hnewobj].
    unfold getObject in *. rewrite Hobjs. cbn [NVDriver.objects NVDriver.set_objects] in Hnewobj.
    by apply Hnewobj. }
  split; [exact Hout|]. split; [apply not_elem_of_dom, is_fresh|].
  split; [exact Ha|]. split; [by apply Hreq|]. split; [exact Hthread|].
  split; [exact Hcount|].
  cbn [NVContext.surfaceCount NVContext.currentPictureId NVContext.codec
       NVContext.renderTarget NVContext.exiting].
  split; [exact Hcount|]. split.
  { subst count. case_bool_decide as Hnil; [lia|].
    destruct render_targets; [done|]. unfold len. cbn [length]. lia. }
  split_and!; try reflexivity.
  unfold ring_holds. cbn [NVContext.surfaceQueue NVContext.surfaceQueueReadIdx
                          NVContext.surfaceQueueWriteIdx].
  split_and!; try done; try lia.
  unfold len. rewrite length_replicate. lia.
Qed.

(** With render targets, [nvCreateContext] takes the surface parameters
    from the first of them and not from the Config: it writes them into the
    Config object, where they stay even when the call fails afterwards, and
    it asks the decoder for them.  The other render targets are not looked
    up. *)
Theorem nvCreateContext_adopts_first_render_target
    (e : Env) (w : World) (config_id rt0 : VAGenericID) (kp sp : addr)
    (k : NVConfig) (s : NVSurface) (width height flag : Z) (rts : list VAGenericID)
    (sel : nat) :
  getObjectPtr (World.drv w) config_id = Some kp ->
  World.heap w !! kp = Some (PConfig k) ->
  selectCodec_from 0 nvd_codecs (NVConfig.profile k) None = Some sel ->
  getObjectPtr (World.drv w) rt0 = Some sp ->
  World.heap w !! sp = Some (PSurface s) ->
  registry_wf (World.drv w) ->
  NVDriver.nextObjId (World.drv w) + 1 < 2 ^ 32 ->
  NVDriver.nextObjId (World.drv w) + 1 <> VA_INVALID_ID ->
  exists out w' k',
    nvCreateContext e config_id width height flag (rt0 :: rts) w = (out, w') /\
    World.heap w' !! kp = Some (PConfig k') /\
    NVConfig.surfaceFormat k' = NVSurface.format s /\
    NVConfig.chromaFormat k' = NVSurface.chromaFormat s /\
    NVConfig.bitDepth k' = NVSurface.bitDepth s /\
    NVConfig.profile k' = NVConfig.profile k /\
    NVConfig.cudaCodec k' = NVConfig.cudaCodec k /\
    (Env.r_cuvidCtxLockCreate e = CUDA_SUCCESS ->
     exists vdci, Vendor (cuvidCreateDecoder vdci) ∈ new_events w w' /\
       CUVIDDECODECREATEINFO.OutputFormat vdci = NVSurface.format s /\
       CUVIDDECODECREATEINFO.ChromaFormat vdci = NVSurface.chromaFormat s /\
       CUVIDDECODECREATEINFO.bitDepthMinus8 vdci = NVSurface.bitDepth s - 8 /\
       CUVIDDECODECREATEINFO.CodecType vdci = NVConfig.cudaCodec k).
Proof.
  intros Hk Hkp Hsel Hsp Hs Hwf Hwrap Hvalid.
  set (k' := NVConfig.set_surface (NVSurface.format s) (NVSurface.chromaFormat s)
               (NVSurface.bitDepth s) k).
  assert (Hcfg : config_after w (rt0 :: rts) k k') by (cbn; eauto).
  destruct (nvCreateContext_run e w config_id kp k k' width height flag (rt0 :: rts) sel
              Hk Hkp Hsel Hcfg Hwf Hwrap Hvalid)
    as (w' & Hrun & _ & Hcfg' & _ & Hreq & _).
  eexists _, w', k'. split; [exact Hrun|]. split; [exact Hcfg'|].
  split_and!; try reflexivity.
  intros Hlock. eexists. split; [by apply Hreq|].
  unfold decoder_request.
  by destruct (round_dims int32 (NVConfig.chromaFormat k') width height).
Qed.

(** What [nvCreateContext] refuses: an id that yields no Config, a Config
    whose profile no codec of the table supports, a first render target
    that yields no Surface.  Registry and store are then as before; in
    particular the surface count is not reset. *)
Theorem nvCreateContext_rejects
    (e : Env) (w : World) (config_id : VAGenericID)
    (width height flag : Z) (render_targets : list VAGenericID) :
  (getObjectPtr (World.drv w) config_id = None ->
     nvCreateContext e config_id width height flag render_targets w
       = (Return VA_STATUS_ERROR_INVALID_CONFIG, w)) /\
  (forall kp k,
     getObjectPtr (World.drv w) config_id = Some kp ->
     World.heap w !! kp = Some (PConfig k) ->
     exists out w',
       nvCreateContext e config_id width height flag render_targets w = (out, w') /\
       (selectCodec_from 0 nvd_codecs (NVConfig.profile k) None = None ->
          out = Return VA_STATUS_ERROR_UNSUPPORTED_PROFILE /\
          World.drv w' = World.drv w /\ World.heap w' = World.heap w) /\
       (forall sel rt0 rts,
          selectCodec_from 0 nvd_codecs (NVConfig.profile k) None = Some sel ->
          render_targets = rt0 :: rts ->
          getObjectPtr (World.drv w) rt0 = None ->
          out = Return VA_STATUS_ERROR_INVALID_PARAMETER /\
          World.drv w' = World.drv w /\ World.heap w' = World.heap w)).
Proof.
  split.
  - intros Hnone. unfold nvCreateContext. rewrite get_drv_bind. cbn beta zeta.
    by rewrite Hnone.
  - intros kp k Hk Hkp.
    destruct (nvCreateContext e config_id width height flag render_targets w)
      as [out w'] eqn:Hrun.
    exists out, w'. split; [reflexivity|].
    unfold nvCreateContext in Hrun. rewrite get_drv_bind in Hrun. cbn beta zeta in Hrun.
    rewrite Hk in Hrun. revert Hrun. msteps. intros Hrun. split.
    + intros Hsel. rewrite Hsel in Hrun. revert Hrun. msteps. by intros [= <- <-].
    + intros sel rt0 rts Hsel -> Hrt. rewrite Hsel, Hrt in Hrun.
      revert Hrun. msteps. by intros [= <- <-].
Qed.

End CreateContextProps.

(** ** The codec table *)

Section CodecScanProps.

Lemma selectCodec_from_snoc (i : nat) (cs : list NVCodec) (c : NVCodec)
    (profile : VAProfile) (sel : option nat) :
  selectCodec_from i (cs ++ [c]) profile sel =
    if bool_decide (profile ∈ NVCodec.supportedProfiles c)
    then Some (i + length cs)%nat
    else selectCodec_from i cs profile sel.
Proof.
  revert i sel. induction cs as [|c0 cs IH]; intros i sel.
  - cbn. by rewrite Nat.add_0_r.
  - cbn [app selectCodec_from length]. rewrite IH.
    case_bool_decide; [f_equal; lia|done].
Qed.

(** The scan of [nvCreateContext] goes through the whole codec table and
    keeps the last codec that lists the profile; it finds none exactly when
    no codec lists it. *)
Lemma selectCodec_from_last_match (cs : list NVCodec) (profile : VAProfile) :
  (forall k : nat,
     selectCodec_from 0 cs profile None = Some k <->
     exists c, cs !! k = Some c /\ profile ∈ NVCodec.supportedProfiles c /\
       forall (j : nat) c', (k < j)%nat -> cs !! j = Some c' ->
         profile ∉ NVCodec.supportedProfiles c') /\
  (selectCodec_from 0 cs profile None = None <->
     forall c, c ∈ cs -> profile ∉ NVCodec.supportedProfiles c).
Proof.
  induction cs as [|c cs [IHk IHn]] using rev_ind.
  - split.
    + intros k. cbn. split; [done|]. by intros (c & Hc & _).
    + cbn. split; [|done]. intros _ c Hc. by apply elem_of_nil in Hc.
  - rewrite selectCodec_from_snoc. cbn [Nat.add]. case_bool_decide as Hin.
    + split.
      * intros k. split.
        -- intros [= <-]. exists c. split; [by apply list_lookup_middle|].
           split; [done|]. intros j c' Hj Hlook.
           apply lookup_lt_Some in Hlook. rewrite length_app in Hlook. cbn in Hlook. lia.
        -- intros (c0 & Hk & Hc0 & Hlater).
           destruct (lt_eq_lt_dec k (length cs)) as [[Hlt|Heq]|Hgt].
           ++ exfalso. apply (Hlater (length cs) c Hlt); [by apply list_lookup_middle|done].
           ++ by rewrite Heq.
           ++ apply lookup_lt_Some in Hk. rewrite length_app in Hk. cbn in Hk. lia.
      * split; [done|]. intros Hall. exfalso. apply (Hall c); [|done].
        apply elem_of_app. right. apply list_elem_of_here.
    + split.
      * intros k. rewrite IHk. split.
        -- intros (c0 & Hk & Hc0 & Hlater). exists c0.
           split; [by apply lookup_app_l_Some|]. split; [done|].
           intros j c' Hj Hlook. apply lookup_app_Some in Hlook as [Hl|[_ Hr]].
           ++ by apply (Hlater j).
           ++ destruct (j - length cs)%nat; [|done]. by injection Hr as <-.
        -- intros (c0 & Hk & Hc0 & Hlater).
           apply lookup_app_Some in Hk as [Hl|[Hge Hr]].
           ++ exists c0. split; [done|]. split; [done|].
              intros j c' Hj Hlook. apply (Hlater j c' Hj). by apply lookup_app_l_Some.
           ++ destruct (k - length cs)%nat; [|done]. by injection Hr as <-.
      * rewrite IHn. split.
        -- intros Hall c0 [Hc0|Hc0]%elem_of_app; [by apply Hall|].
           apply list_elem_of_singleton in Hc0. by subst.
        -- intros Hall c0 Hc0. apply Hall, elem_of_app. by left.
Qed.

(** The scan of [vaToCuCodec] stops at the first codec that maps the
    profile to a decoder codec; it answers NONE exactly when no codec of
    the table maps the profile. *)
Lemma vaToCuCodec_first_match (cs : list NVCodec) (profile : VAProfile) :
  (forall cvc, cvc <> cudaVideoCodec_NONE ->
     vaToCuCodec_from cs profile = cvc <->
     exists (k : nat) c, cs !! k = Some c /\ NVCodec.computeCudaCodec c profile = cvc /\
       forall (j : nat) c', (j < k)%nat -> cs !! j = Some c' ->
         NVCodec.computeCudaCodec c' profile = cudaVideoCodec_NONE) /\
  (vaToCuCodec_from cs profile = cudaVideoCodec_NONE <->
     forall c, c ∈ cs -> NVCodec.computeCudaCodec c profile = cudaVideoCodec_NONE).
Proof.
  induction cs as [|c cs [IHk IHn]].
  - split.
    + intros cvc Hcvc. cbn. split; [by intros <-|]. by intros (k & c & Hc & _).
    + cbn. split; [|done]. intros _ c Hc. by apply elem_of_nil in Hc.
  - cbn [vaToCuCodec_from]. case_bool_decide as Hhit.
    + split.
      * intros cvc Hcvc. split.
        -- intros <-. exists 0%nat, c. split; [done|]. split; [done|]. intros j c' Hj. lia.
        -- intros (k & c0 & Hk & Hc0 & Hearlier). destruct k as [|k].
           ++ cbn in Hk. by injection Hk as <-.
           ++ exfalso. apply Hhit. apply (Hearlier 0%nat c); [lia|done].
      * split; [done|]. intros Hall. exfalso. apply Hhit, Hall, list_elem_of_here.
    + split.
      * intros cvc Hcvc. rewrite (IHk cvc Hcvc). split.
        -- intros (k & c0 & Hk & Hc0 & Hearlier). exists (S k), c0.
           split; [done|]. split; [done|]. intros [|j] c' Hj Hlook.
           ++ cbn in Hlook. by injection Hlook as <-.
           ++ apply (Hearlier j c'); [lia|done].
        -- intros (k & c0 & Hk & Hc0 & Hearlier). destruct k as [|k].
           ++ cbn in Hk. injection Hk as <-. congruence.
           ++ exists k, c0. split; [done|]. split; [done|].
              intros j c' Hj Hlook. apply (Hearlier (S j) c'); [lia|done].
      * rewrite IHn. split.
        -- intros Hall c0 [->|Hc0]%elem_of_cons; [done|by apply Hall].
        -- intros Hall c0 Hc0. apply Hall. by apply list_elem_of_further.
Qed.

(** The two scans of the codec table differ: [vaToCuCodec], which
    [nvCreateConfig] uses, answers with the first codec module that maps
    the profile; the scan of [nvCreateContext] goes on to the end of the
    table and keeps the last module that lists the profile.  Each finds
    nothing exactly when no module maps, or lists, the profile. *)
Theorem codec_table_scans (cs : list NVCodec) (profile : VAProfile) :
  ((forall cvc, cvc <> cudaVideoCodec_NONE ->
      vaToCuCodec_from cs profile = cvc <->
      exists (k : nat) c, cs !! k = Some c /\ NVCodec.computeCudaCodec c profile = cvc /\
        forall (j : nat) c', (j < k)%nat -> cs !! j = Some c' ->
          NVCodec.computeCudaCodec c' profile = cudaVideoCodec_NONE) /\
   (vaToCuCodec_from cs profile = cudaVideoCodec_NONE <->
      forall c, c ∈ cs -> NVCodec.computeCudaCodec c profile = cudaVideoCodec_NONE)) /\
  ((forall k : nat,
      selectCodec_from 0 cs profile None = Some k <->
      exists c, cs !! k = Some c /\ profile ∈ NVCodec.supportedProfiles c /\
        forall (j : nat) c', (k < j)%nat -> cs !! j = Some c' ->
          profile ∉ NVCodec.supportedProfiles c') /\
   (selectCodec_from 0 cs profile None = None <->
      forall c, c ∈ cs -> profile ∉ NVCodec.supportedProfiles c)).
Proof.
  split; [apply vaToCuCodec_first_match|apply selectCodec_from_last_match].
Qed.

End CodecScanProps.

(** ** Surfaces *)

Section SurfaceProps.
Context {hdr : Headers} {cds : Codecs}.

Lemma registry_wf_append (d : NVDriver) (type : ObjectType) (p : option addr) :
  registry_wf d -> NVDriver.nextObjId d + 1 < 2 ^ 32 ->
  registry_wf
    (NVDriver.set_objects
       (NVDriver.objects d ++ [Object_t.mk type (NVDriver.nextObjId d + 1) p])
       (NVDriver.set_nextObjId (NVDriver.nextObjId d + 1) d)).
Proof.
  intros (Hnd & Hids & Hnext) Hwrap. unfold registry_wf.
  cbn [NVDriver.objects NVDriver.set_objects NVDriver.nextObjId NVDriver.set_nextObjId].
  split; [|split; [|lia]].
  - rewrite fmap_app. apply NoDup_app. split_and!; [done| |apply NoDup_singleton].
    intros x Hx Hx'. apply list_elem_of_singleton in Hx'. subst x.
    apply list_elem_of_fmap in Hx as (o & Ho & Hin).
    rewrite Forall_forall in Hids. specialize (Hids o Hin). cbn in Ho. lia.
  - apply Forall_app. split.
    + eapply Forall_impl; [exact Hids|]. cbn. intros o Ho. lia.
    + apply Forall_singleton. cbn. lia.
Qed.

Lemma registry_wf_unknown (d : NVDriver) (id : VAGenericID) :
  registry_wf d -> NVDriver.nextObjId d < id -> getObject d id = None.
Proof.
  intros (_ & Hids & _) Hid. apply getObject_None.
  intros (o & Ho & Hin)%list_elem_of_fmap.
  rewrite Forall_forall in Hids. specialize (Hids o Hin). lia.
Qed.

Lemma allocateObject_bind {R B} (type : ObjectType) (zero : Payload)
    (f : Object -> M R B) (w : World) :
  (allocateObject type zero ≫= f) w =
    let p := fresh (dom (World.heap w)) in
    let id := uint32 (NVDriver.nextObjId (World.drv w) + 1) in
    f (Object_t.mk type id (Some p))
      (World.set_drv
         (NVDriver.set_objects
            (NVDriver.objects (World.drv w) ++ [Object_t.mk type id (Some p)])
            (NVDriver.set_nextObjId id (World.drv w)))
         (World.upd p zero w)).
Proof. unfold allocateObject. msteps. reflexivity. Qed.

Lemma outs_app (l k : list Event) : outs (l ++ k) = outs l ++ outs k.
Proof. unfold outs. apply omap_app. Qed.

(** The loop of [nvCreateSurfaces2]. *)
Lemma nvCreateSurfaces2_loop (S0 : NVSurface) (args : list Z) (m start : nat) (w : World) :
  registry_wf (World.drv w) ->
  NVDriver.nextObjId (World.drv w) + Z.of_nat m < 2 ^ 32 ->
  (forall i, 0 < i <= Z.of_nat m -> NVDriver.nextObjId (World.drv w) + i <> VA_INVALID_ID) ->
  exists w' evs,
    for_each (R := VAStatus) (seq start m) (fun _ =>
      surfaceObject ← allocateObject OBJECT_TYPE_SURFACE (PSurface NVSurface.zero);
      emit (Out (Object_t.id surfaceObject));;
      store (Object_t.obj surfaceObject) (PSurface S0);;
      LOG "Creating surface %dx%d, format %X (%p)" args) w = (Val (), w') /\
    registry_wf (World.drv w') /\
    NVDriver.nextObjId (World.drv w') = NVDriver.nextObjId (World.drv w) + Z.of_nat m /\
    NVDriver.surfaceCount (World.drv w') = NVDriver.surfaceCount (World.drv w) /\
    (forall id, id <= NVDriver.nextObjId (World.drv w) ->
       getObject (World.drv w') id = getObject (World.drv w) id) /\
    (forall i, 0 < i <= Z.of_nat m ->
       exists p,
         getObject (World.drv w') (NVDriver.nextObjId (World.drv w) + i)
           = Some (Object_t.mk OBJECT_TYPE_SURFACE (NVDriver.nextObjId (World.drv w) + i)
                     (Some p)) /\
         World.heap w !! p = None /\ World.heap w' !! p = Some (PSurface S0)) /\
    (forall q v, World.heap w !! q = Some v -> World.heap w' !! q = Some v) /\
    World.trace w' = World.trace w ++ evs /\
    outs evs = (fun i => NVDriver.nextObjId (World.drv w) + i) <$> seqZ 1 (Z.of_nat m).
Proof.
  revert start w. induction m as [|m IH]; intros start w Hwf Hwrap Hvalid.
  - exists w, []. cbn [seq for_each]. split; [reflexivity|].
    split; [done|]. split; [lia|]. split; [done|]. split; [done|].
    split; [intros i Hi; lia|]. split; [done|]. split; [by rewrite app_nil_r|done].
  - cbn [seq for_each]. rewrite bind_assoc, allocateObject_bind. cbn zeta. msteps.
    set (n := NVDriver.nextObjId (World.drv w)) in *.
    assert (Hu : uint32 (n + 1) = n + 1).
    { destruct Hwf as (_ & _ & Hn). unfold uint32. apply Z.mod_small. lia. }
    rewrite Hu. cbn [Object_t.obj Object_t.id]. msteps.
    set (p := fresh (dom (World.heap w))).
    assert (Hp : World.heap w !! p = None) by apply not_elem_of_dom, is_fresh.
    match goal with |- context [for_each _ _ ?W] => set (w1 := W) end.
    assert (Hwf1 : registry_wf (World.drv w1)).
    { subst w1. wsimpl. apply (registry_wf_append (World.drv w)); [done|]. fold n. lia. }
    assert (Hn1 : NVDriver.nextObjId (World.drv w1) = n + 1) by done.
    destruct (IH (S start) w1 Hwf1) as
      (w' & evs & Hrun & Hwf' & Hnext' & Hcount' & Hold & Hnew & Hmono & Htrace & Houts).
    { rewrite Hn1. lia. }
    { intros i Hi. rewrite Hn1. replace (n + 1 + i) with (n + (1 + i)) by lia.
      apply Hvalid. lia. }
    exists w'. eexists. split; [exact Hrun|]. split; [exact Hwf'|].
    split; [rewrite Hnext', Hn1; lia|]. split; [by rewrite Hcount'|].
    assert (Happ := getObject_append (NVDriver.set_nextObjId (n + 1) (World.drv w))
                      (Object_t.mk OBJECT_TYPE_SURFACE (n + 1) (Some p))).
    cbn zeta in Happ.
    assert (Hsame : forall id, getObject (NVDriver.set_nextObjId (n + 1) (World.drv w)) id
                               = getObject (World.drv w) id) by done.
    split.
    { intros id Hid. rewrite Hold by (rewrite Hn1; lia).
      rewrite <- Hsame. apply (Happ id). cbn. lia. }
    split.
    { intros i Hi. destruct (decide (i = 1)) as [->|Hne].
      - exists p. rewrite Hold by (rewrite Hn1; lia).
        split; [|split; [done|]].
        + apply (Happ (n + 1)); [apply (Hvalid 1); lia|].
          rewrite Hsame. apply registry_wf_unknown; [done|]. subst n. cbn. lia.
        + apply Hmono. subst w1. wsimpl. apply lookup_insert_eq.
      - destruct (Hnew (i - 1)) as (q & Hq & Hq1 & Hq'); [lia|].
        rewrite Hn1 in Hq. replace (n + 1 + (i - 1)) with (n + i) in Hq by lia.
        exists q. split; [exact Hq|]. split; [|exact Hq'].
        subst w1. revert Hq1. wsimpl. rewrite insert_insert_eq.
        intros Hq1. apply lookup_insert_None in Hq1. tauto. }
    split.
    { intros q v Hq. apply Hmono. subst w1. wsimpl.
      rewrite insert_insert_eq. rewrite lookup_insert_ne by congruence. done. }
    split.
    { rewrite Htrace. subst w1. wsimpl. rewrite <- !app_assoc. reflexivity. }
    rewrite !outs_app, Houts, Hn1. cbn [outs omap app].
    replace (Z.of_nat (S m)) with (Z.succ (Z.of_nat m)) by lia.
    rewrite (seqZ_cons 1 (Z.succ (Z.of_nat m))) by lia. rewrite fmap_cons. f_equal.
    rewrite Z.pred_succ. rewrite <- (fmap_add_seqZ 1 1). rewrite <- list_fmap_compose.
    apply list_fmap_ext. intros _ i _. cbn. lia.
Qed.

(** The rounding of [nvCreateSurfaces2], spelled out: a dimension below
    2^32 - 1 is rounded up to the next even number, and not at all for
    4:4:4. *)
Lemma round_up_even (n : Z) :
  0 <= n < 2 ^ 32 - 1 -> uint32 (ROUND_UP n 2) = n + n mod 2.
Proof.
  intros Hn. unfold ROUND_UP, uint32.
  rewrite Z.quot_div_nonneg by lia.
  rewrite Z.mod_small; Z.to_euclidean_division_equations; lia.
Qed.

Lemma round_dims_uint32 (chroma : cudaVideoChromaFormat) (width height : Z) :
  0 <= width < 2 ^ 32 - 1 -> 0 <= height < 2 ^ 32 - 1 ->
  round_dims uint32 chroma width height =
    match chroma with
    | cudaVideoChromaFormat_420 => (width + width mod 2, height + height mod 2)
    | cudaVideoChromaFormat_422 => (width + width mod 2, height)
    | _ => (width, height)
    end.
Proof.
  intros Hw Hh. unfold round_dims.
  destruct chroma; rewrite ?round_up_even by done; reflexivity.
Qed.

(** [nvCreateSurfaces2] with a known format, when the device context can
    be pushed: it registers [num_surfaces] Surface objects under the next
    ids, in order, and writes these ids to [surfaces]; each Surface has the
    picture size rounded for its chroma format (up to the next even number
    in both dimensions for 4:2:0, in the width for 4:2:2), no picture index
    ([-1]), no Context and no backing image.  The surface count grows by
    [num_surfaces].  When the final pop of the device context fails the
    call answers OPERATION_FAILED and the Surfaces stay registered. *)
Theorem nvCreateSurfaces2_creates
    (e : Env) (w : World) (format width height num_surfaces : Z)
    (nvFormat : cudaVideoSurfaceFormat) (chroma : cudaVideoChromaFormat) (depth : Z) :
  surfaceFormatOf format = Some (nvFormat, chroma, depth) ->
  registry_wf (World.drv w) ->
  0 <= num_surfaces ->
  NVDriver.nextObjId (World.drv w) + num_surfaces < 2 ^ 32 ->
  (forall i, 0 < i <= num_surfaces ->
     NVDriver.nextObjId (World.drv w) + i <> VA_INVALID_ID) ->
  Env.r_cuCtxPushCurrent e = CUDA_SUCCESS ->
  let n := NVDriver.nextObjId (World.drv w) in
  exists w',
    nvCreateSurfaces2 e format width height num_surfaces w =
      ((if bool_decide (Env.r_cuCtxPopCurrent e = CUDA_SUCCESS)
        then Val VA_STATUS_SUCCESS else Return VA_STATUS_ERROR_OPERATION_FAILED), w') /\
    outs (new_events w w') = (fun i => n + i) <$> seqZ 1 num_surfaces /\
    (forall i, 0 < i <= num_surfaces ->
       exists p s,
         getObject (World.drv w') (n + i)
           = Some (Object_t.mk OBJECT_TYPE_SURFACE (n + i) (Some p)) /\
         World.heap w !! p = None /\
         World.heap w' !! p = Some (PSurface s) /\
         (NVSurface.width s, NVSurface.height s) = round_dims uint32 chroma width height /\
         NVSurface.format s = nvFormat /\ NVSurface.chromaFormat s = chroma /\
         NVSurface.bitDepth s = depth /\
         NVSurface.pictureIdx s = -1 /\ NVSurface.context s = None /\
         NVSurface.backingImage s = None /\ NVSurface.resolving s = 0) /\
    (forall id, id <= n -> getObject (World.drv w') id = getObject (World.drv w) id) /\
    (forall q v, World.heap w !! q = Some v -> World.heap w' !! q = Some v) /\
    NVDriver.surfaceCount (World.drv w') =
      int32 (NVDriver.surfaceCount (World.drv w) + num_surfaces) /\
    registry_wf (World.drv w') /\
    (0 <= width < 2 ^ 32 - 1 -> 0 <= height < 2 ^ 32 - 1 ->
     round_dims uint32 chroma width height =
       match chroma with
       | cudaVideoChromaFormat_420 => (width + width mod 2, height + height mod 2)
       | cudaVideoChromaFormat_422 => (width + width mod 2, height)
       | _ => (width, height)
       end).
Proof.
  intros Hfmt Hwf Hnum Hwrap Hvalid Hpush n.
  pose proof (round_dims_uint32 chroma width height) as Hround.
  unfold nvCreateSurfaces2. rewrite Hfmt.
  destruct (round_dims uint32 chroma width height) as [rw rh] eqn:Hdims.
  msteps.
  set (S0 := NVSurface.mk rw rh nvFormat chroma depth (-1) None false false 0 None 0 false).
  destruct (nvCreateSurfaces2_loop S0 [rw; rh; format] (Z.to_nat num_surfaces) 0
              (World.log (Vendor cuCtxPushCurrent) w))
    as (w1 & evs & Hrun & Hwf1 & Hnext1 & Hcount1 & Hold & Hnew & Hmono & Htrace & Houts);
    [done|wsimpl; lia|wsimpl; intros i Hi; apply Hvalid; lia|].
  revert Hnext1 Hcount1 Hold Hnew Hmono Htrace Houts. wsimpl. fold n.
  rewrite Z2Nat.id by done.
  intros Hnext1 Hcount1 Hold Hnew Hmono Htrace Houts.
  erewrite bind_Val by exact Hrun. msteps.
  assert (Hwf' : registry_wf (NVDriver.set_surfaceCount
                   (int32 (NVDriver.surfaceCount (World.drv w1) + num_surfaces))
                   (World.drv w1))) by done.
  assert (Hnewobjs : forall i, 0 < i <= num_surfaces ->
    exists p s,
      getObject (World.drv w1) (n + i)
        = Some (Object_t.mk OBJECT_TYPE_SURFACE (n + i) (Some p)) /\
      World.heap w !! p = None /\
      World.heap w1 !! p = Some (PSurface s) /\
      (NVSurface.width s, NVSurface.height s) = (rw, rh) /\
      NVSurface.format s = nvFormat /\ NVSurface.chromaFormat s = chroma /\
      NVSurface.bitDepth s = depth /\
      NVSurface.pictureIdx s = -1 /\ NVSurface.context s = None /\
      NVSurface.backingImage s = None /\ NVSurface.resolving s = 0).
  { intros i Hi. destruct (Hnew i Hi) as (p & Hp & Hp0 & Hp1).
    exists p, S0. by split_and!. }
  case_bool_decide as Hpop.
  - msteps. rewrite mret_run.
    eexists. split; [reflexivity|]. wsimpl.
    split; [|split; [exact Hnewobjs|split; [exact Hold|split; [exact Hmono|]]]].
    + erewrite new_events_app; [|wsimpl; rewrite Htrace, <- !app_assoc; reflexivity].
      rewrite !outs_app, Houts. cbn [outs omap app]. by rewrite app_nil_r.
    + split; [|split; [exact Hwf'|exact Hround]]. cbn. by rewrite Hcount1.
  - msteps.
    eexists. split; [reflexivity|]. wsimpl.
    split; [|split; [exact Hnewobjs|split; [exact Hold|split; [exact Hmono|]]]].
    + erewrite new_events_app; [|wsimpl; rewrite Htrace, <- !app_assoc; reflexivity].
      rewrite !outs_app, Houts. cbn [outs omap app]. by rewrite app_nil_r.
    + split; [|split; [exact Hwf'|exact Hround]]. cbn. by rewrite Hcount1.
Qed.

(** What [nvCreateSurfaces2] refuses: a format that is none of the six
    render-target formats it names, before anything else happens, and a
    device context that cannot be pushed; no Surface is created then. *)
Theorem nvCreateSurfaces2_rejects
    (e : Env) (w : World) (format width height num_surfaces : Z) :
  (format ∉ [VA_RT_FORMAT_YUV420; VA_RT_FORMAT_YUV420_10; VA_RT_FORMAT_YUV420_12;
             VA_RT_FORMAT_YUV444; VA_RT_FORMAT_YUV444_10; VA_RT_FORMAT_YUV444_12] ->
   nvCreateSurfaces2 e format width height num_surfaces w =
     (Return VA_STATUS_ERROR_UNSUPPORTED_RT_FORMAT,
      World.log (Log "Unknown format: %X" [format]) w)) /\
  (format ∈ [VA_RT_FORMAT_YUV420; VA_RT_FORMAT_YUV420_10; VA_RT_FORMAT_YUV420_12;
             VA_RT_FORMAT_YUV444; VA_RT_FORMAT_YUV444_10; VA_RT_FORMAT_YUV444_12] ->
   Env.r_cuCtxPushCurrent e <> CUDA_SUCCESS ->
   exists w',
     nvCreateSurfaces2 e format width height num_surfaces w =
       (Return VA_STATUS_ERROR_OPERATION_FAILED, w') /\
     World.drv w' = World.drv w /\ World.heap w' = World.heap w).
Proof.
  split.
  - intros Hnot. unfold nvCreateSurfaces2, surfaceFormatOf.
    repeat (case_bool_decide; [exfalso; apply Hnot; subst format; set_solver|]).
    msteps. reflexivity.
  - intros Hin Hpush. unfold nvCreateSurfaces2.
    destruct (surfaceFormatOf format) as [[[nvFormat chroma] depth]|] eqn:Hfmt.
    + destruct (round_dims uint32 chroma width height) as [rw rh].
      msteps. eexists. split; [reflexivity|]. done.
    + exfalso. unfold surfaceFormatOf in Hfmt.
      repeat (case_bool_decide; [done|]).
      set_unfold in Hin. intuition congruence.
Qed.

Lemma bind_skip_run {R} (m : M R unit) (w w1 : World) :
  (m ≫= fun _ => skip) w = (Val (), w1) -> m w = (Val (), w1).
Proof.
  unfold mbind, M_bind. destruct (m w) as [[[]| | |] w2]; unfold skip; cbn;
    rewrite ?mret_run; done.
Qed.

Lemma backend_calls_app (l k : list Event) :
  backend_calls (l ++ k) = backend_calls l ++ backend_calls k.
Proof. unfold backend_calls. apply omap_app. Qed.

Lemma getObject_delete (d : NVDriver) (i : nat) (o : Object) (id : VAGenericID) :
  NoDup (Object_t.id <$> NVDriver.objects d) ->
  NVDriver.objects d !! i = Some o ->
  getObject (NVDriver.set_objects (delete i (NVDriver.objects d)) d) id =
    if bool_decide (id = Object_t.id o) then None else getObject d id.
Proof.
  intros Hnd Hi. destruct (decide (id = Object_t.id o)) as [->|Hne].
  - rewrite bool_decide_eq_true_2 by done.
    unfold getObject. cbn [NVDriver.objects NVDriver.set_objects].
    case_bool_decide; [|done].
    rewrite (proj2 (list_find_None _ _)); [done|].
    apply (proj1 (list_find_None _ _)).
    exact (list_find_delete_unique Object_t.id _ _ _ Hnd Hi).
  - rewrite bool_decide_eq_false_2 by done.
    unfold getObject. cbn [NVDriver.objects NVDriver.set_objects].
    case_bool_decide; [|done].
    apply (list_find_delete_other (has_id id) _ _ _ Hi). unfold has_id. congruence.
Qed.

(** The loop of [nvDestroySurfaces] over Surfaces that are alive. *)
Lemma nvDestroySurfaces_loop (targets : list (VAGenericID * addr)) (w : World) :
  NoDup (Object_t.id <$> NVDriver.objects (World.drv w)) ->
  NoDup targets.*1 -> NoDup targets.*2 ->
  (forall id p, (id, p) ∈ targets ->
     getObjectPtr (World.drv w) id = Some p /\
     exists s, World.heap w !! p = Some (PSurface s)) ->
  exists w' evs,
    for_each (R := VAStatus) targets.*1 (fun id =>
      d ← get_drv;
      let surface := getObjectPtr d id in
      s ← loadSurface surface;
      LOG "Destroying surface %d (%p)" [NVSurface.pictureIdx s];;
      backend_detachBackingImageFromSurface surface;;
      deleteObject id) w = (Val (), w') /\
    NVDriver.surfaceCount (World.drv w') = NVDriver.surfaceCount (World.drv w) /\
    NVDriver.nextObjId (World.drv w') = NVDriver.nextObjId (World.drv w) /\
    (forall id, id ∈ targets.*1 -> getObject (World.drv w') id = None) /\
    (forall id, id ∉ targets.*1 ->
       getObject (World.drv w') id = getObject (World.drv w) id) /\
    (forall p, p ∈ targets.*2 -> World.heap w' !! p = None) /\
    (forall q, q ∉ targets.*2 -> World.heap w' !! q = World.heap w !! q) /\
    World.trace w' = World.trace w ++ evs /\
    backend_calls evs = detachBackingImageFromSurface <$> targets.*2.
Proof.
  revert w. induction targets as [|[id p] targets IH]; intros w Hnd Hids Hps Hlive.
  - exists w, []. cbn. split; [reflexivity|]. split_and!; try done.
    + intros id Hid. by apply elem_of_nil in Hid.
    + intros q Hq. by apply elem_of_nil in Hq.
    + by rewrite app_nil_r.
  - cbn [fmap list_fmap fst snd for_each] in *.
    apply NoDup_cons in Hids as [Hid Hids]. apply NoDup_cons in Hps as [Hp Hps].
    destruct (Hlive id p) as (Hptr & s & Hs); [apply list_elem_of_here|].
    destruct (getObjectPtr_find _ _ _ Hptr) as (o & Ho & Hobj).
    destruct (getObject_find _ _ _ Ho) as (Hvalid & i & Hfind).
    pose proof Hfind as (Hi & Hoid & _)%list_find_Some.
    rewrite !bind_assoc, get_drv_bind. cbn beta zeta. rewrite Hptr. msteps.
    erewrite bind_Val; [|apply (deleteObject_run _ id i o Hvalid); wsimpl; exact Hfind].
    cbn zeta. rewrite Hobj.
    match goal with |- context [for_each _ _ ?W] => set (w1 := W) end.
    assert (Hlook1 : forall id', getObject (World.drv w1) id'
                       = if bool_decide (id' = id) then None else getObject (World.drv w) id').
    { intros id'. subst w1. wsimpl. rewrite (getObject_delete _ i o) by done.
      unfold has_id in Hoid. by rewrite Hoid. }
    assert (Hheap1 : forall q, World.heap w1 !! q
                       = if bool_decide (q = p) then None else World.heap w !! q).
    { intros q. subst w1. wsimpl. case_bool_decide as Hq.
      - subst q. apply lookup_delete_eq.
      - by rewrite lookup_delete_ne, lookup_insert_ne. }
    destruct (IH w1) as (w' & evs & Hrun & Hcount & Hnext & Hgone & Hkept & Hfreed & Hframe
                         & Htrace & Hcalls); [| done | done | |].
    { subst w1. wsimpl. cbn [NVDriver.objects NVDriver.set_objects].
      rewrite list_fmap_delete. eapply sublist_NoDup; [exact Hnd|apply sublist_delete]. }
    { intros id' p' Hin. destruct (Hlive id' p') as (Hptr' & s' & Hs');
        [by apply list_elem_of_further|].
      assert (Hne : id' <> id).
      { intros ->. apply Hid. apply list_elem_of_fmap. by exists (id, p'). }
      assert (Hnp : p' <> p).
      { intros ->. apply Hp. apply list_elem_of_fmap. by exists (id', p). }
      split.
      - unfold getObjectPtr in *. rewrite Hlook1.
        rewrite (bool_decide_eq_false_2 (id' = id)) by done. exact Hptr'.
      - exists s'. rewrite Hheap1. by rewrite bool_decide_eq_false_2. }
    exists w'. eexists. split; [exact Hrun|].
    split; [by rewrite Hcount|]. split; [by rewrite Hnext|].
    split.
    { intros id' [->|Hin]%elem_of_cons.
      - destruct (decide (id ∈ targets.*1)) as [Hin|Hnin]; [by apply Hgone|].
        rewrite Hkept by done. rewrite Hlook1. by rewrite bool_decide_eq_true_2.
      - by apply Hgone. }
    split.
    { intros id' Hnin. apply not_elem_of_cons in Hnin as [Hne Hnin].
      rewrite Hkept by done. rewrite Hlook1. by rewrite bool_decide_eq_false_2. }
    split.
    { intros q [->|Hin]%elem_of_cons.
      - rewrite Hframe by done. rewrite Hheap1. by rewrite bool_decide_eq_true_2.
      - by apply Hfreed. }
    split.
    { intros q Hnin. apply not_elem_of_cons in Hnin as [Hne Hnin].
      rewrite Hframe by done. rewrite Hheap1. by rewrite bool_decide_eq_false_2. }
    split.
    { rewrite Htrace. subst w1. wsimpl. rewrite <- !app_assoc. reflexivity. }
    rewrite !backend_calls_app, Hcalls. reflexivity.
Qed.

(** [nvDestroySurfaces] on distinct live Surfaces: each is detached from
    its backing image, taken out of the registry and freed, in the order of
    the list; no other object or cell changes, and the surface count drops
    by the length of the list, but not below 0. *)
Theorem nvDestroySurfaces_destroys (targets : list (VAGenericID * addr)) (w : World) :
  NoDup (Object_t.id <$> NVDriver.objects (World.drv w)) ->
  NoDup targets.*1 -> NoDup targets.*2 ->
  (forall id p, (id, p) ∈ targets ->
     getObjectPtr (World.drv w) id = Some p /\
     exists s, World.heap w !! p = Some (PSurface s)) ->
  exists w',
    nvDestroySurfaces targets.*1 w = (Val VA_STATUS_SUCCESS, w') /\
    (forall id, id ∈ targets.*1 -> getObject (World.drv w') id = None) /\
    (forall id, id ∉ targets.*1 ->
       getObject (World.drv w') id = getObject (World.drv w) id) /\
    (forall p, p ∈ targets.*2 -> World.heap w' !! p = None) /\
    (forall q, q ∉ targets.*2 -> World.heap w' !! q = World.heap w !! q) /\
    backend_calls (new_events w w') = detachBackingImageFromSurface <$> targets.*2 /\
    NVDriver.surfaceCount (World.drv w') =
      Z.max (int32 (NVDriver.surfaceCount (World.drv w) - len targets)) 0 /\
    0 <= NVDriver.surfaceCount (World.drv w').
Proof.
  intros Hnd Hids Hps Hlive.
  destruct (nvDestroySurfaces_loop targets w Hnd Hids Hps Hlive)
    as (w1 & evs & Hrun & Hcount & Hnext & Hgone & Hkept & Hfreed & Hframe & Htrace & Hcalls).
  unfold nvDestroySurfaces. erewrite bind_Val by exact Hrun. msteps. rewrite mret_run.
  eexists. split; [reflexivity|]. wsimpl.
  split; [exact Hgone|]. split; [exact Hkept|]. split; [exact Hfreed|].
  split; [exact Hframe|].
  split; [by erewrite new_events_app by exact Htrace|].
  cbn [NVDriver.surfaceCount NVDriver.set_surfaceCount]. rewrite Hcount.
  unfold len. rewrite length_fmap. split; [reflexivity|lia].
Qed.

(** [nvDestroySurfaces] does not check what its ids name: an id that
    yields no Surface pointer is dereferenced for the log line, and so is an
    id that occurs a second time in the list, after the first occurrence has
    destroyed the Surface. *)
Theorem nvDestroySurfaces_dead_id_faults
    (w : World) (id : VAGenericID) (rest : list VAGenericID) :
  (getObjectPtr (World.drv w) id = None ->
     nvDestroySurfaces (id :: rest) w = (Crash NullDeref, w)) /\
  (forall p s,
     NoDup (Object_t.id <$> NVDriver.objects (World.drv w)) ->
     getObjectPtr (World.drv w) id = Some p ->
     World.heap w !! p = Some (PSurface s) ->
     fst (nvDestroySurfaces (id :: id :: rest) w) = Crash NullDeref).
Proof.
  split.
  - intros Hnone. unfold nvDestroySurfaces. cbn [for_each].
    rewrite !bind_assoc, get_drv_bind. cbn beta zeta. by rewrite Hnone.
  - intros p s Hnd Hptr Hs.
    destruct (nvDestroySurfaces_loop [(id, p)] w Hnd) as
      (w1 & evs & Hrun & _ & _ & Hgone & _); [apply NoDup_singleton..| |].
    { intros id' p' [= -> ->]%list_elem_of_singleton. eauto. }
    cbn [fmap list_fmap fst for_each] in Hrun. apply bind_skip_run in Hrun.
    unfold nvDestroySurfaces. cbn [for_each].
    rewrite bind_assoc. erewrite bind_Val by exact Hrun.
    rewrite !bind_assoc, get_drv_bind. cbn beta zeta.
    assert (Hdead : getObjectPtr (World.drv w1) id = None).
    { unfold getObjectPtr. rewrite Hgone; [by case_bool_decide|]. set_solver. }
    by rewrite Hdead.
Qed.

End SurfaceProps.

(** ** Destruction of Contexts, Buffers and Configs *)

Section DestroyProps.
Context {hdr : Headers} {cds : Codecs}.

Lemma call_bind {R A B} (m : M A A) (f : A -> M R B) (w w' : World) (o : Outcome A A) (a : A) :
  m w = (o, w') -> status o = Some a -> (call m ≫= f) w = f a w'.
Proof.
  intros Hrun Hst. unfold mbind, M_bind, call. rewrite Hrun.
  destruct o; cbn in Hst; by simplify_eq.
Qed.

Lemma loadContext_freed {R B} (a : addr) (f : NVContext -> M R B) (w : World) :
  World.heap w !! a = None -> (loadContext (Some a) ≫= f) w = (Crash UseAfterFree, w).
Proof.
  intros Hnone. unfold loadContext, load, mbind, M_bind. by rewrite Hnone.
Qed.

(** [destroyContext] on a live Context. *)
Lemma destroyContext_run (e : Env) (r_timedjoin : Z) (r_destroy : CUresult)
    (w : World) (a : addr) (c : NVContext) :
  World.heap w !! a = Some (PContext c) ->
  exists o w1 c1 evs,
    destroyContext e r_timedjoin r_destroy (Some a) w = (o, w1) /\
    status o =
      Some (bool_decide (Env.r_cuCtxPushCurrent e = CUDA_SUCCESS /\
                         Env.r_cuCtxPopCurrent e = CUDA_SUCCESS /\
                         (NVContext.decoder c = None \/ r_destroy = CUDA_SUCCESS))) /\
    World.drv w1 = World.drv w /\
    (forall q, q <> a -> World.heap w1 !! q = World.heap w !! q) /\
    World.heap w1 !! a = Some (PContext c1) /\
    World.trace w1 = World.trace w ++ evs /\
    (Env.r_cuCtxPushCurrent e <> CUDA_SUCCESS ->
       c1 = c /\ forall cond, CondSignal cond ∉ evs) /\
    (Env.r_cuCtxPushCurrent e = CUDA_SUCCESS ->
       CondSignal (resolveCondition a) ∈ evs /\
       NVContext.exiting c1 = true /\ NVContext.decoder c1 = None /\
       AppendableBuffer.buf (NVContext.bitstreamBuffer c1) = None /\
       AppendableBuffer.buf (NVContext.sliceOffsets c1) = None).
Proof.
  intros Hc. unfold destroyContext.
  destruct (decide (Env.r_cuCtxPushCurrent e = CUDA_SUCCESS)) as [Hpush|Hpush].
  2: { msteps. eexists _, _, c, _. split; [reflexivity|]. cbn [status].
       split; [by rewrite bool_decide_eq_false_2 by tauto|].
       split; [reflexivity|]. split; [done|]. split; [exact Hc|].
       split; [wsimpl; by rewrite <- app_assoc|].
       split; [|done]. intros _. split; [done|].
       intros cond Hin. set_unfold in Hin. intuition discriminate. }
  msteps.
  assert (Hfree : forall ab, AppendableBuffer.buf (freeBuffer ab) = None).
  { intros ab. unfold freeBuffer. by destruct (AppendableBuffer.buf ab) eqn:?. }
  cbn [NVContext.decoder NVContext.set_buffers NVContext.set_exiting].
  destruct (NVContext.decoder c) as [dec|] eqn:Hdec.
  - destruct (decide (r_destroy = CUDA_SUCCESS)) as [Hd|Hd].
    + rewrite (bool_decide_eq_false_2 (r_destroy <> CUDA_SUCCESS)) by tauto. msteps.
      destruct (decide (Env.r_cuCtxPopCurrent e = CUDA_SUCCESS)) as [Hpop|Hpop].
      * msteps. rewrite mret_run.
        eexists _, _, _, _. split; [reflexivity|]. cbn [status].
        split; [by rewrite bool_decide_eq_true_2 by tauto|].
        split; [reflexivity|].
        split; [intros q Hq; lookup_simpl; reflexivity|].
        split; [lookup_simpl; reflexivity|].
        split; [wsimpl; by rewrite <- !app_assoc|].
        split; [done|]. intros _. cbn. split; [by repeat constructor|].
        by rewrite !Hfree.
      * msteps.
        eexists _, _, _, _. split; [reflexivity|]. cbn [status].
        split; [by rewrite bool_decide_eq_false_2 by tauto|].
        split; [reflexivity|].
        split; [intros q Hq; lookup_simpl; reflexivity|].
        split; [lookup_simpl; reflexivity|].
        split; [wsimpl; by rewrite <- !app_assoc|].
        split; [done|]. intros _. cbn. split; [by repeat constructor|].
        by rewrite !Hfree.
    + rewrite (bool_decide_eq_true_2 (r_destroy <> CUDA_SUCCESS)) by done. msteps.
      destruct (decide (Env.r_cuCtxPopCurrent e = CUDA_SUCCESS)) as [Hpop|Hpop].
      * msteps. rewrite mret_run.
        eexists _, _, _, _. split; [reflexivity|]. cbn [status].
        split; [rewrite bool_decide_eq_false_2; [done|]; intros (_ & _ & [?|?]); done|].
        split; [reflexivity|].
        split; [intros q Hq; lookup_simpl; reflexivity|].
        split; [lookup_simpl; reflexivity|].
        split; [wsimpl; by rewrite <- !app_assoc|].
        split; [done|]. intros _. cbn. split; [by repeat constructor|].
        by rewrite !Hfree.
      * msteps.
        eexists _, _, _, _. split; [reflexivity|]. cbn [status].
        split; [by rewrite bool_decide_eq_false_2 by tauto|].
        split; [reflexivity|].
        split; [intros q Hq; lookup_simpl; reflexivity|].
        split; [lookup_simpl; reflexivity|].
        split; [wsimpl; by rewrite <- !app_assoc|].
        split; [done|]. intros _. cbn. split; [by repeat constructor|].
        by rewrite !Hfree.
  - msteps.
    destruct (decide (Env.r_cuCtxPopCurrent e = CUDA_SUCCESS)) as [Hpop|Hpop].
    + msteps. rewrite mret_run.
      eexists _, _, _, _. split; [reflexivity|]. cbn [status].
      split; [by rewrite bool_decide_eq_true_2 by tauto|].
      split; [reflexivity|].
      split; [intros q Hq; lookup_simpl; reflexivity|].
      split; [lookup_simpl; reflexivity|].
      split; [wsimpl; by rewrite <- !app_assoc|].
      split; [done|]. intros _. cbn. split; [by repeat constructor|].
      by rewrite !Hfree.
    + msteps.
      eexists _, _, _, _. split; [reflexivity|]. cbn [status].
      split; [by rewrite bool_decide_eq_false_2 by tauto|].
      split; [reflexivity|].
      split; [intros q Hq; lookup_simpl; reflexivity|].
      split; [lookup_simpl; reflexivity|].
      split; [wsimpl; by rewrite <- !app_assoc|].
      split; [done|]. intros _. cbn. split; [by repeat constructor|].
      by rewrite !Hfree.
Qed.

(** [nvDestroyContext] on a live Context: whatever [destroyContext]
    achieves, and whatever the join with the worker thread answers, the
    Context object is taken out of the registry and its cell is freed; the
    status is SUCCESS only if the device context could be pushed and popped
    and the decoder destroyed.  When the push fails the worker has not even
    been told to exit.  A worker that is still running then reads a freed
    cell in its next iteration, and [nvEndPicture] on the id faults. *)
Theorem nvDestroyContext_frees_context
    (e e' : Env) (r_timedjoin : Z) (r_destroy : CUresult)
    (w : World) (context : VAGenericID) (a : addr) (c : NVContext) :
  getObjectPtr (World.drv w) context = Some a ->
  World.heap w !! a = Some (PContext c) ->
  NoDup (Object_t.id <$> NVDriver.objects (World.drv w)) ->
  exists w',
    nvDestroyContext e r_timedjoin r_destroy context w =
      (Val (if bool_decide (Env.r_cuCtxPushCurrent e = CUDA_SUCCESS /\
                            Env.r_cuCtxPopCurrent e = CUDA_SUCCESS /\
                            (NVContext.decoder c = None \/ r_destroy = CUDA_SUCCESS))
            then VA_STATUS_SUCCESS else VA_STATUS_ERROR_OPERATION_FAILED), w') /\
    getObject (World.drv w') context = None /\
    (forall id, id <> context -> getObject (World.drv w') id = getObject (World.drv w) id) /\
    World.heap w' !! a = None /\
    (forall q, q <> a -> World.heap w' !! q = World.heap w !! q) /\
    (Env.r_cuCtxPushCurrent e <> CUDA_SUCCESS ->
       forall cond, CondSignal cond ∉ new_events w w') /\
    (Env.r_cuCtxPushCurrent e = CUDA_SUCCESS ->
       CondSignal (resolveCondition a) ∈ new_events w w') /\
    resolveSurfaces_iteration e' a w' = (Crash UseAfterFree, w') /\
    nvEndPicture e' context w' = (Crash NullDeref, w').
Proof.
  intros Hptr Hc Hnd.
  destruct (getObjectPtr_find _ _ _ Hptr) as (o & Ho & Hobj).
  destruct (getObject_find _ _ _ Ho) as (Hvalid & i & Hfind).
  pose proof Hfind as (Hi & Hoid & _)%list_find_Some. unfold has_id in Hoid.
  set (w0 := World.log (Log "Destroying context: %d" [context]) w).
  destruct (destroyContext_run e r_timedjoin r_destroy w0 a c Hc)
    as (out & w1 & c1 & evs & Hrun & Hst & Hdrv1 & Hframe1 & Ha1 & Htrace1 & Hnopush & Hpush).
  unfold nvDestroyContext. rewrite get_drv_bind. cbn beta zeta. rewrite LOG_bind. cbn beta.
  rewrite Hptr. fold w0.
  erewrite call_bind by (first [exact Hrun | exact Hst]). cbn zeta.
  erewrite bind_Val; [|apply (deleteObject_run _ context i o Hvalid); by rewrite Hdrv1].
  rewrite mret_run. cbn zeta. rewrite Hobj, Hdrv1.
  eexists. split; [reflexivity|].
  match goal with |- context [new_events w ?W] => set (w' := W) end.
  assert (Hev : new_events w w' = Log "Destroying context: %d" [context] :: evs).
  { apply new_events_app. subst w'. wsimpl. rewrite Htrace1. subst w0. wsimpl.
    by rewrite <- app_assoc. }
  rewrite Hev. subst w'. wsimpl.
  assert (Hgone : forall id,
    getObject (NVDriver.set_objects (delete i (NVDriver.objects (World.drv w))) (World.drv w)) id
    = if bool_decide (id = context) then None else getObject (World.drv w) id).
  { intros id. rewrite (getObject_delete _ i o) by done. by rewrite Hoid. }
  split; [by rewrite Hgone, bool_decide_eq_true_2|].
  split; [intros id Hid; by rewrite Hgone, bool_decide_eq_false_2|].
  split; [apply lookup_delete_eq|].
  split; [intros q Hq; rewrite lookup_delete_ne by done; by rewrite Hframe1|].
  split.
  { intros Hp cond Hin. apply elem_of_cons in Hin as [Hin|Hin]; [done|].
    by apply (proj2 (Hnopush Hp) cond). }
  split.
  { intros Hp. apply list_elem_of_further. by apply Hpush. }
  split.
  - unfold resolveSurfaces_iteration.
    rewrite loadContext_freed; [done|]. wsimpl. apply lookup_delete_eq.
  - unfold nvEndPicture. rewrite get_drv_bind. wsimpl.
    by rewrite Hgone, bool_decide_eq_true_2.
Qed.

(** [nvCreateBuffer] and [nvMapBuffer]: the block that [nvMapBuffer] hands
    out for a new Buffer has [num_elements * size] bytes modulo 2^32.  It
    holds a copy of the client's data, taken when the Buffer was created,
    if the data pointer is not NULL when the copy is due, and is
    uninitialised otherwise.  For slice data of a VP8 Context the pointer
    is first rounded down to a multiple of 16 and every element is longer
    by the rounding; the NULL test comes after the rounding, so that slice
    data at the addresses 1 to 15 is not copied. *)
Theorem nvCreateBuffer_then_map
    (e : Env) (w : World) (context : VAGenericID) (a : addr) (c : NVContext)
    (type : VABufferType) (size num_elements : Z) (data : option ClientPtr) :
  getObjectPtr (World.drv w) context = Some a ->
  World.heap w !! a = Some (PContext c) ->
  registry_wf (World.drv w) ->
  NVDriver.nextObjId (World.drv w) + 1 < 2 ^ 32 ->
  NVDriver.nextObjId (World.drv w) + 1 <> VA_INVALID_ID ->
  Env.r_memalign e = true ->
  let id := NVDriver.nextObjId (World.drv w) + 1 in
  let address := from_option ClientPtr.address 0 data in
  let vp8_slice := bool_decide (NVContext.profile c = VAProfileVP8Version0_3 /\
                                type = VASliceDataBufferType) in
  let offset := if vp8_slice then address mod 16 else 0 in
  let buf_size := uint32 (num_elements * (if vp8_slice then uint32 (size + offset) else size)) in
  0 <= address ->
  exists w' blk,
    nvCreateBuffer e context type size num_elements data w = (Val VA_STATUS_SUCCESS, w') /\
    outs (new_events w w') = [id] /\
    nvMapBuffer id w' = (Val (Some blk), w') /\
    blk = match data with
          | Some d =>
              if bool_decide (address - offset <> 0)
              then (fun i => Some (ClientPtr.read d (address - offset + i)))
                     <$> seqZ 0 buf_size
              else replicate (Z.to_nat buf_size) None
          | None => replicate (Z.to_nat buf_size) None
          end /\
    len blk = buf_size /\
    (vp8_slice = true -> 0 < address < 16 -> blk = replicate (Z.to_nat buf_size) None).
Proof.
  intros Hctx Hc Hwf Hwrap Hvalid Hmem id address vp8_slice offset buf_size Haddr.
  assert (Hu : uint32 (NVDriver.nextObjId (World.drv w) + 1) = id).
  { destruct Hwf as (_ & _ & Hn). unfold uint32. apply Z.mod_small. lia. }
  assert (Hland : Z.land address 15 = address mod 16).
  { change 15 with (Z.ones 4). by rewrite Z.land_ones by lia. }
  assert (Hsize : 0 <= buf_size) by (apply Z.mod_pos_bound; lia).
  set (p := fresh (dom (World.heap w))).
  assert (Hp : World.heap w !! p = None) by apply not_elem_of_dom, is_fresh.
  assert (Hpa : p <> a) by congruence.
  assert (Hnew : getObject
                   (NVDriver.set_objects
                      (NVDriver.objects (World.drv w) ++ [Object_t.mk OBJECT_TYPE_BUFFER id (Some p)])
                      (NVDriver.set_nextObjId id (World.drv w))) id
                 = Some (Object_t.mk OBJECT_TYPE_BUFFER id (Some p))).
  { pose proof (getObject_append (NVDriver.set_nextObjId id (World.drv w))
                  (Object_t.mk OBJECT_TYPE_BUFFER id (Some p))) as Happ.
    cbn zeta in Happ. apply (Happ id); [exact Hvalid|].
    assert (Hlt : NVDriver.nextObjId (World.drv w) < id) by (subst id; lia).
    exact (registry_wf_unknown (World.drv w) id Hwf Hlt). }
  assert (Hsmall : vp8_slice = true -> 0 < address < 16 -> address - offset = 0).
  { intros Hvp8 Hrange. subst offset. rewrite Hvp8. rewrite Z.mod_small by lia. lia. }
  unfold nvCreateBuffer. rewrite get_drv_bind. cbn beta zeta. rewrite Hctx.
  msteps. fold address. rewrite Hland. fold vp8_slice. fold offset.
  rewrite allocateObject_bind. cbn zeta. rewrite Hu. fold p.
  cbn [Object_t.obj Object_t.id]. msteps. rewrite Hmem. cbn [memalign].
  replace (if vp8_slice then uint32 (size + address mod 16) else size)
    with (if vp8_slice then uint32 (size + offset) else size)
    by (subst offset; by destruct vp8_slice).
  fold buf_size.
  replace (if vp8_slice then address - offset else address)
    with (address - offset) by (subst offset; destruct vp8_slice; lia).
  assert (Hmap : forall blk W,
    World.drv W = NVDriver.set_objects
                    (NVDriver.objects (World.drv w) ++ [Object_t.mk OBJECT_TYPE_BUFFER id (Some p)])
                    (NVDriver.set_nextObjId id (World.drv w)) ->
    (exists b, World.heap W !! p = Some (PBuffer b) /\ NVBuffer.ptr b = Some blk) ->
    nvMapBuffer id W = (Val (Some blk), W)).
  { intros blk W Hdrv (b & Hb & Hptr).
    unfold nvMapBuffer, getObjectPtr. rewrite get_drv_bind. cbn beta zeta.
    rewrite Hdrv, Hnew. rewrite bool_decide_eq_true_2 by done. cbn [Object_t.obj].
    erewrite loadBuffer_bind by exact Hb. rewrite Hptr. reflexivity. }
  assert (Hcopy : forall d : ClientPtr,
    len ((fun i => Some (ClientPtr.read d (address - offset + i))) <$> seqZ 0 buf_size)
      = buf_size).
  { intros d. unfold len. rewrite length_fmap, length_seqZ. lia. }
  assert (Hfill : len (replicate (Z.to_nat buf_size) (@None byte)) = buf_size).
  { unfold len. rewrite length_replicate. lia. }
  destruct data as [d|]; [case_bool_decide as Hnull|].
  - msteps. rewrite mret_run.
    eexists _, _. split; [reflexivity|].
    split; [erewrite new_events_app by (wsimpl; reflexivity); reflexivity|].
    split; [apply Hmap; [reflexivity|]; eexists; split; [solve_lookup|reflexivity]|].
    cbn [NVBuffer.ptr]. split; [reflexivity|]. split; [apply Hcopy|].
    intros Hvp8 Hrange. by rewrite Hsmall in Hnull.
  - msteps. rewrite mret_run.
    eexists _, _. split; [reflexivity|].
    split; [erewrite new_events_app by (wsimpl; reflexivity); reflexivity|].
    split; [apply Hmap; [reflexivity|]; eexists; split; [solve_lookup|reflexivity]|].
    cbn [NVBuffer.ptr]. split; [reflexivity|]. split; [apply Hfill|]. reflexivity.
  - msteps. rewrite mret_run.
    eexists _, _. split; [reflexivity|].
    split; [erewrite new_events_app by (wsimpl; reflexivity); reflexivity|].
    split; [apply Hmap; [reflexivity|]; eexists; split; [solve_lookup|reflexivity]|].
    cbn [NVBuffer.ptr]. split; [reflexivity|]. split; [apply Hfill|]. reflexivity.
Qed.

(** A Buffer id after [nvDestroyBuffer]: the object is gone and its cell
    freed; [nvMapBuffer] and a second [nvDestroyBuffer] answer
    INVALID_BUFFER, while [nvRenderPicture] faults on it. *)
Theorem nvDestroyBuffer_removes
    (w : World) (buffer_id context : VAGenericID) (p a : addr) (b : NVBuffer)
    (rest : list VAGenericID) :
  getObjectPtr (World.drv w) buffer_id = Some p ->
  World.heap w !! p = Some (PBuffer b) ->
  NoDup (Object_t.id <$> NVDriver.objects (World.drv w)) ->
  getObjectPtr (World.drv w) context = Some a ->
  context <> buffer_id ->
  exists w',
    nvDestroyBuffer buffer_id w = (Val VA_STATUS_SUCCESS, w') /\
    getObject (World.drv w') buffer_id = None /\
    (forall id, id <> buffer_id -> getObject (World.drv w') id = getObject (World.drv w) id) /\
    World.heap w' !! p = None /\
    (forall q, q <> p -> World.heap w' !! q = World.heap w !! q) /\
    nvMapBuffer buffer_id w' = (Return VA_STATUS_ERROR_INVALID_BUFFER, w') /\
    nvDestroyBuffer buffer_id w' = (Return VA_STATUS_ERROR_INVALID_BUFFER, w') /\
    nvRenderPicture context (buffer_id :: rest) w' = (Crash NullDeref, w').
Proof.
  intros Hptr Hb Hnd Hctx Hne.
  destruct (getObjectPtr_find _ _ _ Hptr) as (o & Ho & Hobj).
  destruct (getObject_find _ _ _ Ho) as (Hvalid & i & Hfind).
  pose proof Hfind as (Hi & Hoid & _)%list_find_Some. unfold has_id in Hoid.
  unfold nvDestroyBuffer at 1. rewrite get_drv_bind. cbn beta zeta. rewrite Hptr. msteps.
  erewrite bind_Val; [|by apply (deleteObject_run _ buffer_id i o Hvalid)].
  rewrite mret_run. cbn zeta. rewrite Hobj.
  eexists. split; [reflexivity|]. wsimpl.
  assert (Hgone : forall id,
    getObject (NVDriver.set_objects (delete i (NVDriver.objects (World.drv w))) (World.drv w)) id
    = if bool_decide (id = buffer_id) then None else getObject (World.drv w) id).
  { intros id. rewrite (getObject_delete _ i o) by done. by rewrite Hoid. }
  assert (Hgoneptr :
    getObjectPtr (NVDriver.set_objects (delete i (NVDriver.objects (World.drv w))) (World.drv w))
      buffer_id = None).
  { unfold getObjectPtr. rewrite Hgone, bool_decide_eq_true_2 by done. by case_bool_decide. }
  split; [by rewrite Hgone, bool_decide_eq_true_2|].
  split; [intros id Hid; by rewrite Hgone, bool_decide_eq_false_2|].
  split; [apply lookup_delete_eq|].
  split; [intros q Hq; by rewrite lookup_delete_ne|].
  split; [unfold nvMapBuffer; rewrite get_drv_bind; cbn beta zeta; wsimpl; by rewrite Hgoneptr|].
  split; [unfold nvDestroyBuffer; rewrite get_drv_bind; cbn beta zeta; wsimpl;
          by rewrite Hgoneptr|].
  unfold nvRenderPicture. rewrite get_drv_bind. cbn beta zeta. wsimpl.
  assert (Hctx' :
    getObjectPtr (NVDriver.set_objects (delete i (NVDriver.objects (World.drv w))) (World.drv w))
      context = Some a).
  { unfold getObjectPtr. rewrite Hgone, (bool_decide_eq_false_2 (context = buffer_id)) by done.
    exact Hctx. }
  rewrite Hctx'. cbn [for_each]. rewrite !bind_assoc, get_drv_bind. wsimpl.
  by rewrite Hgone, bool_decide_eq_true_2.
Qed.

(** [nvDestroyConfig] answers SUCCESS whatever the id; it does not look at
    the type of the object: a live object of any type is taken out of the
    registry and its cell is freed. *)
Theorem nvDestroyConfig_any_object (w : World) (config_id : VAGenericID) :
  exists w',
    nvDestroyConfig config_id w = (Val VA_STATUS_SUCCESS, w') /\
    (getObject (World.drv w) config_id = None -> w' = w) /\
    (forall o,
       NoDup (Object_t.id <$> NVDriver.objects (World.drv w)) ->
       getObject (World.drv w) config_id = Some o ->
       getObject (World.drv w') config_id = None /\
       (forall id, id <> config_id ->
          getObject (World.drv w') id = getObject (World.drv w) id) /\
       (forall p, Object_t.obj o = Some p -> World.heap w' !! p = None)).
Proof.
  unfold nvDestroyConfig.
  destruct (getObject (World.drv w) config_id) as [o|] eqn:Ho.
  - destruct (getObject_find _ _ _ Ho) as (Hvalid & i & Hfind).
    pose proof Hfind as (Hi & Hoid & _)%list_find_Some. unfold has_id in Hoid.
    erewrite bind_Val; [|by apply (deleteObject_run _ config_id i o Hvalid)].
    rewrite mret_run. cbn zeta.
    eexists. split; [reflexivity|]. split; [done|].
    intros o' Hnd [= <-].
    assert (Hgone : forall id,
      getObject (NVDriver.set_objects (delete i (NVDriver.objects (World.drv w))) (World.drv w)) id
      = if bool_decide (id = config_id) then None else getObject (World.drv w) id).
    { intros id. rewrite (getObject_delete _ i o) by done. by rewrite Hoid. }
    destruct (Object_t.obj o) as [p|]; wsimpl.
    + split; [by rewrite Hgone, bool_decide_eq_true_2|].
      split; [intros id Hid; by rewrite Hgone, bool_decide_eq_false_2|].
      intros p' [= <-]. apply lookup_delete_eq.
    + split; [by rewrite Hgone, bool_decide_eq_true_2|].
      split; [intros id Hid; by rewrite Hgone, bool_decide_eq_false_2|done].
  - exists w. split; [|done].
    assert (Hrun : deleteObject (R := VAStatus) config_id w = (Val (), w)).
    { unfold deleteObject. case_bool_decide; [done|]. rewrite get_drv_bind.
      unfold getObject in Ho. rewrite bool_decide_eq_true_2 in Ho by done.
      destruct (list_find _ _) as [[]|]; [done|]. by destruct w. }
    erewrite bind_Val by exact Hrun. reflexivity.
Qed.

End DestroyProps.

(** ** Configuration queries *)

Section QueryProps.
Context {hdr : Headers} {cds : Codecs}.


Lemma shift_down_spec (n x : nat) (l : list VAProfile) :
  (x + n < length l)%nat ->
  shift_down n x l = Some (take x l ++ take n (drop (S x) l) ++ drop (x + n) l).
Proof.
  revert x l. induction n as [|n IH]; intros x l Hlen.
  - cbn [shift_down]. rewrite Nat.add_0_r, take_0, app_nil_l. by rewrite take_drop.
  - cbn [shift_down].
    destruct (lookup_lt_is_Some_2 l (S x)) as [v Hv]; [lia|]. rewrite Hv.
    rewrite IH by (rewrite length_insert; lia). f_equal.
    assert (Hx : (x < length l)%nat) by lia.
    rewrite (take_S_r (<[x:=v]> l) x v) by (apply list_lookup_insert_eq; lia).
    rewrite take_insert_ge by lia.
    rewrite !drop_insert_lt by lia.
    rewrite (drop_S l v (S x) Hv). cbn [take].
    replace (S x + n)%nat with (x + S n)%nat by lia.
    rewrite <- !app_assoc. reflexivity.
Qed.

Lemma remove_unsupported_spec (remaining i : nat) (l : list VAProfile) :
  (i + remaining <= length l)%nat ->
  exists l' n,
    remove_unsupported remaining i l = Some (l', n) /\
    length l' = length l /\ (n <= i + remaining)%nat /\
    take n l' =
      take i l ++ filter (fun p => vaToCuCodec p <> cudaVideoCodec_NONE)
                   (take remaining (drop i l)).
Proof.
  revert i l. induction remaining as [|r IH]; intros i l Hlen.
  - exists l, i. cbn [remove_unsupported]. rewrite take_0. split; [done|]. split; [done|].
    split; [lia|]. by rewrite filter_nil, app_nil_r.
  - cbn [remove_unsupported].
    destruct (lookup_lt_is_Some_2 l i) as [p Hp]; [lia|]. rewrite Hp.
    rewrite (drop_S l p i Hp). cbn [firstn].
    case_bool_decide as Hbad.
    + rewrite shift_down_spec by lia.
      set (l1 := take i l ++ take r (drop (S i) l) ++ drop (i + r) l).
      assert (Hlen1 : length l1 = length l).
      { subst l1. rewrite !length_app, !length_take, !length_drop. lia. }
      destruct (IH i l1) as (l' & n & Hrun & Hlen' & Hn & Htake); [lia|].
      exists l', n. split; [exact Hrun|]. split; [lia|]. split; [lia|].
      rewrite Htake. rewrite filter_cons_False by (intros H; by apply H).
      assert (Hti : length (take i l) = i) by (rewrite length_take; lia).
      subst l1. rewrite take_app_length' by done.
      rewrite drop_app_length' by done.
      rewrite take_app_length'; [done|]. rewrite length_take, length_drop. lia.
    + destruct (IH (S i) l) as (l' & n & Hrun & Hlen' & Hn & Htake); [lia|].
      exists l', n. split; [exact Hrun|]. split; [done|]. split; [lia|].
      rewrite Htake. rewrite filter_cons_True by done.
      rewrite (take_S_r l i p Hp). by rewrite <- app_assoc.
Qed.

(** The in-place removal loop of [nvQueryConfigProfiles] is a filter: it
    stays inside the array, and when it ends the first [profiles] slots
    hold, in their order, the profiles that [vaToCuCodec] maps to a decoder
    codec. *)
Theorem remove_unsupported_filters (profile_list : list VAProfile) :
  exists l' n,
    remove_unsupported (length profile_list) 0 profile_list = Some (l', n) /\
    length l' = length profile_list /\
    (n <= length profile_list)%nat /\
    take n l' = filter (fun p => vaToCuCodec p <> cudaVideoCodec_NONE) profile_list.
Proof.
  destruct (remove_unsupported_spec (length profile_list) 0 profile_list)
    as (l' & n & Hrun & Hlen & Hn & Htake); [lia|].
  exists l', n. split; [exact Hrun|]. split; [exact Hlen|]. split; [exact Hn|].
  rewrite Htake. rewrite take_0, drop_0, app_nil_l. by rewrite firstn_all.
Qed.

Lemma add_profiles_bind {R B} (gpu : DecoderCaps) (codec : cudaVideoCodec) (bitDepth : Z)
    (chromaFormat : cudaVideoChromaFormat) (ps l : list VAProfile)
    (f : list VAProfile -> M R B) (w : World) :
  CUVIDDECODECAPS.r_cuvidGetDecoderCaps (gpu codec (bitDepth - 8) chromaFormat) = CUDA_SUCCESS ->
  (add_profiles gpu codec bitDepth chromaFormat ps l ≫= f) w =
    f (add_if (bool_decide
                 (CUVIDDECODECAPS.bIsSupported (gpu codec (bitDepth - 8) chromaFormat) = 1))
         l ps) w.
Proof.
  intros Hok. unfold add_profiles, doesGPUSupportCodec, checkCudaErrors.
  rewrite Hok. rewrite (bool_decide_eq_true_2 (CUDA_SUCCESS = CUDA_SUCCESS)) by done.
  msteps. reflexivity.
Qed.

Lemma sublist_eq_target {A} (l k k' : list A) :
  l `sublist_of` k -> k = k' -> l `sublist_of` k'.
Proof. by intros ? <-. Qed.

Lemma sublist_add (b : bool) (l A ps : list VAProfile) :
  l `sublist_of` A -> add_if b l ps `sublist_of` (A ++ ps).
Proof.
  intros Hsub. destruct b; [by apply sublist_app|by apply sublist_inserts_r].
Qed.

(** [nvQueryConfigProfiles], when the device context can be pushed and
    popped and the capability queries succeed: it fills at most 27 slots of
    the array, fewer than MAX_PROFILES, reports no profile twice, reports
    only profiles that a codec module decodes (so that [nvCreateConfig]
    does not answer UNSUPPORTED_PROFILE for them), and reports profiles of
    more than 8 bits or with 4:4:4 chroma only when the driver supports
    such surfaces.  It changes neither registry nor store. *)
Theorem nvQueryConfigProfiles_reports (e : Env) (gpu : DecoderCaps) (w : World) :
  Env.r_cuCtxPushCurrent e = CUDA_SUCCESS ->
  Env.r_cuCtxPopCurrent e = CUDA_SUCCESS ->
  (forall codec depth chroma,
     CUVIDDECODECAPS.r_cuvidGetDecoderCaps (gpu codec depth chroma) = CUDA_SUCCESS) ->
  exists profile_list num_profiles w',
    nvQueryConfigProfiles e gpu w = (Val (profile_list, num_profiles), w') /\
    World.drv w' = World.drv w /\ World.heap w' = World.heap w /\
    0 <= num_profiles <= len profile_list /\
    len profile_list <= 27 /\ 27 < MAX_PROFILES /\
    NoDup (take (Z.to_nat num_profiles) profile_list) /\
    (forall p, p ∈ take (Z.to_nat num_profiles) profile_list ->
       vaToCuCodec p <> cudaVideoCodec_NONE /\
       p ∈ reportable_profiles (NVDriver.supports16BitSurface (World.drv w))
             (NVDriver.supports444Surface (World.drv w))).
Proof.
  intros Hpush Hpop Hcaps.
  unfold nvQueryConfigProfiles. rewrite get_drv_bind. cbn beta. msteps.
  destruct (NVDriver.supports16BitSurface (World.drv w)),
           (NVDriver.supports444Surface (World.drv w));
    repeat first [ rewrite bind_assoc | rewrite mret_bind
                 | rewrite add_profiles_bind by apply Hcaps ]; cbn beta.
  all: match goal with |- context [remove_unsupported _ 0 ?L] => set (cand := L) end.
  all: match goal with
       | |- context [reportable_profiles ?a ?b] =>
           assert (Hsub : cand `sublist_of` reportable_profiles a b);
             [eapply sublist_eq_target;
                [subst cand; repeat apply sublist_add; exact (sublist_nil_l [])|reflexivity]|];
           assert (Hnd : NoDup (reportable_profiles a b))
             by (apply (bool_decide_unpack _); vm_compute; exact I);
           assert (Hmax : len (reportable_profiles a b) <= 27)
             by (vm_compute; discriminate)
       end.
  all: destruct (remove_unsupported_filters cand) as (l' & n & Hrun & Hlen & Hn & Htake).
  all: rewrite Hrun; msteps; rewrite mret_run.
  all: exists l', (Z.of_nat n); eexists; split; [reflexivity|]; wsimpl.
  all: split; [done|]; split; [done|]; rewrite Nat2Z.id.
  all: apply sublist_length in Hsub as Hsublen.
  all: split; [unfold len; lia|]; split; [unfold len in *; lia|]; split; [done|].
  all: rewrite Htake; split;
         [apply NoDup_filter; by eapply sublist_NoDup|
          intros p [Hgood Hin]%list_elem_of_filter; split; [done|];
          by eapply elem_of_sublist].
Qed.


End QueryProps.

(** ** Picture indices and buffer dispatch *)

Section PictureProps.
Context {hdr : Headers} {cds : Codecs}.

(** [pictureIdxFromSurfaceId], unlike the entry points, looks at the type
    of the object: for an id that names no object, or an object that is no
    Surface, it answers -1 without reading the store.  For a Surface it
    reports the index that [nvBeginPicture] has assigned: after a
    successful [nvBeginPicture] the index the picture is decoded under, and
    -1 after one that failed with MAX_NUM_EXCEEDED. *)
Theorem pictureIdxFromSurfaceId_reports
    (w : World) (context render_target : VAGenericID) :
  ((getObject (World.drv w) render_target = None \/
    exists o, getObject (World.drv w) render_target = Some o /\
              Object_t.type o <> OBJECT_TYPE_SURFACE) ->
   pictureIdxFromSurfaceId (R := VAStatus) render_target w = (Val (-1), w)) /\
  (forall o a p c s,
     getObject (World.drv w) render_target = Some o ->
     Object_t.type o = OBJECT_TYPE_SURFACE -> Object_t.obj o = Some p ->
     getObjectPtr (World.drv w) context = Some a ->
     World.heap w !! a = Some (PContext c) ->
     World.heap w !! p = Some (PSurface s) ->
     exists out w' idx,
       nvBeginPicture context render_target w = (out, w') /\
       pictureIdxFromSurfaceId (R := VAStatus) render_target w' = (Val idx, w') /\
       (out = Val VA_STATUS_SUCCESS \/ out = Return VA_STATUS_ERROR_MAX_NUM_EXCEEDED) /\
       (out = Return VA_STATUS_ERROR_MAX_NUM_EXCEEDED -> idx = -1) /\
       (out = Val VA_STATUS_SUCCESS ->
          idx = if bool_decide (bound_elsewhere s a \/ NVSurface.pictureIdx s = -1)
                then NVContext.currentPictureId c else NVSurface.pictureIdx s)).
Proof.
  split.
  - intros Hno. unfold pictureIdxFromSurfaceId, nvSurfaceFromSurfaceId.
    rewrite get_drv_bind. cbn beta zeta.
    destruct Hno as [->|(o & -> & Hty)]; [done|].
    by rewrite bool_decide_eq_false_2.
  - intros o a p c s Ho Hty Hobj Ha Hc Hs.
    assert (Hp : getObjectPtr (World.drv w) render_target = Some p).
    { unfold getObjectPtr. rewrite Ho.
      destruct (getObject_Some _ _ _ Ho) as (Hvalid & _).
      by rewrite bool_decide_eq_true_2. }
    destruct (nvBeginPicture_run w context render_target a p c s Ha Hp Hc Hs)
      as (out & w' & s' & Hrun & Hdrv & _ & Hp' & _ & _ & Hfull & Hfree & Hkeep).
    exists out, w', (NVSurface.pictureIdx s'). split; [exact Hrun|].
    split.
    { unfold pictureIdxFromSurfaceId, nvSurfaceFromSurfaceId.
      rewrite get_drv_bind. cbn beta zeta. rewrite Hdrv, Ho.
      rewrite bool_decide_eq_true_2 by done. rewrite Hobj. msteps. reflexivity. }
    set (idx0 := if bool_decide (bound_elsewhere s a) then -1 else NVSurface.pictureIdx s)
      in *.
    destruct (decide (idx0 = -1)) as [Hidx|Hidx].
    + assert (Hcond : bound_elsewhere s a \/ NVSurface.pictureIdx s = -1).
      { subst idx0. case_bool_decide; [by left|by right]. }
      rewrite (bool_decide_eq_true_2 _ Hcond).
      destruct (decide (NVContext.currentPictureId c = NVContext.surfaceCount c))
        as [Hmax|Hmax].
      * destruct (Hfull Hidx Hmax) as (-> & Hs' & _).
        split; [by right|]. split; [done|]. done.
      * destruct (Hfree Hidx Hmax) as (-> & Hs' & _).
        split; [by left|]. split; [done|]. done.
    + assert (Hcond : ~ (bound_elsewhere s a \/ NVSurface.pictureIdx s = -1)).
      { subst idx0. case_bool_decide; [done|]. tauto. }
      rewrite (bool_decide_eq_false_2 _ Hcond).
      destruct (Hkeep Hidx) as (-> & Hs' & _).
      split; [by left|]. split; [done|]. done.
Qed.

(** [nvRenderPicture] on buffers that are alive: it hands each buffer, in
    the order of the list, to the handler that the Context's codec has for
    the buffer's type, and skips the types without handler with a log
    line; the handlers see the Context as the handlers before them left
    it.  Nothing but the Context changes. *)
Theorem nvRenderPicture_dispatches
    (targets : list (VAGenericID * addr * NVBuffer))
    (w : World) (context : VAGenericID) (a : addr) (c : NVContext)
    (slot : nat) (codec : NVCodec) :
  getObjectPtr (World.drv w) context = Some a ->
  World.heap w !! a = Some (PContext c) ->
  NVContext.codec c = Some slot -> nvd_codecs !! slot = Some codec ->
  (forall func c0 b, Some func ∈ NVCodec.handlers codec ->
     NVContext.codec (func c0 b) = NVContext.codec c0) ->
  Forall (dispatchable w codec) targets ->
  exists w' evs,
    nvRenderPicture context (fst ∘ fst <$> targets) w = (Val VA_STATUS_SUCCESS, w') /\
    World.drv w' = World.drv w /\
    (forall q, q <> a -> World.heap w' !! q = World.heap w !! q) /\
    World.heap w' !! a = Some (PContext (foldl (dispatch codec) c (snd <$> targets))) /\
    World.trace w' = World.trace w ++ evs /\
    Forall (fun ev => exists fmt args, ev = Log fmt args) evs.
Proof.
  revert w c. induction targets as [|[[id p] b] targets IH];
    intros w c Hctx Hc Hslot Hcodec Hpres Hall.
  - unfold nvRenderPicture. rewrite get_drv_bind. cbn beta zeta. rewrite Hctx.
    cbn [fmap list_fmap for_each]. msteps. rewrite mret_run.
    exists w, []. split; [reflexivity|]. split_and!; try done. by rewrite app_nil_r.
  - apply Forall_cons in Hall as [(Hp & Hb & Hptr & Hty) Hall].
    destruct (getObjectPtr_find _ _ _ Hp) as (o & Ho & Hobj).
    assert (Hpa : p <> a) by congruence.
    destruct (lookup_lt_is_Some_2 (NVCodec.handlers codec)
                (Z.to_nat (NVBuffer.bufferType b))) as [h Hh]; [unfold len in Hty; lia|].
    assert (Hstep : exists w1 c1 evs1,
      World.drv w1 = World.drv w /\
      (forall q, q <> a -> World.heap w1 !! q = World.heap w !! q) /\
      World.heap w1 !! a = Some (PContext c1) /\
      c1 = dispatch codec c b /\ NVContext.codec c1 = Some slot /\
      World.trace w1 = World.trace w ++ evs1 /\
      Forall (fun ev => exists fmt args, ev = Log fmt args) evs1 /\
      nvRenderPicture context (fst ∘ fst <$> (id, p, b) :: targets) w =
        nvRenderPicture context (fst ∘ fst <$> targets) w1).
    { assert (Hd : dispatch codec c b = match h with Some func => func c b | None => c end).
      { unfold dispatch. unfold HandlerFunc in *. by rewrite Hh. }
      rewrite Hd. unfold HandlerFunc in *. destruct h as [func|].
      - eexists (World.upd a (PContext (func c b)) w), _, [].
        split; [reflexivity|]. split; [intros q Hq; lookup_simpl; reflexivity|].
        split; [lookup_simpl; reflexivity|]. split; [reflexivity|].
        split; [rewrite Hpres; [done|]; by eapply list_elem_of_lookup_2|].
        split; [by rewrite app_nil_r|]. split; [done|].
        unfold nvRenderPicture. rewrite !get_drv_bind. cbn beta zeta. wsimpl. rewrite Hctx.
        cbn [fmap list_fmap for_each compose fst].
        rewrite !bind_assoc, get_drv_bind. rewrite Ho, Hobj. msteps.
        rewrite (bool_decide_eq_false_2 _ Hptr). msteps. rewrite Hslot, Hcodec.
        rewrite (bool_decide_eq_true_2 (0 <= NVBuffer.bufferType b)) by lia.
        unfold HandlerFunc in *. rewrite Hh. msteps. reflexivity.
      - eexists (World.log (Log "Unhandled buffer type: %d" [NVBuffer.bufferType b]) w), _, [_].
        split; [reflexivity|]. split; [done|]. split; [exact Hc|]. split; [reflexivity|].
        split; [done|]. split; [reflexivity|].
        split; [apply Forall_singleton; by eexists _, _|].
        unfold nvRenderPicture. rewrite !get_drv_bind. cbn beta zeta. wsimpl. rewrite Hctx.
        cbn [fmap list_fmap for_each compose fst].
        rewrite !bind_assoc, get_drv_bind. rewrite Ho, Hobj. msteps.
        rewrite (bool_decide_eq_false_2 _ Hptr). msteps. rewrite Hslot, Hcodec.
        rewrite (bool_decide_eq_true_2 (0 <= NVBuffer.bufferType b)) by lia.
        unfold HandlerFunc in *. rewrite Hh. msteps. reflexivity. }
    destruct Hstep as (w1 & c1 & evs1 & Hdrv1 & Hframe1 & Ha1 & Hc1 & Hslot1 & Htrace1
                       & Hlogs1 & Hrun1).
    destruct (IH w1 c1) as (w' & evs & Hrun & Hdrv & Hframe & Ha & Htrace & Hlogs);
      [by rewrite Hdrv1|done|done|done|done| |].
    { eapply Forall_impl; [exact Hall|]. intros [[id' p'] b'] (Hp' & Hb' & Hptr' & Hty').
      assert (p' <> a) by congruence.
      unfold dispatchable. rewrite Hdrv1, Hframe1 by done. done. }
    exists w', (evs1 ++ evs). rewrite Hrun1. split; [exact Hrun|].
    split; [by rewrite Hdrv|].
    split; [intros q Hq; by rewrite Hframe, Hframe1|].
    split; [rewrite Ha, Hc1; reflexivity|].
    split; [by rewrite Htrace, Htrace1, app_assoc|by apply Forall_app].
Qed.

End PictureProps.

(* ================================================================== *)
(** * The further properties on concrete runs *)

Section Runs.
#[local] Existing Instance demo_headers.
#[local] Existing Instance demo_codecs.

Ltac solve_wf :=
  unfold registry_wf; split_and!;
  first [ apply (bool_decide_unpack _); vm_compute; exact I | vm_compute; done ].

Ltac solve_NoDup := apply (bool_decide_unpack _); vm_compute; exact I.

Lemma demo_config_wf : registry_wf (World.drv demo_config).
Proof. solve_wf. Qed.

Lemma demo_surfaces_wf : registry_wf (World.drv demo_surfaces).
Proof. solve_wf. Qed.

Lemma demo_context2_wf : registry_wf (World.drv demo_context2).
Proof. solve_wf. Qed.

Lemma demo_buffer_wf : registry_wf (World.drv demo_buffer).
Proof. solve_wf. Qed.

Lemma allocateObject_registers_witness :
  exists new p w',
    allocateObject (R := VAStatus) OBJECT_TYPE_BUFFER (PBuffer NVBuffer.zero) demo_buffer
      = (Val new, w') /\
    new = Object_t.mk OBJECT_TYPE_BUFFER 8 (Some p) /\
    getObject (hdr := demo_headers) (World.drv w') 8 = Some new.
Proof.
  destruct (allocateObject_registers (hdr := demo_headers) (R := VAStatus) demo_buffer
              OBJECT_TYPE_BUFFER (PBuffer NVBuffer.zero))
    as (new & p & w' & Hrun & Hnew & _ & _ & _ & _ & Hget & _);
    [exact demo_buffer_wf|vm_compute; reflexivity|vm_compute; discriminate|].
  assert (Hn : NVDriver.nextObjId (World.drv demo_buffer) + 1 = 8) by (vm_compute; reflexivity).
  rewrite Hn in Hnew. rewrite Hnew in Hget. cbn [Object_t.id] in Hget.
  exists new, p, w'. split; [exact Hrun|]. split; [exact Hnew|]. rewrite Hnew. exact Hget.
Defined.

Lemma nvCreateSurfaces2_creates_witness :
  exists w',
    nvCreateSurfaces2 Env.ok VA_RT_FORMAT_YUV420_10 1919 1080 3 demo_config
      = (Val VA_STATUS_SUCCESS, w') /\
    outs (new_events demo_config w') = [2; 3; 4] /\
    NVDriver.surfaceCount (World.drv w') = 3.
Proof.
  destruct (nvCreateSurfaces2_creates (hdr := demo_headers) Env.ok demo_config
              VA_RT_FORMAT_YUV420_10 1919 1080 3
              cudaVideoSurfaceFormat_P016 cudaVideoChromaFormat_420 10)
    as (w' & Hrun & Houts & _ & _ & _ & Hcount & _);
    [reflexivity|exact demo_config_wf|lia|vm_compute; reflexivity| |reflexivity|].
  { assert (Hn : NVDriver.nextObjId (World.drv demo_config) = 1) by (vm_compute; reflexivity).
    rewrite Hn. intros i Hi. change (VA_INVALID_ID) with 0xffffffff. lia. }
  exists w'. split; [exact Hrun|]. split; [exact Houts|]. exact Hcount.
Defined.

Lemma nvDestroySurfaces_destroys_witness :
  exists w',
    nvDestroySurfaces (hdr := demo_headers) [2; 3] demo_buffer = (Val VA_STATUS_SUCCESS, w') /\
    getObject (hdr := demo_headers) (World.drv w') 2 = None /\
    World.heap w' !! 3%positive = None /\
    NVDriver.surfaceCount (World.drv w') = 0.
Proof.
  destruct (nvDestroySurfaces_destroys (hdr := demo_headers)
              [(2, 2%positive); (3, 3%positive)] demo_buffer)
    as (w' & Hrun & Hgone & _ & Hfreed & _ & _ & Hcount & _);
    [solve_NoDup|solve_NoDup|solve_NoDup| |].
  { intros id p Hin.
    apply elem_of_cons in Hin as [Heq|Hin];
      [|apply elem_of_cons in Hin as [Heq|Hin]; [|by apply elem_of_nil in Hin]];
      injection Heq as -> ->;
      (split; [vm_compute; reflexivity|eexists; vm_compute; reflexivity]). }
  exists w'. split; [exact Hrun|].
  split; [apply Hgone; cbn; by repeat constructor|].
  split; [apply Hfreed; cbn; by repeat constructor|].
  rewrite Hcount. vm_compute. reflexivity.
Defined.

Ltac solve_create_context_hyps :=
  first
    [ exact demo_surfaces_wf
    | exists 2%positive, (surface_at demo_surfaces 2%positive);
      split_and!; vm_compute; reflexivity
    | vm_compute; reflexivity
    | vm_compute; discriminate ].

Lemma nvCreateContext_creates_witness :
  exists w' a c,
    nvCreateContext (hdr := demo_headers) (cds := demo_codecs)
      Env.ok 1 1920 1080 0 [2; 3] demo_surfaces = (Val VA_STATUS_SUCCESS, w') /\
    getObject (hdr := demo_headers) (World.drv w') 5
      = Some (Object_t.mk OBJECT_TYPE_CONTEXT 5 (Some a)) /\
    World.heap w' !! a = Some (PContext c) /\
    NVContext.surfaceCount c = 2.
Proof.
  destruct (nvCreateContext_creates (hdr := demo_headers) (cds := demo_codecs)
              Env.ok demo_surfaces 1 1%positive
              (config_at demo_surfaces 1%positive) (config_at demo_surfaces 1%positive)
              1920 1080 0 [2; 3] 0%nat)
    as (w' & a & c & vdci & Hrun & _ & Hget & _ & _ & Hc & _ & _ & _ & Hcount & _);
    [solve_create_context_hyps ..|].
  assert (Hn : NVDriver.nextObjId (World.drv demo_surfaces) + 1 = 5)
    by (vm_compute; reflexivity).
  rewrite Hn in Hget.
  exists w', a, c. split; [exact Hrun|]. split; [exact Hget|]. split; [exact Hc|].
  rewrite Hcount. vm_compute. reflexivity.
Defined.

Lemma nvCreateContext_resets_surface_count_witness :
  NVDriver.surfaceCount (World.drv demo_surfaces) = 3 /\
  NVDriver.surfaceCount (World.drv demo_context) = 0.
Proof.
  split; [vm_compute; reflexivity|].
  exact (nvCreateContext_resets_surface_count (hdr := demo_headers) (cds := demo_codecs)
           Env.ok demo_surfaces 1 1%positive
           (config_at demo_surfaces 1%positive) (config_at demo_surfaces 1%positive)
           1920 1080 0 [2; 3] 0%nat
           ltac:(solve_create_context_hyps) ltac:(solve_create_context_hyps)
           ltac:(solve_create_context_hyps) ltac:(solve_create_context_hyps)
           ltac:(solve_create_context_hyps) ltac:(solve_create_context_hyps)
           ltac:(solve_create_context_hyps)).
Defined.

Lemma nvCreateContext_thread_failure_rolls_back_witness :
  exists w',
    nvCreateContext (hdr := demo_headers) (cds := demo_codecs)
      env_thread_fails 1 1920 1080 0 [2; 3] demo_surfaces
      = (Return VA_STATUS_ERROR_OPERATION_FAILED, w') /\
    NVDriver.objects (World.drv w') = NVDriver.objects (World.drv demo_surfaces) /\
    NVDriver.nextObjId (World.drv w') = 5.
Proof.
  destruct (nvCreateContext_thread_failure_rolls_back
              (hdr := demo_headers) (cds := demo_codecs)
              env_thread_fails demo_surfaces 1 1%positive
              (config_at demo_surfaces 1%positive) (config_at demo_surfaces 1%positive)
              1920 1080 0 [2; 3] 0%nat)
    as (w' & Hrun & Hobjs & _ & _ & Hnext & _);
    [solve_create_context_hyps ..|].
  assert (Hn : NVDriver.nextObjId (World.drv demo_surfaces) + 1 = 5)
    by (vm_compute; reflexivity).
  rewrite Hn in Hnext.
  exists w'. split; [exact Hrun|]. split; [exact Hobjs|exact Hnext].
Defined.

Lemma nvCreateContext_adopts_first_render_target_witness :
  exists out w' k',
    nvCreateContext (hdr := demo_headers) (cds := demo_codecs)
      Env.ok 1 1920 1080 0 [2; 3] demo_surfaces = (out, w') /\
    World.heap w' !! 1%positive = Some (PConfig k') /\
    NVConfig.surfaceFormat k' = cudaVideoSurfaceFormat_P016 /\
    NVConfig.bitDepth k' = 10.
Proof.
  destruct (nvCreateContext_adopts_first_render_target
              (hdr := demo_headers) (cds := demo_codecs)
              Env.ok demo_surfaces 1 2 1%positive 2%positive
              (config_at demo_surfaces 1%positive) (surface_at demo_surfaces 2%positive)
              1920 1080 0 [3] 0%nat)
    as (out & w' & k' & Hrun & Hk' & Hfmt & _ & Hdepth & _);
    [solve_create_context_hyps ..|].
  exists out, w', k'. split; [exact Hrun|]. split; [exact Hk'|].
  split; [rewrite Hfmt|rewrite Hdepth]; vm_compute; reflexivity.
Defined.


Lemma nvDestroyContext_frees_context_witness :
  exists w',
    nvDestroyContext Env.ok 0 CUDA_SUCCESS 5 demo_buffer
      = (Val VA_STATUS_SUCCESS, w') /\
    getObject (hdr := demo_headers) (World.drv w') 5 = None /\
    resolveSurfaces_iteration Env.ok demo_ctx_addr w'
      = (Crash UseAfterFree, w').
Proof.
  destruct (nvDestroyContext_frees_context
              Env.ok Env.ok 0 CUDA_SUCCESS demo_buffer 5 demo_ctx_addr
              (context_at (hdr := demo_headers) demo_buffer demo_ctx_addr))
    as (w' & Hrun & Hgone & _ & _ & _ & _ & _ & Hworker & _);
    [vm_compute; reflexivity|vm_compute; reflexivity|solve_NoDup|].
  exists w'. split; [|split; [exact Hgone|exact Hworker]].
  rewrite Hrun. f_equal.
Defined.


Lemma demo_vp8_context_wf : registry_wf (World.drv demo_vp8_context).
Proof. solve_wf. Qed.

Lemma nvCreateBuffer_then_map_witness :
  (exists w' blk,
     nvCreateBuffer Env.ok 5 VASliceDataBufferType 2 3 (Some demo_data) demo_context2
       = (Val VA_STATUS_SUCCESS, w') /\
     nvMapBuffer 7 w' = (Val (Some blk), w') /\
     blk = replicate 6 (Some x2a)) /\
  (exists w' blk,
     nvCreateBuffer Env.ok 2 VASliceDataBufferType 2 3 (Some demo_data_low) demo_vp8_context
       = (Val VA_STATUS_SUCCESS, w') /\
     nvMapBuffer 3 w' = (Val (Some blk), w') /\
     blk = replicate 30 None).
Proof.
  split.
  - destruct (nvCreateBuffer_then_map Env.ok demo_context2 5 demo_ctx_addr
                (context_at demo_context2 demo_ctx_addr)
                VASliceDataBufferType 2 3 (Some demo_data))
      as (w' & blk & Hrun & _ & Hmap & Hblk & _);
      [vm_compute; reflexivity|vm_compute; reflexivity|exact demo_context2_wf
      |vm_compute; reflexivity|vm_compute; discriminate|reflexivity
      |vm_compute; discriminate|].
    assert (Hn : NVDriver.nextObjId (World.drv demo_context2) + 1 = 7)
      by (vm_compute; reflexivity).
    rewrite Hn in Hmap.
    exists w', blk. split; [exact Hrun|]. split; [exact Hmap|].
    rewrite Hblk. vm_compute. reflexivity.
  - destruct (nvCreateBuffer_then_map Env.ok demo_vp8_context 2 2%positive
                (context_at demo_vp8_context 2%positive)
                VASliceDataBufferType 2 3 (Some demo_data_low))
      as (w' & blk & Hrun & _ & Hmap & _ & _ & Hlow);
      [vm_compute; reflexivity|vm_compute; reflexivity|exact demo_vp8_context_wf
      |vm_compute; reflexivity|vm_compute; discriminate|reflexivity
      |vm_compute; discriminate|].
    assert (Hn : NVDriver.nextObjId (World.drv demo_vp8_context) + 1 = 3)
      by (vm_compute; reflexivity).
    rewrite Hn in Hmap.
    exists w', blk. split; [exact Hrun|]. split; [exact Hmap|].
    rewrite Hlow; [vm_compute; reflexivity|vm_compute; reflexivity|].
    split; vm_compute; reflexivity.
Defined.

Lemma nvDestroyBuffer_removes_witness :
  exists w',
    nvDestroyBuffer 7 demo_buffer = (Val VA_STATUS_SUCCESS, w') /\
    nvMapBuffer 7 w' = (Return VA_STATUS_ERROR_INVALID_BUFFER, w') /\
    nvRenderPicture 5 [7] w' = (Crash NullDeref, w').
Proof.
  destruct (nvDestroyBuffer_removes demo_buffer 7 5 7%positive demo_ctx_addr
              (buffer_at demo_buffer 7%positive) [])
    as (w' & Hrun & _ & _ & _ & _ & Hmap & _ & Hrender);
    [vm_compute; reflexivity|vm_compute; reflexivity|solve_NoDup
    |vm_compute; reflexivity|discriminate|].
  exists w'. split; [exact Hrun|]. split; [exact Hmap|exact Hrender].
Defined.


Lemma nvRenderPicture_dispatches_witness :
  exists w' c',
    nvRenderPicture 5 [7] demo_buffer = (Val VA_STATUS_SUCCESS, w') /\
    World.heap w' !! demo_ctx_addr = Some (PContext c') /\
    CUVIDPICPARAMS.second_field (NVContext.pPicParams c') = 1.
Proof.
  destruct (nvRenderPicture_dispatches
              [(7, 7%positive, buffer_at demo_buffer 7%positive)]
              demo_buffer 5 demo_ctx_addr (context_at demo_buffer demo_ctx_addr)
              0%nat demo_hevc)
    as (w' & evs & Hrun & _ & _ & Hc' & _);
    [vm_compute; reflexivity|vm_compute; reflexivity|vm_compute; reflexivity
    |reflexivity| | |].
  { intros func c0 b Hin. cbn in Hin.
    apply elem_of_cons in Hin as [Heq|Hin]; [injection Heq as ->; reflexivity|].
    repeat (apply elem_of_cons in Hin as [Heq|Hin]; [discriminate Heq|]).
    by apply elem_of_nil in Hin. }
  { apply Forall_cons. split; [|apply Forall_nil_2].
    unfold dispatchable.
    split; [vm_compute; reflexivity|]. split; [vm_compute; reflexivity|].
    split; [vm_compute; discriminate|].
    split; [vm_compute; discriminate|vm_compute; reflexivity]. }
  eexists w', _. split; [exact Hrun|]. split; [exact Hc'|].
  vm_compute. reflexivity.
Defined.



Lemma nvQueryConfigProfiles_reports_witness :
  exists profile_list num_profiles w',
    nvQueryConfigProfiles Env.ok demo_caps demo_init
      = (Val (profile_list, num_profiles), w') /\
    0 <= num_profiles <= 27 /\
    NoDup (take (Z.to_nat num_profiles) profile_list).
Proof.
  destruct (nvQueryConfigProfiles_reports Env.ok demo_caps demo_init)
    as (l & n & w' & Hrun & _ & _ & Hn & Hlen & _ & Hnd & _);
    [reflexivity|reflexivity|intros; reflexivity|].
  exists l, n, w'. split; [exact Hrun|]. split; [lia|exact Hnd].
Defined.

Lemma unknown_context_id_handling_witness :
  nvCreateBuffer Env.ok 99 VAPictureParameterBufferType 8 1 None demo_buffer
    = (Return VA_STATUS_ERROR_INVALID_CONTEXT, demo_buffer) /\
  nvRenderPicture 99 [7] demo_buffer = (Return VA_STATUS_ERROR_INVALID_CONTEXT, demo_buffer) /\
  nvEndPicture Env.ok 99 demo_buffer = (Crash NullDeref, demo_buffer).
Proof.
  apply (unknown_context_id_handling Env.ok demo_buffer 99).
  vm_compute. reflexivity.
Defined.

Ltac solve_slots :=
  let i := fresh "i" in
  let q := fresh "q" in
  let Hi := fresh "Hi" in
  intros i q Hi;
  repeat (destruct i as [|i];
          [cbn in Hi; injection Hi as <-; vm_compute; reflexivity|]);
  cbn in Hi; discriminate Hi.

Ltac solve_ring :=
  unfold ring_holds; split_and!;
  first [ solve_slots | vm_compute; reflexivity | vm_compute; discriminate ].

Ltac solve_run_hyps :=
  first [ solve_ring | vm_compute; reflexivity | vm_compute; discriminate ].

Lemma nvEndPicture_decode_result_witness :
  exists w' s',
    nvEndPicture env_decode_fails 5 demo_begin = (Val VA_STATUS_ERROR_DECODING_ERROR, w') /\
    World.heap w' !! demo_surface_addr = Some (PSurface s') /\
    NVSurface.decodeFailed s' = true.
Proof.
  destruct (nvEndPicture_decode_result env_decode_fails demo_begin 5
              (Object_t.mk OBJECT_TYPE_CONTEXT 5 (Some demo_ctx_addr))
              demo_ctx_addr demo_surface_addr
              (context_at demo_begin demo_ctx_addr)
              (surface_at demo_begin demo_surface_addr))
    as (w' & s' & pic & Hrun & Hs' & Hfailed & _);
    [vm_compute; reflexivity|reflexivity|vm_compute; reflexivity|vm_compute; reflexivity
    |vm_compute; reflexivity|split; [vm_compute; discriminate|vm_compute; reflexivity]
    |reflexivity|reflexivity|].
  exists w', s'. split; [exact Hrun|]. split; [exact Hs'|exact Hfailed].
Defined.

Lemma nvEndPicture_enqueues_in_order_witness :
  exists st w' c',
    nvEndPicture Env.ok 5 demo_begin = (Val st, w') /\
    World.heap w' !! demo_ctx_addr = Some (PContext c') /\
    ring_holds c' [demo_surface_addr].
Proof.
  destruct (nvEndPicture_enqueues_in_order Env.ok demo_begin 5
              (Object_t.mk OBJECT_TYPE_CONTEXT 5 (Some demo_ctx_addr))
              demo_ctx_addr demo_surface_addr
              (context_at demo_begin demo_ctx_addr)
              (surface_at demo_begin demo_surface_addr) [])
    as (st & w' & c' & Hrun & Hc' & _ & Hring);
    [solve_run_hyps ..|].
  exists st, w', c'. split; [exact Hrun|]. split; [exact Hc'|exact Hring].
Defined.

Lemma resolveSurfaces_iteration_dequeues_in_order_witness :
  exists w' c',
    resolveSurfaces_iteration Env.ok demo_ctx_addr demo_end = (Val (), w') /\
    World.heap w' !! demo_ctx_addr = Some (PContext c') /\
    ring_holds c' [] /\
    handles (new_events demo_end w') demo_surface_addr.
Proof.
  destruct (resolveSurfaces_iteration_dequeues_in_order Env.ok demo_end
              demo_ctx_addr demo_surface_addr
              (context_at demo_end demo_ctx_addr)
              (surface_at demo_end demo_surface_addr) [])
    as (w' & c' & Hrun & Hc' & _ & Hring & Hh);
    [solve_run_hyps ..|].
  exists w', c'. split; [exact Hrun|]. split; [exact Hc'|]. split; [exact Hring|exact Hh].
Defined.

Lemma nvEndPicture_full_ring_looks_empty_witness :
  exists st w',
    nvEndPicture Env.ok 5 demo_ring_full = (Val st, w') /\
    resolveSurfaces_iteration Env.ok demo_ctx_addr w'
      = (Blocked (resolveCondition demo_ctx_addr), w').
Proof.
  destruct (nvEndPicture_full_ring_looks_empty Env.ok demo_ring_full 5
              (Object_t.mk OBJECT_TYPE_CONTEXT 5 (Some demo_ctx_addr))
              demo_ctx_addr demo_surface_addr
              (context_at demo_ring_full demo_ctx_addr)
              (surface_at demo_ring_full demo_surface_addr)
              (replicate 15 demo_surface_addr))
    as (st & w' & Hrun & _ & Hblocked);
    [solve_run_hyps ..|].
  exists st, w'. split; [exact Hrun|exact Hblocked].
Defined.

Lemma decode_failure_unblocks_sync_witness :
  exists w1 w2,
    nvEndPicture env_decode_fails 5 demo_begin = (Val VA_STATUS_ERROR_DECODING_ERROR, w1) /\
    resolveSurfaces_iteration Env.ok demo_ctx_addr w1 = (Val (), w2) /\
    nvSyncSurface 2 w2 = (Val VA_STATUS_SUCCESS, w2).
Proof.
  destruct (decode_failure_unblocks_sync env_decode_fails Env.ok demo_begin 5 2
              (Object_t.mk OBJECT_TYPE_CONTEXT 5 (Some demo_ctx_addr))
              demo_ctx_addr demo_surface_addr
              (context_at demo_begin demo_ctx_addr)
              (surface_at demo_begin demo_surface_addr))
    as (w1 & w2 & Hrun & Hiter & _ & Hsync);
    [solve_run_hyps ..|].
  exists w1, w2. split; [exact Hrun|]. split; [exact Hiter|exact Hsync].
Defined.

Lemma pop_failure_leaves_sync_suspended_witness :
  exists w',
    nvEndPicture env_decode_and_pop_fail 5 demo_begin
      = (Return VA_STATUS_ERROR_OPERATION_FAILED, w') /\
    nvSyncSurface 2 w' = (Blocked (surfaceCond demo_surface_addr), w').
Proof.
  destruct (pop_failure_leaves_sync_suspended env_decode_and_pop_fail Env.ok demo_begin 5 2
              (Object_t.mk OBJECT_TYPE_CONTEXT 5 (Some demo_ctx_addr))
              demo_ctx_addr demo_surface_addr
              (context_at demo_begin demo_ctx_addr)
              (surface_at demo_begin demo_surface_addr))
    as (w' & Hrun & _ & Hsync);
    [solve_run_hyps ..|].
  exists w'. split; [exact Hrun|exact Hsync].
Defined.



Lemma deleteObject_removes_witness :
  deleteObject (R := VAStatus) 99 demo_buffer = (Val (), demo_buffer) /\
  exists w',
    deleteObject (R := VAStatus) 7 demo_buffer = (Val (), w') /\
    getObject (World.drv w') 7 = None /\
    World.heap w' !! 7%positive = None.
Proof.
  split.
  - apply (deleteObject_removes (R := VAStatus) demo_buffer 99). vm_compute. reflexivity.
  - destruct (proj2 (deleteObject_removes (R := VAStatus) demo_buffer 7)
                (Object_t.mk OBJECT_TYPE_BUFFER 7 (Some 7%positive)))
      as (w' & Hrun & Hgone & _ & Hfreed & _);
      [solve_NoDup|vm_compute; reflexivity|].
    exists w'. split; [exact Hrun|]. split; [exact Hgone|].
    apply Hfreed. reflexivity.
Defined.

Lemma nvDestroySurfaces_dead_id_faults_witness :
  nvDestroySurfaces [99] demo_buffer = (Crash NullDeref, demo_buffer) /\
  fst (nvDestroySurfaces [2; 2] demo_buffer) = Crash NullDeref.
Proof.
  split.
  - apply (nvDestroySurfaces_dead_id_faults demo_buffer 99 []). vm_compute. reflexivity.
  - apply (proj2 (nvDestroySurfaces_dead_id_faults demo_buffer 2 [])
             demo_surface_addr (surface_at demo_buffer demo_surface_addr));
      [solve_NoDup|vm_compute; reflexivity|vm_compute; reflexivity].
Defined.

Lemma nvDestroyConfig_any_object_witness :
  exists w',
    nvDestroyConfig 5 demo_buffer = (Val VA_STATUS_SUCCESS, w') /\
    getObject (World.drv w') 5 = None /\
    World.heap w' !! demo_ctx_addr = None.
Proof.
  destruct (nvDestroyConfig_any_object demo_buffer 5) as (w' & Hrun & _ & Hlive).
  destruct (Hlive (Object_t.mk OBJECT_TYPE_CONTEXT 5 (Some demo_ctx_addr)))
    as (Hgone & _ & Hfreed); [solve_NoDup|vm_compute; reflexivity|].
  exists w'. split; [exact Hrun|]. split; [exact Hgone|].
  apply Hfreed. reflexivity.
Defined.

Lemma pictureIdxFromSurfaceId_reports_witness :
  pictureIdxFromSurfaceId (R := VAStatus) 7 demo_buffer = (Val (-1), demo_buffer) /\
  exists w',
    nvBeginPicture 5 2 demo_buffer = (Val VA_STATUS_SUCCESS, w') /\
    pictureIdxFromSurfaceId (R := VAStatus) 2 w' = (Val 0, w').
Proof.
  split.
  - apply (pictureIdxFromSurfaceId_reports demo_buffer 5 7). right.
    exists (Object_t.mk OBJECT_TYPE_BUFFER 7 (Some 7%positive)).
    split; [vm_compute; reflexivity|discriminate].
  - destruct (proj2 (pictureIdxFromSurfaceId_reports demo_buffer 5 2)
                (Object_t.mk OBJECT_TYPE_SURFACE 2 (Some demo_surface_addr))
                demo_ctx_addr demo_surface_addr
                (context_at demo_buffer demo_ctx_addr)
                (surface_at demo_buffer demo_surface_addr))
      as (out & w' & idx & Hrun & Hidx & Hout & _ & Hsucc);
      [vm_compute; reflexivity|reflexivity|reflexivity|vm_compute; reflexivity
      |vm_compute; reflexivity|vm_compute; reflexivity|].
    assert (Hrun' : nvBeginPicture 5 2 demo_buffer = (Val VA_STATUS_SUCCESS, w')).
    { rewrite Hrun. f_equal. destruct Hout as [->| ->]; [reflexivity|].
      apply (f_equal fst) in Hrun. vm_compute in Hrun. discriminate Hrun. }
    exists w'. split; [exact Hrun'|].
    rewrite Hrun in Hrun'. injection Hrun' as ->.
    rewrite Hidx. f_equal. f_equal. rewrite (Hsucc eq_refl). vm_compute. reflexivity.
Defined.

Lemma codec_table_scans_witness :
  vaToCuCodec_from [demo_hevc; demo_vp9] VAProfileVP9Profile2 = cudaVideoCodec_VP9 /\
  selectCodec_from 0 [demo_hevc; demo_vp9] VAProfileVP9Profile2 None = Some 1%nat.
Proof.
  destruct (codec_table_scans [demo_hevc; demo_vp9] VAProfileVP9Profile2)
    as [[Hfirst _] [Hlast _]].
  split.
  - apply Hfirst; [discriminate|]. exists 1%nat, demo_vp9.
    split; [reflexivity|]. split; [reflexivity|].
    intros j c' Hj Hc'. destruct j as [|j]; [|lia].
    injection Hc' as <-. reflexivity.
  - apply Hlast. exists demo_vp9. split; [reflexivity|]. split.
    + cbn. by repeat constructor.
    + intros j c' Hj Hc'. destruct j as [|[|j]]; [lia|lia|]. cbn in Hc'. discriminate Hc'.
Defined.

Lemma nvEndPicture_cuda_context_failure_witness :
  exists w' c',
    nvEndPicture env_decode_and_pop_fail 5 demo_begin
      = (Return VA_STATUS_ERROR_OPERATION_FAILED, w') /\
    World.heap w' !! demo_ctx_addr = Some (PContext c') /\
    NVContext.surfaceQueueWriteIdx c' = 0.
Proof.
  destruct (nvEndPicture_cuda_context_failure env_decode_and_pop_fail demo_begin 5
              (Object_t.mk OBJECT_TYPE_CONTEXT 5 (Some demo_ctx_addr))
              demo_ctx_addr (context_at demo_begin demo_ctx_addr))
    as (w' & c' & Hrun & _ & _ & Hc' & _ & Hwi & _);
    [vm_compute; reflexivity|reflexivity|vm_compute; reflexivity
    |right; vm_compute; discriminate|].
  exists w', c'. split; [exact Hrun|]. split; [exact Hc'|].
  rewrite Hwi. vm_compute. reflexivity.
Defined.

Lemma resolveSurfaces_iteration_idle_witness :
  resolveSurfaces_iteration Env.ok demo_ctx_addr demo_buffer
    = (Blocked (resolveCondition demo_ctx_addr), demo_buffer).
Proof.
  apply (resolveSurfaces_iteration_idle Env.ok demo_buffer demo_ctx_addr
           (context_at demo_buffer demo_ctx_addr));
    vm_compute; reflexivity.
Defined.

Lemma nvCreateContext_rejects_witness :
  nvCreateContext Env.ok 99 1920 1080 0 [2; 3] demo_surfaces
    = (Return VA_STATUS_ERROR_INVALID_CONFIG, demo_surfaces) /\
  exists w',
    nvCreateContext Env.ok 1 1920 1080 0 [99] demo_surfaces
      = (Return VA_STATUS_ERROR_INVALID_PARAMETER, w') /\
    World.drv w' = World.drv demo_surfaces.
Proof.
  split.
  - apply (nvCreateContext_rejects Env.ok demo_surfaces 99 1920 1080 0 [2; 3]).
    vm_compute. reflexivity.
  - destruct (proj2 (nvCreateContext_rejects Env.ok demo_surfaces 1 1920 1080 0 [99])
                1%positive (config_at demo_surfaces 1%positive))
      as (out & w' & Hrun & _ & Hrt);
      [vm_compute; reflexivity|vm_compute; reflexivity|].
    destruct (Hrt 0%nat 99 []) as (-> & Hdrv & _);
      [vm_compute; reflexivity|reflexivity|vm_compute; reflexivity|].
    exists w'. split; [exact Hrun|exact Hdrv].
Defined.

Lemma nvCreateSurfaces2_rejects_witness :
  nvCreateSurfaces2 Env.ok 0x10000 1920 1080 3 demo_config
    = (Return VA_STATUS_ERROR_UNSUPPORTED_RT_FORMAT,
       World.log (Log "Unknown format: %X" [0x10000]) demo_config) /\
  exists w',
    nvCreateSurfaces2 (Env.mk 1 0 0 0 1 0 0 0 0 0 true true 1)
        VA_RT_FORMAT_YUV420 1920 1080 3 demo_config
      = (Return VA_STATUS_ERROR_OPERATION_FAILED, w') /\
    World.drv w' = World.drv demo_config.
Proof.
  split.
  - apply (nvCreateSurfaces2_rejects Env.ok demo_config 0x10000 1920 1080 3).
    intros Hin.
    repeat (apply elem_of_cons in Hin as [Heq|Hin]; [vm_compute in Heq; discriminate Heq|]).
    by apply elem_of_nil in Hin.
  - destruct (proj2 (nvCreateSurfaces2_rejects (Env.mk 1 0 0 0 1 0 0 0 0 0 true true 1)
                       demo_config VA_RT_FORMAT_YUV420 1920 1080 3))
      as (w' & Hrun & Hdrv & _);
      [by repeat constructor|vm_compute; discriminate|].
    exists w'. split; [exact Hrun|exact Hdrv].
Defined.

End Runs.
